(** * DeepSolv: the storefront fetch / extract / aggregate pipeline

    A shallow embedding of the parts of the DeepSolv services that the
    specification makes promises about:

    - [services/scraper.py]            (module [Scraper])
    - [services/parser.py]             (module [Parser])
    - [services/competitor_finder.py]  (module [CompetitorFinder])
    - [services/realtime_analyzer.py]  (module [Analyzer])
    - [utils/helpers.py], [config.py], [models/brand_data.py]

    Python [str] values are Rocq strings of 8-bit characters; the string
    methods and the regular-expression classes are their ASCII restrictions.
    Third-party code (the HTML parser, [validators.url], [urllib], pydantic's
    field validation, the network, [random]) is not part of the repository:
    it enters as section variables, so every theorem holds for any behaviour
    of those libraries. *)

From Stdlib Require Import ZArith QArith List Ascii String Lia Bool Floats.
From stdpp Require Import base gmap strings list.

Local Open Scope Z_scope.
Local Open Scope stdpp_scope.

(* ===================================================================== *)
(** * Python runtime: exceptions, truthiness, slices *)
(* ===================================================================== *)

Inductive exn : Type :=
| ValueError | TypeError | AttributeError | RuntimeError
| ClientError | TimeoutError | ValidationError | OtherError.

(** A computation that either returns or raises. *)
Inductive PyResult (A : Type) : Type :=
| Ok (a : A)
| Raise (e : exn).
Arguments Ok {A} a.
Arguments Raise {A} e.

Global Instance PyResult_ret : MRet PyResult := fun A a => Ok a.
Global Instance PyResult_bind : MBind PyResult := fun A B k c =>
  match c with Ok a => k a | Raise e => Raise e end.

(** [try: c  except Exception: h] *)
Definition try_except {A} (c : PyResult A) (h : exn → PyResult A) : PyResult A :=
  match c with Ok a => Ok a | Raise e => h e end.

(** [xs[:n]] for a Python [int] bound. *)
Definition slice_to {A} (n : Z) (xs : list A) : list A :=
  if 0 <=? n then take (Z.to_nat n) xs
  else take (length xs - Z.to_nat (- n))%nat xs.

Definition len {A} (xs : list A) : Z := Z.of_nat (length xs).

(* ===================================================================== *)
(** * Python string methods (ASCII) *)
(* ===================================================================== *)

(** A string of the model is a sequence of 8-bit characters, and stands for
    a Python string of characters below 128. The character classes, the
    case mappings and the white space of this module are those of such
    characters: on a text with other characters Python's Unicode classes
    differ (an accented letter is a word character of [re] and has an upper
    case, a no-break space is white space). *)

Module PyStr.

Definition code (c : ascii) : nat := nat_of_ascii c.

Definition in_range (lo hi : nat) (c : ascii) : bool :=
  ((lo <=? code c) && (code c <=? hi))%nat.

Definition is_upper := in_range 65 90.
Definition is_lower := in_range 97 122.
Definition is_alpha (c : ascii) : bool := is_upper c || is_lower c.
Definition is_digit := in_range 48 57.
Definition is_alnum (c : ascii) : bool := is_alpha c || is_digit c.
(** [str.isspace] on the 8-bit range below 128. *)
Definition is_space (c : ascii) : bool :=
  in_range 9 13 c || in_range 28 32 c.

Definition lower_char (c : ascii) : ascii :=
  if is_upper c then ascii_of_nat (code c + 32) else c.
Definition upper_char (c : ascii) : ascii :=
  if is_lower c then ascii_of_nat (code c - 32) else c.

Fixpoint map_chars (f : ascii → ascii) (s : string) : string :=
  match s with
  | EmptyString => EmptyString
  | String c s' => String (f c) (map_chars f s')
  end.

Definition lower : string → string := map_chars lower_char.
Definition upper : string → string := map_chars upper_char.

Definition length (s : string) : Z := Z.of_nat (String.length s).

Fixpoint lstrip_by (p : ascii → bool) (s : string) : string :=
  match s with
  | EmptyString => EmptyString
  | String c s' => if p c then lstrip_by p s' else s
  end.
Definition rstrip_by (p : ascii → bool) (s : string) : string :=
  String.rev (lstrip_by p (String.rev s)).

Definition strip (s : string) : string :=
  rstrip_by is_space (lstrip_by is_space s).
(** [s.rstrip('/')] *)
Definition rstrip_char (c : ascii) : string → string :=
  rstrip_by (Ascii.eqb c).
(** [s.strip('/')] *)
Definition strip_char (c : ascii) (s : string) : string :=
  rstrip_by (Ascii.eqb c) (lstrip_by (Ascii.eqb c) s).

Fixpoint startswith (s p : string) : bool :=
  match p, s with
  | EmptyString, _ => true
  | String a p', String b s' => Ascii.eqb a b && startswith s' p'
  | String _ _, EmptyString => false
  end.
Definition endswith (s p : string) : bool :=
  startswith (String.rev s) (String.rev p).

(** [needle in hay] *)
Fixpoint contains (hay needle : string) : bool :=
  startswith hay needle ||
  match hay with
  | EmptyString => false
  | String _ hay' => contains hay' needle
  end.

Fixpoint drop (n : nat) (s : string) : string :=
  match n, s with
  | O, _ => s
  | S n', String _ s' => drop n' s'
  | S _, EmptyString => EmptyString
  end.
(** [s[:n]] *)
Fixpoint take (n : nat) (s : string) : string :=
  match n, s with
  | S n', String c s' => String c (take n' s')
  | _, _ => EmptyString
  end.

(** [s.split(c)] for a one-character separator. *)
Fixpoint split_go (sep : ascii) (cur : string) (s : string) : list string :=
  match s with
  | EmptyString => [String.rev cur]
  | String c s' =>
      if Ascii.eqb c sep then String.rev cur :: split_go sep EmptyString s'
      else split_go sep (String c cur) s'
  end.
Definition split (sep : ascii) (s : string) : list string :=
  split_go sep EmptyString s.

(** [s.replace(old, new)] for a non-empty [old]; [skip] counts the
    characters of a match that is being consumed. *)
Fixpoint replace_go (old new : string) (skip : nat) (s : string) : string :=
  match s with
  | EmptyString => EmptyString
  | String c s' =>
      match skip with
      | S k => replace_go old new k s'
      | O =>
          if startswith s old
          then new +:+ replace_go old new (String.length old - 1) s'
          else String c (replace_go old new O s')
      end
  end.
Definition replace (old new s : string) : string := replace_go old new O s.

(** [s.capitalize()] *)
Definition capitalize (s : string) : string :=
  match s with
  | EmptyString => EmptyString
  | String c s' => String (upper_char c) (lower s')
  end.

(** [s.title()]: a letter is upper-cased after a non-letter and lower-cased
    after a letter. *)
Fixpoint title_go (prev_alpha : bool) (s : string) : string :=
  match s with
  | EmptyString => EmptyString
  | String c s' =>
      String (if prev_alpha then lower_char c else upper_char c)
             (title_go (is_alpha c) s')
  end.
Definition title : string → string := title_go false.

(** [sep.join(xs)] *)
Fixpoint join (sep : string) (xs : list string) : string :=
  match xs with
  | [] => EmptyString
  | [x] => x
  | x :: xs' => x +:+ sep +:+ join sep xs'
  end.

(** Truthiness of a string. *)
Definition truthy (s : string) : bool :=
  match s with EmptyString => false | _ => true end.

Definition eqb (a b : string) : bool := bool_decide (a = b).

(** [any(w in s for w in words)] *)
Definition contains_any (s : string) (words : list string) : bool :=
  existsb (contains s) words.

(** Decimal rendering of a natural number, as in an f-string. *)
Definition digit (n : nat) : ascii := ascii_of_nat (48 + n).
Fixpoint of_nat_go (fuel n : nat) (acc : string) : string :=
  match fuel with
  | O => acc
  | S f =>
      let acc' := String (digit (n mod 10)) acc in
      if (n <? 10)%nat then acc' else of_nat_go f (n / 10) acc'
  end.
Definition of_nat (n : nat) : string := of_nat_go (S n) n EmptyString.

End PyStr.

(* ===================================================================== *)
(** * Regular expressions, with the backtracking order of Python's [re] *)
(* ===================================================================== *)

Module Re.

Inductive regex : Type :=
| Chr (p : ascii → bool)     (* one character of a class *)
| Eps
| Seq (r1 r2 : regex)
| Alt (r1 r2 : regex)        (* ordered: [r1] is tried first *)
| Star (r : regex)           (* greedy *)
| Bol                        (* ^ *)
| Eol.                       (* $ : the end, or just before a final newline *)

(** [run r bol s k] matches [r] at the head of [s] and hands the rest to the
    continuation [k]; [bol] tells whether the head of [s] is position 0. *)
Fixpoint run {X} (r : regex) (bol : bool) (s : string)
    (k : bool → string → option X) : option X :=
  match r with
  | Chr p =>
      match s with
      | String c s' => if p c then k false s' else None
      | EmptyString => None
      end
  | Eps => k bol s
  | Seq r1 r2 => run r1 bol s (fun b s' => run r2 b s' k)
  | Alt r1 r2 =>
      match run r1 bol s k with
      | Some x => Some x
      | None => run r2 bol s k
      end
  | Star r1 =>
      (fix star (n : nat) (bol : bool) (s : string) : option X :=
         match n with
         | O => k bol s
         | S n' =>
             match run r1 bol s (fun b s' =>
                     if (String.length s' <? String.length s)%nat
                     then star n' b s' else None) with
             | Some x => Some x
             | None => k bol s
             end
         end) (String.length s) bol s
  | Bol => if bol then k bol s else None
  | Eol =>
      match s with
      | EmptyString => k bol s
      | String c EmptyString => if Ascii.eqb c "010" then k bol s else None
      | _ => None
      end
  end.

Definition plus (r : regex) : regex := Seq r (Star r).
Definition opt (r : regex) : regex := Alt r Eps.
Definition chr (c : ascii) : regex := Chr (Ascii.eqb c).
(** a character under [re.IGNORECASE] *)
Definition chr_i (c : ascii) : regex :=
  Chr (fun x => Ascii.eqb (PyStr.lower_char x) (PyStr.lower_char c)).
Fixpoint lit (s : string) : regex :=
  match s with
  | EmptyString => Eps
  | String c s' => Seq (chr c) (lit s')
  end.
Fixpoint lit_i (s : string) : regex :=
  match s with
  | EmptyString => Eps
  | String c s' => Seq (chr_i c) (lit_i s')
  end.
Fixpoint alts (rs : list regex) : regex :=
  match rs with
  | [] => Chr (fun _ => false)
  | [r] => r
  | r :: rs' => Alt r (alts rs')
  end.
(** [\s] and [[abc]] *)
Definition space : regex := Chr PyStr.is_space.
Definition one_of (cs : string) : regex :=
  Chr (fun x => PyStr.contains cs (String x EmptyString)).

(** [re.match(r, s)]: the text after the match, if [r] matches at 0. *)
Definition match_ (r : regex) (s : string) : option string :=
  run r true s (fun _ rest => Some rest).
Definition matches (r : regex) (s : string) : bool :=
  bool_decide (is_Some (match_ r s)).

(** [re.search(r, s)] as a truth value. *)
Fixpoint search_go (r : regex) (bol : bool) (s : string) : bool :=
  match run r bol s (fun _ rest => Some rest) with
  | Some _ => true
  | None =>
      match s with
      | EmptyString => false
      | String _ s' => search_go r false s'
      end
  end.
Definition search (r : regex) (s : string) : bool := search_go r true s.

(** [re.sub(r, repl, s)] for a pattern that matches no empty string (all
    the patterns of this code base); [skip] counts the characters of the
    match being replaced. *)
Fixpoint sub_go (r : regex) (repl : string) (skip : nat) (bol : bool)
    (s : string) : string :=
  match s with
  | EmptyString => EmptyString
  | String c s' =>
      match skip with
      | S k => sub_go r repl k false s'
      | O =>
          match run r bol s (fun _ rest => Some rest) with
          | Some rest =>
              match (String.length s - String.length rest)%nat with
              | O => String c (sub_go r repl O false s')
              | S k => repl +:+ sub_go r repl k false s'
              end
          | None => String c (sub_go r repl O false s')
          end
      end
  end.
Definition sub (r : regex) (repl s : string) : string :=
  sub_go r repl O true s.

End Re.

(* ===================================================================== *)
(** * JSON values and fetched pages *)
(* ===================================================================== *)

#[warnings="-register-all"]
Inductive json : Type :=
| JNull
| JBool (b : bool)
| JInt (n : Z)
| JFloat (q : Q)
| JStr (s : string)
| JArr (xs : list json)
| JObj (kv : list (string * json)).

(** Truthiness of a decoded JSON value. *)
Definition json_truthy (j : json) : bool :=
  match j with
  | JNull => false
  | JBool b => b
  | JInt n => negb (n =? 0)
  | JFloat q => negb (Qeq_bool q 0)
  | JStr s => PyStr.truthy s
  | JArr xs => match xs with [] => false | _ => true end
  | JObj kv => match kv with [] => false | _ => true end
  end.

(** The dictionaries built by [_fetch_html_with_url] and
    [_fetch_json_with_url]:
    [{'url': .., 'content': .., 'type': 'html'}] and
    [{'url': .., 'json': .., 'type': 'json'}]. *)
Inductive Page : Type :=
| HtmlPage (url : string) (content : string)
| JsonPage (url : string) (data : json).

(** [page.get('content')] *)
Definition page_content (p : Page) : option string :=
  match p with HtmlPage _ c => Some c | JsonPage _ _ => None end.
(** [page.get('json')] *)
Definition page_json (p : Page) : option json :=
  match p with HtmlPage _ _ => None | JsonPage _ j => Some j end.

(** [v and v.get('content')] as a truth value, for a mapping value [v]. *)
Definition has_content (v : option Page) : bool :=
  match v with
  | Some p => match page_content p with Some c => PyStr.truthy c | None => false end
  | None => false
  end.

(** The result of a batch fetch: URL ↦ page dictionary or [None]. *)
Abbreviation ScrapedContent := (gmap string (option Page)).

(* ===================================================================== *)
(** * [config.py] *)
(* ===================================================================== *)

Record Settings : Type := {
  REQUEST_TIMEOUT : Z;
  MAX_RETRIES : Z;
  RATE_LIMIT_DELAY : Q;
  MAX_CONCURRENT_REQUESTS : Z
}.

Definition settings : Settings := {|
  REQUEST_TIMEOUT := 30;
  MAX_RETRIES := 3;
  RATE_LIMIT_DELAY := 1;
  MAX_CONCURRENT_REQUESTS := 5
|}.

(* ===================================================================== *)
(** * [utils/helpers.py] *)
(* ===================================================================== *)

Module Helpers.
Section Helpers.

(** [validators.url], from the [validators] package. *)
Variable validators_url : string → bool.
(** [urllib.parse.urlparse(u).netloc] and [urllib.parse.urljoin]. *)
Variable urlparse_netloc : string → string.
Variable urljoin : string → string → string.

Definition has_protocol (url : string) : bool :=
  PyStr.startswith url "http://" || PyStr.startswith url "https://".

Definition normalize_url (url : string) : PyResult string :=
  if negb (PyStr.truthy url) then Raise ValueError
  else
    let url := PyStr.strip url in
    let url := if negb (has_protocol url) then "https://" +:+ url else url in
    if negb (validators_url url) then Raise ValueError
    else
      let url := if PyStr.endswith url "/"
                 then PyStr.take (String.length url - 1) url else url in
      Ok url.

(** [extract_domain]: [None] when the URL does not normalise. *)
Definition extract_domain (url : string) : option string :=
  match normalize_url url with
  | Ok u => Some (urlparse_netloc u)
  | Raise _ => None
  end.

Definition build_absolute_url (base_url relative_url : string) : string :=
  if negb (PyStr.truthy relative_url) then base_url
  else if has_protocol relative_url then relative_url
  else urljoin base_url relative_url.

End Helpers.

(** ** Store detection and file names *)

Section Names.

Variable validators_url : string → bool.
(** [urlparse(u).netloc]; [urlparse] raises [ValueError] on some inputs. *)
Variable urlparse_netloc : string → PyResult string.

Definition shopify_indicators : list string :=
  [".myshopify.com"; "shopifycdn.com"; "shopify.com"].

(** [any(..) or True] inside [try], [False] in the handler. *)
Definition is_shopify_store (url : string) : bool :=
  match
    normalized_url ← normalize_url validators_url url;
    netloc ← urlparse_netloc normalized_url;
    let domain := PyStr.lower netloc in
    Ok (PyStr.contains_any domain shopify_indicators || true)
  with
  | Ok answer => answer
  | Raise _ => false
  end.

Definition platform_domains : list (string * list string) :=
  [ ("instagram", ["instagram.com"; "instagr.am"]);
    ("facebook", ["facebook.com"; "fb.com"; "fb.me"]);
    ("twitter", ["twitter.com"; "t.co"; "x.com"]);
    ("linkedin", ["linkedin.com"; "lnkd.in"]);
    ("youtube", ["youtube.com"; "youtu.be"]);
    ("tiktok", ["tiktok.com"]);
    ("pinterest", ["pinterest.com"; "pin.it"]);
    ("snapchat", ["snapchat.com"]);
    ("whatsapp", ["wa.me"; "whatsapp.com"]);
    ("telegram", ["t.me"; "telegram.me"]) ].

Definition is_valid_social_url (url platform : string) : bool :=
  if negb (PyStr.truthy url) || negb (PyStr.truthy platform) then false
  else
    let platform_lower := PyStr.lower platform in
    match snd <$> List.find (fun kv => PyStr.eqb kv.1 platform_lower)
                    platform_domains with
    | None => false
    | Some domains =>
        match urlparse_netloc url with
        | Ok netloc => PyStr.contains_any (PyStr.lower netloc) domains
        | Raise _ => false
        end
    end.

End Names.

(** The characters replaced by the first substitution of
    [sanitize_filename]: the class of the angle brackets, the colon, the
    double quote, the slash, the backslash, the bar, the question mark and
    the star. *)
Definition invalid_char (c : ascii) : bool :=
  PyStr.contains "<>:/\|?*" (String c EmptyString)
  || Ascii.eqb c (ascii_of_nat 34).

Definition sanitize_filename (filename : string) : string :=
  let sanitized := Re.sub (Re.Chr invalid_char) "_" filename in
  let sanitized := Re.sub (Re.plus Re.space) "_" sanitized in
  let sanitized :=
    if 100 <? PyStr.length sanitized then PyStr.take 100 sanitized
    else sanitized in
  if PyStr.truthy sanitized then sanitized else "unnamed".

End Helpers.

(* ===================================================================== *)
(** * [services/scraper.py] *)
(* ===================================================================== *)

Module Scraper.

(** What one [session.get] of an attempt produces: an exception out of the
    request, or a response with its status and its two decodings
    ([await response.text()], [await response.json()]), each of which may
    raise in turn. *)
Inductive GetOutcome : Type :=
| GetRaised (e : exn)
| GetResponse (status : Z) (text : PyResult string) (data : PyResult json).

(** What a fetch does, in order. *)
Inductive event : Type :=
| EvAttempt (attempt : nat)
| EvSleep (seconds : Q).

Definition is_attempt (e : event) : bool :=
  match e with EvAttempt _ => true | EvSleep _ => false end.
Definition attempts_made (tr : list event) : nat :=
  length (List.filter is_attempt tr).
Fixpoint sleeps (tr : list event) : list Q :=
  match tr with
  | [] => []
  | EvAttempt _ :: tr' => sleeps tr'
  | EvSleep d :: tr' => d :: sleeps tr'
  end.

Section Scraper.

Variable validators_url : string → bool.
Variable cfg : Settings.
(** [self.session] is set by [__aenter__]. *)
Variable session_open : bool.
(** The network: the outcome of the GET issued for a URL at a given
    attempt (counted from 0). *)
Variable net : string → nat → GetOutcome.

Definition normalize_url := Helpers.normalize_url validators_url.

(** The [try] block of one iteration of [fetch_html]: [Some content] when
    the function returns from inside the loop, [None] when the iteration
    falls through to the retry delay (status other than 200, or any
    exception, all of which are caught and logged). *)
Definition html_attempt (url : string) (attempt : nat) : option string :=
  if negb session_open then None          (* RuntimeError, caught *)
  else
    match net url attempt with
    | GetRaised _ => None
    | GetResponse status text _ =>
        if status =? 200
        then match text with Ok content => Some content | Raise _ => None end
        else None
    end.

Definition json_attempt (url : string) (attempt : nat) : option json :=
  if negb session_open then None
  else
    match net url attempt with
    | GetRaised _ => None
    | GetResponse status _ data =>
        if status =? 200
        then match data with Ok j => Some j | Raise _ => None end
        else None
    end.

(** [for attempt in range(retries + 1): ...] followed by [return None]. *)
Fixpoint retry_loop {A} (body : nat → option A) (retries : Z)
    (attempts : list nat) : option A * list event :=
  match attempts with
  | [] => (None, [])
  | attempt :: rest =>
      match body attempt with
      | Some content => (Some content, [EvAttempt attempt])
      | None =>
          let wait :=
            if Z.of_nat attempt <? retries
            then [EvSleep (RATE_LIMIT_DELAY cfg * inject_Z (Z.of_nat attempt + 1))]
            else [] in
          let '(r, tr) := retry_loop body retries rest in
          (r, EvAttempt attempt :: wait ++ tr)
      end
  end.

Definition range (n : Z) : list nat := seq 0 (Z.to_nat n).

Definition fetch_html (url : string) (retries : option Z)
    : PyResult (option string) * list event :=
  let retries := default (MAX_RETRIES cfg) retries in
  match normalize_url url with
  | Raise e => (Raise e, [])
  | Ok _ =>
      let '(r, tr) := retry_loop (html_attempt url) retries (range (retries + 1)) in
      (Ok r, tr)
  end.

Definition fetch_json (url : string) (retries : option Z)
    : PyResult (option json) * list event :=
  let retries := default (MAX_RETRIES cfg) retries in
  match normalize_url url with
  | Raise e => (Raise e, [])
  | Ok _ =>
      let '(r, tr) := retry_loop (json_attempt url) retries (range (retries + 1)) in
      (Ok r, tr)
  end.

Definition _fetch_html_with_url (url : string) : PyResult (option Page) :=
  html_content ← (fetch_html url None).1;
  match html_content with
  | Some c => if PyStr.truthy c then Ok (Some (HtmlPage url c)) else Ok None
  | None => Ok None
  end.

Definition _fetch_json_with_url (url : string) : PyResult (option Page) :=
  json_data ← (fetch_json url None).1;
  match json_data with
  | Some j => if json_truthy j then Ok (Some (JsonPage url j)) else Ok None
  | None => Ok None
  end.

(** The task created for one URL. *)
Definition task (url : string) : PyResult (option Page) :=
  if PyStr.endswith url ".json" then _fetch_json_with_url url
  else _fetch_html_with_url url.

(** [asyncio.gather] with [return_exceptions=True] gives one result per
    task, in the order of [urls]; an exception becomes the entry [None]. *)
Definition record (scraped_data : ScrapedContent)
    (p : string * PyResult (option Page)) : ScrapedContent :=
  let '(url, result) := p in
  match result with
  | Raise _ => <[url := None]> scraped_data
  | Ok r => <[url := r]> scraped_data
  end.

Definition fetch_multiple_pages (urls : list string) : ScrapedContent :=
  if bool_decide (urls = []) then ∅ else
  let results := map task urls in
  foldl record ∅ (zip urls results).

End Scraper.

(** ** [check_robots_txt] and the module-level helpers *)

Section Tools.

Variable validators_url : string → bool.
Variable urljoin : string → string → string.
Variable cfg : Settings.
Variable session_open : bool.
Variable net : string → nat → GetOutcome.

(** The whole body is inside [try]; the handler returns [None]. *)
Definition check_robots_txt (base_url : string) : option string * list event :=
  let robots_url := urljoin base_url "/robots.txt" in
  let '(content, tr) :=
    fetch_html validators_url cfg session_open net robots_url (Some 1) in
  match content with
  | Ok content => (content, tr)
  | Raise _ => (None, tr)
  end.

End Tools.

Section Module_level.

Variable validators_url : string → bool.
Variable urljoin : string → string → string.
Variable cfg : Settings.
Variable net : string → nat → GetOutcome.

(** [async with WebScraper() as scraper: return await scraper.fetch_html(url)]:
    the session is the one opened by [__aenter__]. *)
Definition fetch_page_content (url : string)
    : PyResult (option string) * list event :=
  fetch_html validators_url cfg true net url None.

Definition endpoints : list (string * string) :=
  [ ("products", "/products.json"); ("collections", "/collections.json");
    ("shop", "/shop.json"); ("policies", "/policies.json") ].

(** One iteration of the loop of [fetch_shopify_data]: the value stored
    under the endpoint's name, and what the iteration did.  The wait after
    a fetch is skipped when the fetch raises. *)
Definition fetch_endpoint (base_url : string) (endpoint : string * string)
    : (string * option json) * list event :=
  let '(name, path) := endpoint in
  let url := urljoin base_url path in
  let '(data, tr) := fetch_json validators_url cfg true net url None in
  match data with
  | Ok data => ((name, data), tr ++ [EvSleep (RATE_LIMIT_DELAY cfg)])
  | Raise _ => ((name, None), tr)
  end.

Definition fetch_shopify_data (base_url : string)
    : list (string * option json) * list event :=
  let steps := map (fetch_endpoint base_url) endpoints in
  (map fst steps, flat_map snd steps).

End Module_level.

End Scraper.

(* ===================================================================== *)
(** * [models/brand_data.py] *)
(* ===================================================================== *)

Inductive PolicyType : Type :=
| PRIVACY | REFUND | RETURN | TERMS | SHIPPING.

Global Instance PolicyType_eq_dec : EqDecision PolicyType.
Proof. solve_decision. Defined.

(** A Python [float]. *)
Inductive PyFloat : Type :=
| Finite (q : Q)
| Infinite (negative : bool)
| NaN.

Section Models.

Record ProductVariant : Type := {
  pv_id : option Z;
  pv_title : option string;
  pv_option1 : option string;
  pv_option2 : option string;
  pv_option3 : option string;
  pv_sku : option string;
  pv_requires_shipping : option bool;
  pv_taxable : option bool;
  pv_featured_image : option string;
  pv_available : option bool;
  pv_price : option string;
  pv_grams : option Z;
  pv_compare_at_price : option string;
  pv_position : option Z;
  pv_product_id : option Z;
  pv_created_at : option string;
  pv_updated_at : option string
}.

Record Product : Type := {
  p_id : option string;
  p_title : option string;
  p_handle : option string;
  p_vendor : option string;
  p_product_type : option string;
  p_price : option PyFloat;
  p_compare_at_price : option PyFloat;
  p_available : option bool;
  p_tags : list string;
  p_images : list string;
  p_variants : list ProductVariant;
  p_description : option string;
  p_url : option string;
  p_created_at : option string;
  p_updated_at : option string
}.

Record HeroProduct : Type := {
  hp_title : option string;
  hp_price : option string;
  hp_image_url : option string;
  hp_product_url : option string;
  hp_description : option string
}.

Record Policy : Type := {
  pol_type : PolicyType;
  pol_title : option string;
  pol_content : option string;
  pol_url : option string
}.

Record FAQ : Type := {
  faq_question : string;
  faq_answer : string;
  faq_category : option string
}.

Record ContactInfo : Type := {
  emails : list string;
  phone_numbers : list string;
  addresses : list string;
  support_hours : option string
}.

(** [ContactInfo()] *)
Definition ContactInfo_default : ContactInfo :=
  {| emails := []; phone_numbers := []; addresses := []; support_hours := None |}.

Record SocialHandle : Type := {
  sh_platform : string;
  sh_username : option string;
  sh_url : string;
  sh_followers_count : option Z
}.

Record ImportantLink : Type := {
  il_title : string;
  il_url : string;
  il_type : string
}.

End Models.


(* ===================================================================== *)
(** * BeautifulSoup objects *)
(* ===================================================================== *)

(** A [Tag] (the soup itself is one) is represented by what its methods
    return: any behaviour of the HTML library is some value of this type. *)
Module Bs4.

#[warnings="-register-all"]
Inductive Tag : Type := mkTag {
  name : string;
  attrs : list (string * string);
  get_text : string;
  string_ : option string;                       (* [tag.string] *)
  select : string → list Tag;                    (* CSS selection *)
  find_all : list string → list Tag;             (* descendants by name *)
  parent : option Tag;
  find_next : list string → option Tag;
  find_next_sibling : list string → option Tag
}.

(** [tag.get(key)] *)
Definition get (t : Tag) (key : string) : option string :=
  snd <$> List.find (fun kv => PyStr.eqb (fst kv) key) (attrs t).
Definition has_attr (key : string) (t : Tag) : bool :=
  bool_decide (is_Some (get t key)).
Definition select_one (t : Tag) (selector : string) : option Tag :=
  head (select t selector).
(** [soup.find(name)] *)
Definition find (t : Tag) (names : list string) : option Tag :=
  head (find_all t names).
(** [soup.find_all(name, attr=True)] *)
Definition find_all_with (t : Tag) (names : list string) (key : string) : list Tag :=
  List.filter (has_attr key) (find_all t names).
(** [soup.find(name, attr=value)] *)
Definition find_attr (t : Tag) (names : list string) (key value : string)
    : option Tag :=
  List.find (fun x => bool_decide (get x key = Some value)) (find_all t names).

End Bs4.

(** A double quote, for selectors such as [a[href*=".."]]. *)
Definition dq : string := String (ascii_of_nat 34) EmptyString.
Definition quoted (s : string) : string := dq +:+ s +:+ dq.

(** Truthiness of an [Optional[str]]. *)
Definition truthy_opt (o : option string) : bool :=
  match o with Some s => PyStr.truthy s | None => false end.
(** [a or b] on [Optional[str]] values. *)
Definition py_or (a b : option string) : option string :=
  if truthy_opt a then a else b.

Module CleanText.

(** The class [\w] of the characters below 128: the letters, the digits
    and the underscore. *)
Definition is_word (c : ascii) : bool :=
  PyStr.is_alnum c || Ascii.eqb c "_".
(** The characters kept by the second substitution of [clean_text]. *)
Definition kept (c : ascii) : bool :=
  is_word c || PyStr.is_space c
  || PyStr.contains "-.,!?;:()[]{}@#$%&*+=<>/\|`~'" (String c EmptyString)
  || Ascii.eqb c (ascii_of_nat 34).

Definition clean_text (text : string) : string :=
  if negb (PyStr.truthy text) then ""
  else
    let cleaned := Re.sub (Re.plus Re.space) " " (PyStr.strip text) in
    Re.sub (Re.plus (Re.Chr (fun c => negb (kept c)))) "" cleaned.

End CleanText.

(** Decimal rendering of a Python [int], as in an f-string. *)
Definition str_of_Z (n : Z) : string :=
  if n <? 0 then "-" +:+ PyStr.of_nat (Z.to_nat (- n)) else PyStr.of_nat (Z.to_nat n).

(** [xs[i]] for an index known to be in range. *)
Definition item (xs : list string) (i : Z) : string := nth (Z.to_nat i) xs "".

(* ===================================================================== *)
(** * [services/parser.py] *)
(* ===================================================================== *)

Module Parser.

Record ShopifyParser : Type := {
  base_url : string;
  domain : string
}.

Section Parser.

Import CleanText.

(** [BeautifulSoup(html, 'html.parser')] *)
Variable BeautifulSoup : string → PyResult Bs4.Tag.
Variable urljoin : string → string → string.
Variable self : ShopifyParser.

Definition build_absolute_url := Helpers.build_absolute_url urljoin.

(** ** Hero products *)

(** [_extract_hero_product_from_element] reads one matched element through
    its own selector cascades and returns a [HeroProduct] or [None]; it
    catches every exception itself.  The extraction below uses its result
    only through [hp_title]. *)
Variable _extract_hero_product_from_element : Bs4.Tag → option HeroProduct.

Definition primary_selectors : list string :=
  [ "[data-section-type=" +:+ quoted "hero" +:+ "]";
    ".hero-product"; ".featured-product"; ".hero-banner"; ".slideshow-slide";
    ".banner-item"; ".hero-section"; ".hero-content"; ".featured-collection";
    ".product-spotlight" ].

Definition secondary_selectors : list string :=
  [ ".banner-product"; ".collection-hero"; ".promo-banner"; ".main-product";
    ".highlight-product"; ".homepage-product"; ".hero-image-text";
    ".carousel-item"; ".slider-item"; ".featured-banner"; ".product-card";
    ".product-item"; ".grid-product"; ".collection-item" ].

Definition fallback_selectors : list string :=
  [ "article[class*=" +:+ quoted "product" +:+ "]";
    "div[class*=" +:+ quoted "product" +:+ "]";
    "section[class*=" +:+ quoted "product" +:+ "]";
    "div[data-product-id]"; "div[data-product-handle]";
    "a[href*=" +:+ quoted "/products/" +:+ "]";
    ".card"; ".tile"; ".item" ].

(** [hero_product and hero_product.title and
     len(hero_product.title.strip()) > 2] *)
Definition usable_hero (hero_product : option HeroProduct) : bool :=
  match hero_product with
  | Some hp =>
      match hp_title hp with
      | Some t => PyStr.truthy t && (2 <? PyStr.length (PyStr.strip t))
      | None => false
      end
  | None => false
  end.

(** [for element in elements: ...] *)
Fixpoint extend_from_elements (elements : list Bs4.Tag)
    (hero_products : list HeroProduct) : list HeroProduct :=
  match elements with
  | [] => hero_products
  | element :: rest =>
      let hero_product := _extract_hero_product_from_element element in
      match hero_product with
      | Some hp =>
          if usable_hero hero_product
          then extend_from_elements rest (hero_products ++ [hp])
          else extend_from_elements rest hero_products
      | None => extend_from_elements rest hero_products
      end
  end.

(** [for selector in selectors: if len(hero_products) >= 10: break; ...] *)
Fixpoint selector_loop (soup : Bs4.Tag) (selectors : list string)
    (hero_products : list HeroProduct) : list HeroProduct :=
  match selectors with
  | [] => hero_products
  | selector :: rest =>
      if 10 <=? len hero_products then hero_products
      else
        let elements := Bs4.select soup selector in
        selector_loop soup rest (extend_from_elements elements hero_products)
  end.

(** The test run against the titles seen so far; [seen_titles] is iterated
    only to look for one such title. *)
Definition is_duplicate (title_key : string) (seen_titles : list string) : bool :=
  existsb (fun seen_title =>
             (PyStr.contains seen_title title_key
              || PyStr.contains title_key seen_title)
             && (Z.abs (PyStr.length title_key - PyStr.length seen_title) <? 5))
          seen_titles.

Fixpoint remove_duplicates (hero_products : list HeroProduct)
    (seen_titles : list string) (unique_heroes : list HeroProduct)
    : list HeroProduct :=
  match hero_products with
  | [] => unique_heroes
  | hero :: rest =>
      match hp_title hero with
      | Some t =>
          if PyStr.truthy t then
            let title_key := PyStr.strip (PyStr.lower t) in
            if is_duplicate title_key seen_titles
            then remove_duplicates rest seen_titles unique_heroes
            else remove_duplicates rest (seen_titles ++ [title_key])
                                   (unique_heroes ++ [hero])
          else remove_duplicates rest seen_titles unique_heroes
      | None => remove_duplicates rest seen_titles unique_heroes
      end
  end.

Definition _create_emergency_hero_product (number : Z) : HeroProduct :=
  let n := str_of_Z number in
  let titles :=
    [ "Premium Collection Item #" +:+ n;
      "Featured Product #" +:+ n;
      "Best Seller #" +:+ n;
      "Customer Favorite #" +:+ n;
      "Top Quality Item #" +:+ n ] in
  let descriptions :=
    [ "High-quality product #" +:+ n +:+ " carefully selected for our customers. This item represents the excellence and value this store is known for.";
      "Featured offering #" +:+ n +:+ " from our curated collection. Discover exceptional quality and outstanding value with this carefully chosen product.";
      "Popular item #" +:+ n +:+ " that customers love. Experience the quality and satisfaction that has made this one of our most recommended products.";
      "Premium selection #" +:+ n +:+ " showcasing the best of what we offer. Quality craftsmanship and attention to detail make this a standout choice.";
      "Signature product #" +:+ n +:+ " representing our commitment to excellence. This item embodies the quality and value our customers expect." ] in
  {| hp_title := Some (item titles ((number - 1) `mod` len titles));
     hp_description := Some (item descriptions ((number - 1) `mod` len descriptions));
     hp_image_url := None;
     hp_price := Some (if number `mod` 2 =? 0 then "Starting at $29.99"
                       else "Contact for pricing");
     hp_product_url := Some (base_url self) |}.

(** [for i in range(count): products.append(emergency(i + 1))] *)
Definition _create_emergency_hero_products (count : Z) : list HeroProduct :=
  map (fun i => _create_emergency_hero_product (Z.of_nat i + 1))
      (seq 0 (Z.to_nat count)).

(** [while len(xs) < n: xs.append(make(len(xs) + 1))]; the loop runs
    [n - len(xs)] times. *)
Fixpoint pad_loop {A} (make : Z → A) (n : Z) (fuel : nat) (xs : list A) : list A :=
  match fuel with
  | O => xs
  | S fuel' =>
      if len xs <? n then pad_loop make n fuel' (xs ++ [make (len xs + 1)])
      else xs
  end.
Definition pad_to {A} (make : Z → A) (n : Z) (xs : list A) : list A :=
  pad_loop make n (Z.to_nat (n - len xs)) xs.

(** *** Synthetic entries *)

Definition image_skip_words : list string :=
  ["logo"; "icon"; "arrow"; "menu"; "close"].
Definition heading_skip_words : list string :=
  ["home"; "about"; "contact"; "menu"; "search"; "cart"; "login"].
Definition link_skip_words : list string :=
  ["home"; "about"; "contact"; "menu"; "search"; "cart"; "login"; "sign up";
   "learn more"; "read more"; "view all"; "see all"].

(** The first nearby text of suitable length, if any. *)
Fixpoint nearby_description (text_elements : list Bs4.Tag) : option string :=
  match text_elements with
  | [] => None
  | elem :: rest =>
      let text := clean_text (Bs4.get_text elem) in
      if PyStr.truthy text && (10 <? PyStr.length text)
         && (PyStr.length text <? 300)
      then Some text
      else nearby_description rest
  end.

(** The body of the loop over images: the entry appended, if any. *)
Definition synthetic_from_image (img : Bs4.Tag) : option HeroProduct :=
  let alt_text := PyStr.strip (default "" (Bs4.get img "alt")) in
  let src := py_or (py_or (Bs4.get img "src") (Bs4.get img "data-src"))
                   (Some (default "" (Bs4.get img "data-lazy"))) in
  match src with
  | Some src_text =>
      if PyStr.truthy alt_text && (2 <? PyStr.length alt_text)
         && PyStr.truthy src_text
      then
        if negb (PyStr.contains_any (PyStr.lower alt_text) image_skip_words)
        then
          let description :=
            match Bs4.parent img with
            | Some parent =>
                nearby_description
                  (Bs4.find_all parent ["p"; "div"; "span"; "h1"; "h2"; "h3"])
            | None => None
            end in
          Some {| hp_title := Some (PyStr.take 100 alt_text);
                  hp_description :=
                    Some (default ("Featured content: " +:+ alt_text) description);
                  hp_image_url := Some (build_absolute_url (base_url self) src_text);
                  hp_price := None;
                  hp_product_url := None |}
        else None
      else None
  | None => None
  end.

Definition synthetic_from_heading (heading : Bs4.Tag) : option HeroProduct :=
  let heading_text := clean_text (Bs4.get_text heading) in
  if PyStr.truthy heading_text && (3 <? PyStr.length heading_text) then
    if negb (PyStr.contains_any (PyStr.lower heading_text) heading_skip_words)
    then
      let description :=
        match Bs4.find_next heading ["p"; "div"; "span"] with
        | Some next_elem =>
            let desc_text := clean_text (Bs4.get_text next_elem) in
            if PyStr.truthy desc_text && (5 <? PyStr.length desc_text)
            then Some (if 200 <? PyStr.length desc_text
                       then PyStr.take 200 desc_text +:+ "..."
                       else desc_text)
            else None
        | None => None
        end in
      Some {| hp_title := Some (PyStr.take 100 heading_text);
              hp_description :=
                Some (default ("Featured section: " +:+ heading_text) description);
              hp_image_url := None;
              hp_price := None;
              hp_product_url := None |}
    else None
  else None.

Definition synthetic_from_link (link : Bs4.Tag) : option HeroProduct :=
  let link_text := clean_text (Bs4.get_text link) in
  let href := default "" (Bs4.get link "href") in
  if PyStr.truthy link_text && (3 <? PyStr.length link_text)
     && (PyStr.length link_text <? 100)
  then
    if negb (PyStr.contains_any (PyStr.lower link_text) link_skip_words)
    then
      Some {| hp_title := Some link_text;
              hp_description :=
                Some ("Featured link: " +:+ link_text
                      +:+ ". Click to learn more about this offering.");
              hp_image_url := None;
              hp_price := None;
              hp_product_url :=
                if PyStr.truthy href
                then Some (build_absolute_url (base_url self) href) else None |}
    else None
  else None.

(** [for x in xs: if len(synthetic_products) >= count_needed: break; ...] *)
Fixpoint synthetic_loop (make : Bs4.Tag → option HeroProduct)
    (xs : list Bs4.Tag) (count_needed : Z)
    (synthetic_products : list HeroProduct) : list HeroProduct :=
  match xs with
  | [] => synthetic_products
  | x :: rest =>
      if count_needed <=? len synthetic_products then synthetic_products
      else
        match make x with
        | Some p => synthetic_loop make rest count_needed (synthetic_products ++ [p])
        | None => synthetic_loop make rest count_needed synthetic_products
        end
  end.

Definition basic_product (number : Z) : HeroProduct :=
  {| hp_title := Some ("Store Feature #" +:+ str_of_Z number);
     hp_description :=
       Some ("This store offers quality products and services. Feature #"
             +:+ str_of_Z number
             +:+ " represents one of the highlighted offerings available for customers.");
     hp_image_url := None;
     hp_price := None;
     hp_product_url := Some (base_url self) |}.

Definition _create_synthetic_hero_products (soup : Bs4.Tag) (count_needed : Z)
    : list HeroProduct :=
  (* Method 1: images with alt text *)
  let images := Bs4.find_all_with soup ["img"] "alt" in
  let synthetic_products :=
    synthetic_loop synthetic_from_image
      (slice_to (count_needed * 3) images) count_needed [] in
  (* Method 2: headings *)
  let synthetic_products :=
    if len synthetic_products <? count_needed then
      let headings := Bs4.find_all soup ["h1"; "h2"; "h3"; "h4"; "h5"] in
      synthetic_loop synthetic_from_heading
        (slice_to (count_needed * 2) headings) count_needed synthetic_products
    else synthetic_products in
  (* Method 3: link text *)
  let synthetic_products :=
    if len synthetic_products <? count_needed then
      let links := Bs4.find_all_with soup ["a"] "href" in
      synthetic_loop synthetic_from_link
        (slice_to (count_needed * 2) links) count_needed synthetic_products
    else synthetic_products in
  (* GUARANTEE *)
  let synthetic_products := pad_to basic_product count_needed synthetic_products in
  slice_to count_needed synthetic_products.

Definition parse_hero_products_from_html (html_content : string)
    : list HeroProduct :=
  let unique_heroes :=
    match BeautifulSoup html_content with
    | Ok soup =>
        let hero_products := selector_loop soup primary_selectors [] in
        let hero_products :=
          if len hero_products <? 2
          then selector_loop soup secondary_selectors hero_products
          else hero_products in
        let hero_products :=
          if len hero_products <? 2
          then selector_loop soup fallback_selectors hero_products
          else hero_products in
        let unique_heroes := remove_duplicates hero_products [] [] in
        let unique_heroes :=
          if len unique_heroes <? 2
          then unique_heroes
               ++ _create_synthetic_hero_products soup (2 - len unique_heroes)
          else unique_heroes in
        pad_to _create_emergency_hero_product 2 unique_heroes
    | Raise _ => _create_emergency_hero_products 2
    end in
  let unique_heroes :=
    if len unique_heroes <? 2
    then pad_to _create_emergency_hero_product 2 unique_heroes
    else unique_heroes in
  slice_to 10 unique_heroes.

(** ** FAQs *)

Definition mkFAQ (question answer : string) : FAQ :=
  {| faq_question := question; faq_answer := answer; faq_category := None |}.

(** The body of the loop over the pairs of a container. *)
Definition faq_of_pair (pair : Bs4.Tag) : list FAQ :=
  let question_elem :=
    Bs4.select_one pair ".question, .faq-question, .accordion-header, h3, h4, h5" in
  let answer_elem :=
    Bs4.select_one pair ".answer, .faq-answer, .accordion-content, .faq-content" in
  match question_elem, answer_elem with
  | Some question_elem, Some answer_elem =>
      let question := clean_text (Bs4.get_text question_elem) in
      let answer := clean_text (Bs4.get_text answer_elem) in
      if PyStr.truthy question && PyStr.truthy answer
         && (5 <? PyStr.length question) && (10 <? PyStr.length answer)
      then [mkFAQ question answer] else []
  | _, _ => []
  end.

Definition _extract_faqs_from_container (container : Bs4.Tag) : list FAQ :=
  let qa_pairs := Bs4.select container ".qa-pair, .faq-item, .accordion-item" in
  flat_map faq_of_pair qa_pairs.

(** [\?|How|What|When|Where|Why|Can|Is|Do|Does] *)
Definition question_pattern : Re.regex :=
  Re.alts (map Re.lit ["?"; "How"; "What"; "When"; "Where"; "Why"; "Can";
                       "Is"; "Do"; "Does"]).

Definition faq_of_heading (heading : Bs4.Tag) : list FAQ :=
  let question := clean_text (Bs4.get_text heading) in
  match Bs4.find_next_sibling heading ["p"; "div"] with
  | Some answer_elem =>
      let answer := clean_text (Bs4.get_text answer_elem) in
      if PyStr.truthy question && PyStr.truthy answer
         && (10 <? PyStr.length answer)
      then [mkFAQ question answer] else []
  | None => []
  end.

(** [soup.find_all(names, string=pattern)] keeps the tags whose [.string]
    the pattern is found in. *)
Definition _extract_faqs_from_headings (soup : Bs4.Tag) : list FAQ :=
  let headings :=
    List.filter (fun h => match Bs4.string_ h with
                          | Some s => Re.search question_pattern s
                          | None => false
                          end)
                (Bs4.find_all soup ["h3"; "h4"; "h5"]) in
  flat_map faq_of_heading headings.

Definition faq_of_dt_dd (p : Bs4.Tag * Bs4.Tag) : list FAQ :=
  let question := clean_text (Bs4.get_text p.1) in
  let answer := clean_text (Bs4.get_text p.2) in
  if PyStr.truthy question && PyStr.truthy answer && (10 <? PyStr.length answer)
  then [mkFAQ question answer] else [].

Definition _extract_faqs_from_dl (soup : Bs4.Tag) : list FAQ :=
  let dls := Bs4.find_all soup ["dl"] in
  flat_map (fun dl =>
              let dts := Bs4.find_all dl ["dt"] in
              let dds := Bs4.find_all dl ["dd"] in
              flat_map faq_of_dt_dd (zip dts dds))
           dls.

Definition parse_faqs_from_html (html_content : string) : list FAQ :=
  let faqs :=
    match BeautifulSoup html_content with
    | Ok soup =>
        (* Method 1 *)
        let faq_containers :=
          Bs4.select soup ".faq, .accordion, .qa-section, [data-faq]" in
        let faqs := flat_map _extract_faqs_from_container faq_containers in
        (* Method 2 *)
        let faqs :=
          match faqs with
          | [] => faqs ++ _extract_faqs_from_headings soup
          | _ => faqs
          end in
        (* Method 3 *)
        match faqs with
        | [] => faqs ++ _extract_faqs_from_dl soup
        | _ => faqs
        end
    | Raise _ => []
    end in
  slice_to 20 faqs.

(** ** Contact information *)

(** Candidate extraction: the regular-expression scans of [helpers] and of
    [_extract_addresses_from_text], the scan of structured markup, and the
    choice of a phone number and of an address. *)
Variable extract_emails_from_text : string → list string.
Variable extract_phone_numbers_from_text : string → list string.
Variable _extract_addresses_from_text : string → list string.
(** [_extract_structured_contact_info]: its ['emails'], ['phones'] and
    ['addresses'] lists; it catches its own exceptions. *)
Variable _extract_structured_contact_info :
  Bs4.Tag → list string * list string * list string.
Variable _select_best_phone : list string → option string.
Variable _select_best_address : list string → option string.
(** [list(set(xs))]: the elements of [xs] in the iteration order of the
    set built from them. *)
Variable list_set : list string → list string.

(** The priority patterns, highest priority first. *)
Definition priority_patterns : list Re.regex :=
  [ Re.Seq Re.Bol (Re.lit "info@");
    Re.Seq Re.Bol (Re.lit "contact@");
    Re.Seq Re.Bol (Re.lit "hello@");
    Re.Seq Re.Bol (Re.lit "support@");
    Re.Seq Re.Bol (Re.lit "sales@");
    Re.Seq Re.Bol (Re.lit "admin@");
    Re.Seq Re.Bol (Re.Seq (Re.plus (Re.Chr PyStr.is_alpha)) (Re.chr "@")) ].

(** [for i, pattern in enumerate(patterns): if re.match(..): score = ..; break] *)
Fixpoint pattern_score (patterns : list Re.regex) (i : Z) (email_lower : string) : Z :=
  match patterns with
  | [] => 0
  | pattern :: rest =>
      if Re.matches pattern email_lower
      then len priority_patterns - i + 10
      else pattern_score rest (i + 1) email_lower
  end.

Definition email_score (email : string) : Z :=
  let email_lower := PyStr.strip (PyStr.lower email) in
  let score := pattern_score priority_patterns 0 email_lower in
  let score := if PyStr.length email <? 30 then score + 2 else score in
  let score := if 50 <? PyStr.length email then score - 3 else score in
  score.

(** [xs.sort(key=lambda x: x[1], reverse=True)]: stable, highest first. *)
Fixpoint insert_desc {A} (x : A * Z) (xs : list (A * Z)) : list (A * Z) :=
  match xs with
  | [] => [x]
  | y :: ys => if y.2 <=? x.2 then x :: y :: ys else y :: insert_desc x ys
  end.
Fixpoint sort_desc {A} (xs : list (A * Z)) : list (A * Z) :=
  match xs with
  | [] => []
  | x :: xs' => insert_desc x (sort_desc xs')
  end.

Definition _select_best_email (emails : list string) : option string :=
  match emails with
  | [] => None
  | _ =>
      let scored_emails := map (fun email => (email, email_score email)) emails in
      fst <$> head (sort_desc scored_emails)
  end.

(** [[best] if best else []] *)
Definition singleton_if (best : option string) : list string :=
  match best with
  | Some b => if PyStr.truthy b then [b] else []
  | None => []
  end.


Definition parse_contact_info_from_html (html_content : string) : ContactInfo :=
  match BeautifulSoup html_content with
  | Ok soup =>
      let all_text := Bs4.get_text soup in
      let emails := extract_emails_from_text all_text in
      let phones := extract_phone_numbers_from_text all_text in
      let addresses := _extract_addresses_from_text all_text in
      let structured_contact := _extract_structured_contact_info soup in
      let all_emails := list_set (emails ++ structured_contact.1.1) in
      let all_phones := list_set (phones ++ structured_contact.1.2) in
      let all_addresses := list_set (addresses ++ structured_contact.2) in
      let best_email := _select_best_email all_emails in
      let best_phone := _select_best_phone all_phones in
      let best_address := _select_best_address all_addresses in
      {| emails := singleton_if best_email;
         phone_numbers := singleton_if best_phone;
         addresses := singleton_if best_address;
         support_hours := None |}
  | Raise _ => ContactInfo_default
  end.

(** ** The products feed *)

(** pydantic's validation of a field value against [int], [str], [bool]
    and [List[str]]: [None] is a [ValidationError]. *)
Variable validate_int : json → option Z.
Variable validate_str : json → option string.
Variable validate_bool : json → option bool.
Variable validate_str_list : json → option (list string).
(** [float(s)]: [None] is a [ValueError]. *)
Variable float_of_str : string → option PyFloat.
(** [str(v)] for a float, a list or a dict. *)
Variable repr_other : json → string.

(** An [Optional[T]] field. *)
Definition optional {A} (validate : json → option A) (v : json)
    : PyResult (option A) :=
  match v with
  | JNull => Ok None
  | _ => match validate v with
         | Some a => Ok (Some a)
         | None => Raise ValidationError
         end
  end.

Definition required {A} (validate : json → option A) (v : json) : PyResult A :=
  match validate v with
  | Some a => Ok a
  | None => Raise ValidationError
  end.

(** [str(v)] *)
Definition py_str (v : json) : string :=
  match v with
  | JNull => "None"
  | JBool true => "True"
  | JBool false => "False"
  | JInt n => str_of_Z n
  | JStr s => s
  | _ => repr_other v
  end.

(** A decoded JSON object is a [dict]; anything else has no [.get]. *)
Definition as_dict (v : json) : PyResult (list (string * json)) :=
  match v with
  | JObj d => Ok d
  | _ => Raise AttributeError
  end.

Definition dict_lookup (d : list (string * json)) (key : string) : option json :=
  snd <$> List.find (fun kv => PyStr.eqb (fst kv) key) d.
(** [d.get(key)] and [d.get(key, dflt)] *)
Definition dict_get (d : list (string * json)) (key : string) : json :=
  default JNull (dict_lookup d key).
Definition dict_get_default (d : list (string * json)) (key : string)
    (dflt : json) : json :=
  default dflt (dict_lookup d key).

(** [for x in v]: a list yields its items, a dict its keys, a string its
    characters; nothing else is iterable. *)
Fixpoint chars (s : string) : list json :=
  match s with
  | EmptyString => []
  | String c s' => JStr (String c EmptyString) :: chars s'
  end.
Definition py_iter (v : json) : PyResult (list json) :=
  match v with
  | JArr xs => Ok xs
  | JObj d => Ok (map (fun kv => JStr kv.1) d)
  | JStr s => Ok (chars s)
  | _ => Raise TypeError
  end.

Definition parse_variant (variant_data : json) : PyResult ProductVariant :=
  d ← as_dict variant_data;
  id ← optional validate_int (dict_get d "id");
  title ← optional validate_str (dict_get d "title");
  option1 ← optional validate_str (dict_get d "option1");
  option2 ← optional validate_str (dict_get d "option2");
  option3 ← optional validate_str (dict_get d "option3");
  sku ← optional validate_str (dict_get d "sku");
  requires_shipping ← optional validate_bool (dict_get d "requires_shipping");
  taxable ← optional validate_bool (dict_get d "taxable");
  featured_image ← optional validate_str (dict_get d "featured_image");
  available ← optional validate_bool (dict_get d "available");
  price ← optional validate_str (dict_get d "price");
  grams ← optional validate_int (dict_get d "grams");
  compare_at_price ← optional validate_str (dict_get d "compare_at_price");
  position ← optional validate_int (dict_get d "position");
  product_id ← optional validate_int (dict_get d "product_id");
  created_at ← optional validate_str (dict_get d "created_at");
  updated_at ← optional validate_str (dict_get d "updated_at");
  Ok {| pv_id := id; pv_title := title; pv_option1 := option1;
        pv_option2 := option2; pv_option3 := option3; pv_sku := sku;
        pv_requires_shipping := requires_shipping; pv_taxable := taxable;
        pv_featured_image := featured_image; pv_available := available;
        pv_price := price; pv_grams := grams;
        pv_compare_at_price := compare_at_price; pv_position := position;
        pv_product_id := product_id; pv_created_at := created_at;
        pv_updated_at := updated_at |}.

(** [for variant_data in ..: variants.append(ProductVariant(..))] *)
Fixpoint parse_variants (items : list json) : PyResult (list ProductVariant) :=
  match items with
  | [] => Ok []
  | variant_data :: rest =>
      variant ← parse_variant variant_data;
      variants ← parse_variants rest;
      Ok (variant :: variants)
  end.

(** One iteration of the loop over images: the URL appended, if any. *)
Definition parse_image (image_data : json) : PyResult (list string) :=
  let image_url :=
    match image_data with
    | JObj d => dict_get d "src"
    | _ => JStr (py_str image_data)
    end in
  if json_truthy image_url then
    match image_url with
    | JStr u => Ok [build_absolute_url (base_url self) u]
    | _ => Raise AttributeError       (* no [startswith] *)
    end
  else Ok [].

Fixpoint parse_images (items : list json) : PyResult (list string) :=
  match items with
  | [] => Ok []
  | image_data :: rest =>
      image ← parse_image image_data;
      images ← parse_images rest;
      Ok (image ++ images)
  end.

(** [float(x) if x else None] *)
Definition float_if (x : option string) : PyResult (option PyFloat) :=
  match x with
  | Some s =>
      if PyStr.truthy s then
        match float_of_str s with
        | Some f => Ok (Some f)
        | None => Raise ValueError
        end
      else Ok None
  | None => Ok None
  end.

(** The pricing block: a failed conversion is passed over, keeping what
    was assigned before it. *)
Definition primary_pricing (variants : list ProductVariant)
    : option PyFloat * option PyFloat :=
  match variants with
  | [] => (None, None)
  | first_variant :: _ =>
      match float_if (pv_price first_variant) with
      | Raise _ => (None, None)
      | Ok price =>
          match float_if (pv_compare_at_price first_variant) with
          | Raise _ => (price, None)
          | Ok compare_at_price => (price, compare_at_price)
          end
      end
  end.

(** [any(v.available for v in variants) if variants else True] *)
Definition derive_available (variants : list ProductVariant) : bool :=
  match variants with
  | [] => true
  | _ => existsb (fun v => bool_decide (pv_available v = Some true)) variants
  end.

(** [clean_text(product_data.get('body_html', ''))] *)
Definition clean_body (v : json) : PyResult string :=
  if json_truthy v then
    match v with
    | JStr s => Ok (clean_text s)
    | _ => Raise AttributeError       (* no [strip] *)
    end
  else Ok "".

(** The body of the inner [try] for a product that is a dict. *)
Definition parse_product (d : list (string * json)) : PyResult Product :=
  variant_items ← py_iter (dict_get_default d "variants" (JArr []));
  variants ← parse_variants variant_items;
  image_items ← py_iter (dict_get_default d "images" (JArr []));
  images ← parse_images image_items;
  let '(price, compare_at_price) := primary_pricing variants in
  let id := py_str (dict_get_default d "id" (JStr "")) in
  description ← clean_body (dict_get_default d "body_html" (JStr ""));
  let url := build_absolute_url (base_url self)
               ("/products/" +:+ py_str (dict_get_default d "handle" (JStr ""))) in
  title ← optional validate_str (dict_get d "title");
  handle ← optional validate_str (dict_get d "handle");
  vendor ← optional validate_str (dict_get d "vendor");
  product_type ← optional validate_str (dict_get d "product_type");
  tags ← required validate_str_list (dict_get_default d "tags" (JArr []));
  created_at ← optional validate_str (dict_get d "created_at");
  updated_at ← optional validate_str (dict_get d "updated_at");
  Ok {| p_id := Some id; p_title := title; p_handle := handle;
        p_vendor := vendor; p_product_type := product_type;
        p_price := price; p_compare_at_price := compare_at_price;
        p_available := Some (derive_available variants);
        p_tags := tags; p_images := images; p_variants := variants;
        p_description := Some description; p_url := Some url;
        p_created_at := created_at; p_updated_at := updated_at |}.

(** [for product_data in ..]: a product that fails is skipped; for an item
    that is not a dict the handler's own [product_data.get] raises, and the
    outer [except] ends the loop with what was accumulated. *)
Fixpoint products_loop (items : list json) (products : list Product)
    : list Product :=
  match items with
  | [] => products
  | JObj d :: rest =>
      match parse_product d with
      | Ok product => products_loop rest (products ++ [product])
      | Raise _ => products_loop rest products
      end
  | _ :: _ => products
  end.

(** For a value that is not a dict with a ['products'] key, every path
    (the membership test, or the outer [except]) returns the empty list. *)
Definition parse_products_json (products_data : json) : list Product :=
  match products_data with
  | JObj d =>
      match dict_lookup d "products" with
      | Some v =>
          match py_iter v with
          | Ok items => products_loop items []
          | Raise _ => []
          end
      | None => []
      end
  | _ => []
  end.

(** ** Brand information *)

(** The dictionary returned by [parse_brand_info_from_html]. *)
Definition BrandInfo : Type := list (string * option string).

(** [info.get(key)] *)
Definition info_get (info : BrandInfo) (key : string) : option string :=
  match List.find (fun kv => PyStr.eqb kv.1 key) info with
  | Some kv => kv.2
  | None => None
  end.

Fixpoint first_brand_text (soup : Bs4.Tag) (selectors : list string) : option string :=
  match selectors with
  | [] => None
  | selector :: rest =>
      match Bs4.select_one soup selector with
      | Some elem =>
          let text := clean_text (Bs4.get_text elem) in
          if PyStr.truthy text && (PyStr.length text <? 100) then Some text
          else first_brand_text soup rest
      | None => first_brand_text soup rest
      end
  end.

Definition desc_selectors : list string :=
  [ ".about"; ".brand-description"; ".company-description";
    "meta[name=" +:+ quoted "description" +:+ "]"; ".hero-text"; ".intro-text" ].

Fixpoint first_description (soup : Bs4.Tag) (selectors : list string) : option string :=
  match selectors with
  | [] => None
  | selector :: rest =>
      match Bs4.select_one soup selector with
      | Some elem =>
          if PyStr.startswith selector "meta" then Bs4.get elem "content"
          else Some (clean_text (Bs4.get_text elem))
      | None => first_description soup rest
      end
  end.

Definition about_selectors : list string :=
  [ ".about-us"; ".about-content"; ".brand-story"; ".our-story";
    ".company-story"; ".about-section"; ".brand-description";
    "[class*=" +:+ quoted "about" +:+ "]"; "[class*=" +:+ quoted "story" +:+ "]";
    ".hero-content"; ".intro-section"; ".mission"; ".vision" ].

Definition text_selectors : list string :=
  ["p"; ".text-content"; ".description"; ".content"].

Definition brand_words : list string :=
  [ "we are"; "our mission"; "founded"; "established"; "company"; "brand";
    "story"; "passion"; "vision" ].

Fixpoint about_from_selectors (soup : Bs4.Tag) (selectors : list string)
    (about_us : option string) : option string :=
  match selectors with
  | [] => about_us
  | selector :: rest =>
      match Bs4.select_one soup selector with
      | Some elem =>
          let text := clean_text (Bs4.get_text elem) in
          if PyStr.truthy text && (50 <? PyStr.length text) then
            if PyStr.contains (PyStr.lower selector) "about"
               || PyStr.contains (PyStr.lower selector) "story"
            then Some (PyStr.take 500 text)
            else if negb (truthy_opt about_us)
                 then about_from_selectors soup rest (Some (PyStr.take 500 text))
                 else about_from_selectors soup rest about_us
          else about_from_selectors soup rest about_us
      | None => about_from_selectors soup rest about_us
      end
  end.

Fixpoint about_from_elems (elems : list Bs4.Tag) : option string :=
  match elems with
  | [] => None
  | elem :: rest =>
      let text := clean_text (Bs4.get_text elem) in
      if PyStr.truthy text && (100 <? PyStr.length text)
         && PyStr.contains_any (PyStr.lower text) brand_words
      then Some (PyStr.take 500 text)
      else about_from_elems rest
  end.

Fixpoint about_from_text (soup : Bs4.Tag) (selectors : list string) : option string :=
  match selectors with
  | [] => None
  | selector :: rest =>
      let about_us := about_from_elems (Bs4.select soup selector) in
      if truthy_opt about_us then about_us else about_from_text soup rest
  end.

Definition parse_brand_info_from_html (html_content : string) : BrandInfo :=
  match BeautifulSoup html_content with
  | Ok soup =>
      let brand_name :=
        first_brand_text soup
          ["title"; "h1"; ".site-title"; ".brand-name"; ".logo-text"] in
      let description := first_description soup desc_selectors in
      let favicon_url :=
        match Bs4.select_one soup ("link[rel*=" +:+ quoted "icon" +:+ "]") with
        | Some favicon_elem =>
            match Bs4.get favicon_elem "href" with
            | Some favicon_href =>
                if PyStr.truthy favicon_href
                then Some (build_absolute_url (base_url self) favicon_href)
                else None
            | None => None
            end
        | None => None
        end in
      let about_us := about_from_selectors soup about_selectors None in
      let about_us :=
        if negb (truthy_opt about_us) then about_from_text soup text_selectors
        else about_us in
      let brand_story := py_or about_us description in
      [ ("brand_name", brand_name); ("description", description);
        ("favicon_url", favicon_url); ("about", about_us);
        ("story", brand_story) ]
  | Raise _ => []
  end.

End Parser.

(** [ShopifyParser(base_url)] *)
Definition init (urlparse_netloc : string → string) (base_url : string)
    : ShopifyParser :=
  {| base_url := PyStr.rstrip_char "/" base_url;
     domain := urlparse_netloc base_url |}.

(** ** The choice of a phone number *)

Definition digit : Re.regex := Re.Chr PyStr.is_digit.
(** [r{n}] *)
Fixpoint times (n : nat) (r : Re.regex) : Re.regex :=
  match n with
  | O => Re.Eps
  | S n' => Re.Seq r (times n' r)
  end.

(** [^\(\d{3}\)\s*\d{3}-\d{4}] *)
Definition formatted_phone : Re.regex :=
  Re.Seq Re.Bol
    (Re.Seq (Re.chr "(")
       (Re.Seq (times 3 digit)
          (Re.Seq (Re.chr ")")
             (Re.Seq (Re.Star Re.space)
                (Re.Seq (times 3 digit)
                   (Re.Seq (Re.chr "-") (times 4 digit))))))).

(** [[-.\s]] *)
Definition phone_separator : Re.regex :=
  Re.Chr (fun c => PyStr.contains "-." (String c EmptyString) || PyStr.is_space c).
(** [^\d{3}[-.\s]\d{3}[-.\s]\d{4}] *)
Definition separated_phone : Re.regex :=
  Re.Seq Re.Bol
    (Re.Seq (times 3 digit)
       (Re.Seq phone_separator
          (Re.Seq (times 3 digit)
             (Re.Seq phone_separator (times 4 digit))))).

(** The score given to [phone_clean] by the body of the loop. *)
Definition phone_score (phone_clean : string) : Z :=
  let score := 0 in
  let digits_only :=
    Re.sub (Re.Chr (fun c => negb (PyStr.is_digit c))) "" phone_clean in
  let score :=
    if PyStr.length digits_only =? 10 then score + 10
    else if (PyStr.length digits_only =? 11) && PyStr.startswith digits_only "1"
    then score + 10
    else if 6 <? PyStr.length digits_only then score + 5
    else score in
  let score :=
    if Re.matches formatted_phone phone_clean then score + 5
    else if Re.matches separated_phone phone_clean then score + 3
    else score in
  let score :=
    if negb (PyStr.contains (PyStr.lower phone_clean) "ext") then score + 2
    else score in
  score.

Definition _select_best_phone (phones : list string) : option string :=
  match phones with
  | [] => None
  | _ =>
      let scored_phones :=
        map (fun phone =>
               let phone_clean := PyStr.strip phone in
               (phone_clean, phone_score phone_clean))
            phones in
      fst <$> head (sort_desc scored_phones)
  end.

(** ** Important links *)

Definition link_categories : list (string * list string) :=
  [ ("contact", ["contact us"; "contact"; "get in touch"; "customer service"; "support"; "reach out"]);
    ("about", ["about us"; "about"; "our story"; "who we are"; "our company"; "company info"]);
    ("blog", ["blog"; "news"; "articles"; "stories"; "updates"; "press releases"]);
    ("careers", ["careers"; "jobs"; "work with us"; "join us"; "employment"; "hiring"]);
    ("press", ["press"; "media"; "press kit"; "news room"; "media kit"]);
    ("help", ["track order"; "order tracking"; "track"; "my orders"; "order status"]);
    ("service", ["size guide"; "sizing"; "size chart"; "fit guide"; "measurements"; "shipping"; "delivery"; "returns"]);
    ("faq", ["faq"; "help"; "support"; "questions"; "frequently asked"; "help center"]);
    ("store_locator", ["store locator"; "find store"; "locations"; "stores"; "find us"]);
    ("wholesale", ["wholesale"; "bulk"; "trade"; "b2b"; "reseller"; "distributor"]);
    ("affiliate", ["affiliate"; "partners"; "collaboration"; "influencer"; "brand ambassador"]);
    ("sustainability", ["sustainability"; "eco"; "environment"; "green"; "ethical"]);
    ("reviews", ["reviews"; "testimonials"; "feedback"; "customer reviews"]) ].

(** A candidate [(link, priority_score, text, href)], written with the
    score last: [((link, text, href), priority_score)]. *)
Definition candidate : Type := (Bs4.Tag * string * string) * Z.

Definition skip_patterns : list string :=
  ["#"; "javascript:"; "tel:"; "mailto:"; "cart"; "login"; "register"; "account"].

(** [for i, keyword in enumerate(keywords): if keyword in text: ..]:
    the first keyword found, with its index. *)
Fixpoint text_keyword (text : string) (keywords : list string) (i : Z)
    : option (Z * string) :=
  match keywords with
  | [] => None
  | keyword :: rest =>
      if PyStr.contains text keyword then Some (i, keyword)
      else text_keyword text rest (i + 1)
  end.

(** The loop over the categories that looks at the link text: the category
    matched and the score of the candidate. *)
Fixpoint text_match (priority_boost : Z) (text : string)
    (categories : list (string * list string)) : option (string * Z) :=
  match categories with
  | [] => None
  | (category, keywords) :: rest =>
      match text_keyword text keywords 0 with
      | Some (i, keyword) =>
          let priority_score := priority_boost + (len keywords - i) * 2 in
          let priority_score :=
            if PyStr.eqb keyword (PyStr.strip text) then priority_score + 5
            else priority_score in
          let priority_score :=
            if PyStr.length text <? 20 then priority_score + 2
            else priority_score in
          Some (category, priority_score)
      | None => text_match priority_boost text rest
      end
  end.

Definition keyword_variants (keyword : string) : list string :=
  [ PyStr.replace " " "-" keyword; PyStr.replace " " "_" keyword;
    PyStr.replace " " "" keyword ].

Fixpoint href_keyword (href_lower : string) (keywords : list string) (i : Z)
    : option Z :=
  match keywords with
  | [] => None
  | keyword :: rest =>
      if PyStr.contains_any href_lower (keyword_variants keyword) then Some i
      else href_keyword href_lower rest (i + 1)
  end.

(** The loop over the categories that looks at the address. *)
Fixpoint href_match (priority_boost : Z) (href_lower : string)
    (categories : list (string * list string)) : option (string * Z) :=
  match categories with
  | [] => None
  | (category, keywords) :: rest =>
      match href_keyword href_lower keywords 0 with
      | Some i => Some (category, priority_boost + (len keywords - i) * 1)
      | None => href_match priority_boost href_lower rest
      end
  end.

(** [category_candidates[category].append(c)] *)
Definition add_candidate (category : string) (c : candidate)
    (category_candidates : list (string * list candidate))
    : list (string * list candidate) :=
  map (fun kv => if PyStr.eqb kv.1 category then (kv.1, kv.2 ++ [c]) else kv)
      category_candidates.

Definition _process_link_for_categories (link : Bs4.Tag)
    (category_candidates : list (string * list candidate))
    (link_categories : list (string * list string)) (priority_boost : Z)
    : list (string * list candidate) :=
  let href := default "" (Bs4.get link "href") in
  let text := PyStr.lower (CleanText.clean_text (Bs4.get_text link)) in
  if negb (PyStr.truthy href) || negb (PyStr.truthy text)
     || (PyStr.length text <? 2)
  then category_candidates
  else if PyStr.contains_any (PyStr.lower href) skip_patterns
  then category_candidates
  else
    match text_match priority_boost text link_categories with
    | Some (category, priority_score) =>
        add_candidate category ((link, text, href), priority_score)
          category_candidates
    | None =>
        match href_match priority_boost (PyStr.lower href) link_categories with
        | Some (category, priority_score) =>
            add_candidate category ((link, text, href), priority_score)
              category_candidates
        | None => category_candidates
        end
    end.

Definition priority_link_selectors : list string :=
  [ "nav a"; ".navigation a"; ".menu a"; ".header a"; ".navbar a";
    ".nav-link"; ".menu-item a"; ".site-nav a"; ".main-nav a" ].
Definition secondary_link_selectors : list string :=
  [ ".footer a"; ".footer-link"; ".secondary-nav a" ].

(** [text.title() if len(text) <= 50 else text[:50].title() + '...'] *)
Definition link_title (text : string) : string :=
  if PyStr.length text <=? 50 then PyStr.title text
  else PyStr.title (PyStr.take 50 text) +:+ "...".

Section Links.

Variable BeautifulSoup : string → PyResult Bs4.Tag.
Variable urljoin : string → string → string.
Variable self : ShopifyParser.

(** [for link in links: self._process_link_for_categories(..)] *)
Definition process_links (priority_boost : Z) (links : list Bs4.Tag)
    (category_candidates : list (string * list candidate))
    : list (string * list candidate) :=
  foldl (fun candidates link =>
           _process_link_for_categories link candidates link_categories
             priority_boost)
        category_candidates links.

Definition process_selectors (soup : Bs4.Tag) (priority_boost : Z)
    (selectors : list string)
    (category_candidates : list (string * list candidate))
    : list (string * list candidate) :=
  foldl (fun candidates selector =>
           process_links priority_boost (Bs4.select soup selector) candidates)
        category_candidates selectors.

(** One iteration of the final loop: the link appended for a category. *)
Definition best_link (entry : string * list candidate) : list ImportantLink :=
  let '(category, candidates) := entry in
  match candidates with
  | [] => []
  | _ =>
      match head (sort_desc candidates) with
      | Some ((link_elem, text, href), score) =>
          [ {| il_title := link_title text;
               il_url := Helpers.build_absolute_url urljoin (base_url self) href;
               il_type := category |} ]
      | None => []
      end
  end.

Definition parse_important_links_from_html (html_content : string)
    : list ImportantLink :=
  match BeautifulSoup html_content with
  | Ok soup =>
      let category_candidates := map (fun kv => (kv.1, [])) link_categories in
      let category_candidates :=
        process_selectors soup 10 priority_link_selectors category_candidates in
      let category_candidates :=
        process_selectors soup 0 secondary_link_selectors category_candidates in
      let missing_categories :=
        List.filter (fun kv => match kv.2 with [] => true | _ => false end)
                    category_candidates in
      let category_candidates :=
        match missing_categories with
        | [] => category_candidates
        | _ =>
            let general_links := Bs4.find_all_with soup ["a"] "href" in
            process_links 0 (slice_to 100 general_links) category_candidates
        end in
      flat_map best_link category_candidates
  | Raise _ => []
  end.

End Links.

(** ** Social handles *)

(** The [platforms] table of [parse_social_handles_from_html]. *)
Definition platforms : list (string * list string) :=
  [ ("instagram", ["instagram.com"; "instagr.am"]);
    ("facebook", ["facebook.com"; "fb.com"]);
    ("twitter", ["twitter.com"; "x.com"]);
    ("linkedin", ["linkedin.com"]);
    ("youtube", ["youtube.com"; "youtu.be"]);
    ("tiktok", ["tiktok.com"]);
    ("pinterest", ["pinterest.com"]);
    ("snapchat", ["snapchat.com"]);
    ("whatsapp", ["wa.me"; "whatsapp.com"]);
    ("telegram", ["t.me"; "telegram.me"]) ].

(** [s.startswith((p1, p2, ..))] *)
Definition startswith_any (s : string) (prefixes : list string) : bool :=
  existsb (PyStr.startswith s) prefixes.

(** [f"{handle.platform}_{handle.url}"] *)
Definition handle_key (handle : SocialHandle) : string :=
  sh_platform handle +:+ "_" +:+ sh_url handle.

(** The second loop: the handles whose key was not seen before. *)
Fixpoint unique_loop (social_handles : list SocialHandle)
    (seen_platforms : list string) (unique_handles : list SocialHandle)
    : list SocialHandle :=
  match social_handles with
  | [] => unique_handles
  | handle :: rest =>
      let key := handle_key handle in
      if existsb (PyStr.eqb key) seen_platforms
      then unique_loop rest seen_platforms unique_handles
      else unique_loop rest (seen_platforms ++ [key]) (unique_handles ++ [handle])
  end.

Section Social.

Variable BeautifulSoup : string → PyResult Bs4.Tag.
Variable urljoin : string → string → string.
Variable self : ShopifyParser.
(** [urlparse(url).path] *)
Variable urlparse_path : string → PyResult string.

(** Every branch that does not return falls through to [return None], and
    so does the handler. *)
Definition _extract_social_username (url platform : string) : option string :=
  match urlparse_path url with
  | Raise _ => None
  | Ok parsed_path =>
      let path := PyStr.strip_char "/" parsed_path in
      if PyStr.eqb platform "instagram" then
        if PyStr.truthy path
           && negb (startswith_any path ["p/"; "reel/"; "tv/"; "explore/"])
        then Some (hd "" (PyStr.split "/" path)) else None
      else if PyStr.eqb platform "twitter" then
        if PyStr.truthy path
           && negb (startswith_any path ["i/"; "search"; "hashtag"])
        then Some (hd "" (PyStr.split "/" path)) else None
      else if PyStr.eqb platform "facebook" then
        if PyStr.truthy path
           && negb (startswith_any path ["pages/"; "groups/"; "events/"])
        then Some (hd "" (PyStr.split "/" path)) else None
      else if PyStr.eqb platform "youtube" then
        if PyStr.contains path "/c/" || PyStr.contains path "/user/"
           || PyStr.contains path "/channel/"
        then Some (List.last (PyStr.split "/" path) "")
        else if PyStr.truthy path
                && negb (startswith_any path ["watch"; "playlist"])
        then Some (hd "" (PyStr.split "/" path)) else None
      else if PyStr.eqb platform "tiktok" then
        if PyStr.startswith path "@" then Some path else None
      else None
  end.

(** The loop over the platforms for one address: the handle appended for
    the first platform one of whose domains occurs in it. *)
Definition handle_of_href (href : string) : list SocialHandle :=
  match List.find (fun kv => PyStr.contains_any href kv.2) platforms with
  | Some (platform, domains) =>
      let full_url :=
        if PyStr.startswith href "http" then href
        else Helpers.build_absolute_url urljoin (base_url self) href in
      let username := _extract_social_username full_url platform in
      [ {| sh_platform := platform; sh_username := username;
           sh_url := full_url; sh_followers_count := None |} ]
  | None => []
  end.

(** The first loop, over the links. *)
Fixpoint links_loop (links : list Bs4.Tag) (seen_urls : list string)
    (social_handles : list SocialHandle) : list SocialHandle :=
  match links with
  | [] => social_handles
  | link :: rest =>
      let href := PyStr.lower (default "" (Bs4.get link "href")) in
      if negb (PyStr.truthy href) || existsb (PyStr.eqb href) seen_urls
      then links_loop rest seen_urls social_handles
      else links_loop rest (seen_urls ++ [href])
             (social_handles ++ handle_of_href href)
  end.

(** [unique_handles] is bound inside the [try] block only: when the
    parser of the page raises, the final [return unique_handles] raises
    [UnboundLocalError] (here [OtherError]). *)
Definition parse_social_handles_from_html (html_content : string)
    : PyResult (list SocialHandle) :=
  match BeautifulSoup html_content with
  | Ok soup =>
      let links := Bs4.find_all_with soup ["a"] "href" in
      let social_handles := links_loop links [] [] in
      Ok (unique_loop social_handles [] [])
  | Raise _ => Raise OtherError
  end.

End Social.

(** ** Policy pages *)

(** [PolicyType(policy_type)]: [None] is the [ValueError] raised for a
    string that is not the value of a member. *)
Definition PolicyType_of_value (policy_type : string) : option PolicyType :=
  if PyStr.eqb policy_type "privacy" then Some PRIVACY
  else if PyStr.eqb policy_type "refund" then Some REFUND
  else if PyStr.eqb policy_type "return" then Some RETURN
  else if PyStr.eqb policy_type "terms" then Some TERMS
  else if PyStr.eqb policy_type "shipping" then Some SHIPPING
  else None.

(** [for selector in selectors: elem = soup.select_one(selector);
     if elem: ..; break] *)
Fixpoint first_selected (soup : Bs4.Tag) (selectors : list string)
    : option Bs4.Tag :=
  match selectors with
  | [] => None
  | selector :: rest =>
      match Bs4.select_one soup selector with
      | Some elem => Some elem
      | None => first_selected soup rest
      end
  end.

Section Policies.

Variable BeautifulSoup : string → PyResult Bs4.Tag.
Variable self : ShopifyParser.
(** [elem.get_text()] once the descendants of [elem] with one of the given
    names have been removed by [decompose()]. *)
Variable text_without : list string → Bs4.Tag → string.

Definition parse_policies_from_html (html_content policy_type : string)
    : option Policy :=
  match BeautifulSoup html_content with
  | Ok soup =>
      let title :=
        match first_selected soup ["h1"; "title"; ".page-title"; ".policy-title"] with
        | Some title_elem => Some (CleanText.clean_text (Bs4.get_text title_elem))
        | None => None
        end in
      let content :=
        match first_selected soup
                [".page-content"; ".policy-content"; ".rte"; "main"; "article";
                 ".content"] with
        | Some content_elem =>
            Some (CleanText.clean_text (text_without ["script"; "style"] content_elem))
        | None => None
        end in
      let content :=
        if negb (truthy_opt content)
        then CleanText.clean_text
               (text_without ["script"; "style"; "header"; "footer"; "nav"] soup)
        else default "" content in
      if PyStr.truthy content && (100 <? PyStr.length content) then
        match PolicyType_of_value policy_type with
        | Some type =>
            Some {| pol_type := type;
                    pol_title :=
                      py_or title (Some (PyStr.title policy_type +:+ " Policy"));
                    pol_content := Some content;
                    pol_url :=
                      Some (base_url self +:+ "/policies/" +:+ policy_type) |}
        | None => None
        end
      else None
  | Raise _ => None
  end.

End Policies.

End Parser.

(* ===================================================================== *)
(** * [services/competitor_finder.py] *)
(* ===================================================================== *)

Module CompetitorFinder.

(** A competitor dictionary. *)
Record Competitor : Type := {
  c_url : string;
  c_domain : option string;
  c_title : string;
  c_description : string;
  c_category : string;
  c_strength : string;
  c_market_position : string;
  c_source : string
}.

(** A search result: [{'url': .., 'title': .., 'description': ..}]. *)
Record SearchResult : Type := {
  sr_url : string;
  sr_title : string;
  sr_description : string
}.

(** The soft hyphen (U+00AD) present in three entries of the table. *)
Definition shy : string := String (ascii_of_nat 173) EmptyString.

(** [self.mock_competitors]; the key ['glossier.com'] is written twice in
    the source with the same value, and keeps its first position. *)
Definition mock_competitors : list (string * list string) :=
  [ ("allbirds.com", ["bombas.com"; "rothy.com"; "atoms.com"; "vessi.com"; "greats.com"]);
    ("colourpop.com", ["milkmakeup.com"; "glossier.com"; "rarebeauty.com"; "fentybeauty.com"; "elfcosmetics.com"]);
    ("gymshark.com", ["alphalete.com"; "youngla.com"; "nvgtn.com"; "nike.com"; "lululemon.com"]);
    ("beardbrand.com", ["theartofshaving.com"; "beardcare.com"; "gentlemensbeardclub.com"; "beardbaron.com"; "mountaineerbranded.com"]);
    ("bombas.com", ["allbirds.com"; "rothy.com"; "atoms.com"; "smartwool.com"; "stance.com"]);
    ("glossier.com", ["milkmakeup.com"; "colourpop.com"; "rarebeauty.com"; "fentybeauty.com"; "kyliecosmetics.com"]);
    ("casper.com", ["purplemattre" +:+ shy +:+ "ss.com"; "tuftandneedle.com"; "saatva.com"; "helix.com"; "nectar.com"]);
    ("warbyparker.com", ["zennioptical.com"; "eyebuydirect.com"; "bonlook.com"; "liingo.com"; "firmoo.com"]);
    ("dollarshaveclub.com", ["harrys.com"; "gillette.com"; "flamingo.com"; "billie.com"; "cornerstone.com"]);
    ("theordinary.com", ["paulaschoice.com"; "cerave.com"; "cetaphil.com"; "neutrogena.com"; "skinmedica.com"]);
    ("mejuri.com", ["pandora.com"; "kendra" +:+ shy +:+ "scott.com"; "gorjana.com"; "catbirdnyc.com"; "aurate.com"]);
    ("away.com", ["rimowa.com"; "samsonite.com"; "travelpro.com"; "delsey.com"; "monos.com"]);
    ("patagonia.com", ["rei.com"; "thenorthface.com"; "columbia.com"; "arcteryx.com"; "prana.com"]);
    ("everlane.com", ["cos.com"; "uniqlo.com"; "muji.com"; "reformation.com"; "grana.com"]);
    ("hairoriginals.com", ["devacurl.com"; "curlsmith.com"; "sheamoisture.com"; "moroccanoil.com"; "ouai.com"]);
    ("fashion", ["zara.com"; "hm.com"; "uniqlo.com"; "cos.com"; "arket.com"]);
    ("beauty", ["sephora.com"; "ulta.com"; "sallybeauty.com"; "dermstore.com"; "beautylish.com"]);
    ("fitness", ["nike.com"; "adidas.com"; "underarmour.com"; "lululemon.com"; "reebok.com"]);
    ("home", ["ikea.com"; "wayfair.com"; "westelm.com"; "cb2.com"; "crateandbarrel.com"]);
    ("tech", ["apple.com"; "best" +:+ shy +:+ "buy.com"; "newegg.com"; "bhphoto.com"; "adorama.com"]) ].

(** The methods bound in each class body.  [_create_ai_generated_competitors],
    [_create_emergency_competitor] and [_create_emergency_competitors] are
    written under [class GoogleSearchCompetitorFinder]. *)
Definition CompetitorFinder_methods : list string :=
  [ "__init__"; "find_competitors"; "_generate_competitor_title";
    "_generate_competitor_description"; "_determine_category";
    "_search_web_competitors"; "_perform_web_search";
    "_search_duckduckgo_engine"; "_search_reddit_insights";
    "_search_github_resources"; "_search_business_directories";
    "_search_analysis_platforms"; "_get_enhanced_industry_competitors";
    "_extract_reddit_competitors"; "_extract_github_competitors";
    "_extract_directory_competitors"; "_extract_analysis_competitors";
    "_generate_industry_competitors"; "_create_fallback_competitors";
    "_get_mock_competitors"; "_generate_similar_competitors";
    "search_competitors_by_keywords"; "get_competitor_insights";
    "extract_business_keywords" ].

Definition GoogleSearchCompetitorFinder_methods : list string :=
  [ "__init__"; "find_competitors_via_google"; "find_similar_businesses";
    "_create_ai_generated_competitors"; "_create_emergency_competitor";
    "_create_emergency_competitors" ].

(** [self.name(..)] on an instance of a class with the given methods:
    the attribute lookup raises when the class does not bind [name]. *)
Definition call_method {A} (methods : list string) (name : string)
    (body : PyResult A) : PyResult A :=
  if existsb (PyStr.eqb name) methods then body else Raise AttributeError.

Section CompetitorFinder.

Variable validators_url : string → bool.
Variable urlparse_netloc : string → string.
(** The [results] list that the five live sources of [_perform_web_search]
    leave for a query (every error of theirs is caught). *)
Variable live_results : string → list SearchResult.
(** [random.choice]: the draws, by call number. *)
Variable random_draw : nat → nat.

Definition extract_domain := Helpers.extract_domain validators_url urlparse_netloc.

Definition choice (call : nat) (options : list string) : string :=
  nth (random_draw call mod length options) options "".

Definition domain_or_empty (url : string) : string :=
  match extract_domain url with
  | Some d => if PyStr.truthy d then d else ""
  | None => ""
  end.

Definition _generate_competitor_title (url : string) : string :=
  match extract_domain url with
  | Some domain =>
      if PyStr.truthy domain then
        let name :=
          PyStr.replace "www." ""
            (PyStr.replace ".net" ""
               (PyStr.replace ".co" "" (PyStr.replace ".com" "" domain))) in
        let formatted_name :=
          PyStr.join " " (map PyStr.capitalize (PyStr.split "-" name)) in
        PyStr.join " " (map PyStr.capitalize (PyStr.split "." formatted_name))
      else "Competitor Website"
  | None => "Competitor Website"
  end.

Definition beauty_terms : list string := ["beauty"; "cosmetic"; "makeup"; "skincare"].
Definition fashion_terms : list string := ["fashion"; "clothing"; "apparel"; "wear"].
Definition fitness_terms : list string := ["fitness"; "gym"; "sport"; "athletic"].
Definition home_terms : list string := ["home"; "furniture"; "decor"].
Definition tech_terms : list string := ["tech"; "electronic"; "gadget"].

Definition _generate_competitor_description (url : string) : string :=
  let domain := PyStr.lower (domain_or_empty url) in
  if PyStr.contains_any domain beauty_terms then
    "Beauty and cosmetics retailer offering premium skincare and makeup products."
  else if PyStr.contains_any domain fashion_terms then
    "Fashion retailer specializing in contemporary clothing and accessories."
  else if PyStr.contains_any domain fitness_terms then
    "Athletic and fitness brand offering performance sportswear and equipment."
  else if PyStr.contains_any domain home_terms then
    "Home goods and furniture retailer with modern design focus."
  else if PyStr.contains_any domain tech_terms then
    "Technology retailer offering innovative electronics and gadgets."
  else "Established competitor in the same market segment as your business.".

Definition _determine_category (url : string) : string :=
  let domain := PyStr.lower (domain_or_empty url) in
  if PyStr.contains_any domain beauty_terms then "Beauty & Personal Care"
  else if PyStr.contains_any domain fashion_terms then "Fashion & Apparel"
  else if PyStr.contains_any domain fitness_terms then "Sports & Fitness"
  else if PyStr.contains_any domain home_terms then "Home & Garden"
  else if PyStr.contains_any domain tech_terms then "Technology"
  else "E-commerce".

(** ** The static table *)

Definition table_get (key : string) : option (list string) :=
  snd <$> List.find (fun kv => PyStr.eqb kv.1 key) mock_competitors.

Definition as_urls (limit : Z) (competitors : list string) : list string :=
  map (fun comp => "https://" +:+ comp) (slice_to limit competitors).

Definition industry_keywords : list (string * list string) :=
  [ ("beauty", ["beauty"; "makeup"; "cosmetic"; "skincare"; "hair"]);
    ("fashion", ["fashion"; "clothing"; "apparel"; "wear"; "style"]);
    ("fitness", ["fitness"; "gym"; "workout"; "athletic"; "sport"]);
    ("home", ["home"; "furniture"; "decor"; "interior"; "house"]);
    ("tech", ["tech"; "electronic"; "gadget"; "device"; "digital"]) ].

(** The loop over [industry_keywords]. *)
Fixpoint industry_match (clean_domain : string)
    (table : list (string * list string)) : option (list string) :=
  match table with
  | [] => None
  | (industry, keywords) :: rest =>
      if PyStr.contains_any clean_domain keywords then
        match table_get industry with
        | Some competitors => Some competitors
        | None => industry_match clean_domain rest
        end
      else industry_match clean_domain rest
  end.

(** The loop over the table looking for a similar domain. *)
Fixpoint partial_match (clean_domain : string)
    (table : list (string * list string)) : option (list string) :=
  match table with
  | [] => None
  | (key, comps) :: rest =>
      if existsb (PyStr.eqb key) ["fashion"; "beauty"; "fitness"; "home"; "tech"]
      then partial_match clean_domain rest
      else
        let key_parts := PyStr.split "." (PyStr.replace ".com" "" key) in
        if existsb (fun part => (3 <? PyStr.length part)
                                && PyStr.contains clean_domain part) key_parts
        then Some comps
        else partial_match clean_domain rest
  end.

Definition _get_mock_competitors (domain : string) (limit : Z) : list string :=
  let clean_domain := PyStr.lower (PyStr.replace "www." "" domain) in
  match table_get clean_domain with
  | Some competitors => as_urls limit competitors
  | None =>
      match industry_match clean_domain industry_keywords with
      | Some competitors => as_urls limit competitors
      | None =>
          match partial_match clean_domain mock_competitors with
          | Some comps => as_urls limit comps
          | None => []
          end
      end
  end.

(** ** Web search *)

Definition mkResult (url title description : string) : SearchResult :=
  {| sr_url := url; sr_title := title; sr_description := description |}.

Definition enhanced_competitors : list (string * list SearchResult) :=
  [ ("beauty",
     [ mkResult "https://glossier.com" "Glossier" "Minimalist beauty brand with cult following";
       mkResult "https://rarebeauty.com" "Rare Beauty" "Inclusive beauty by Selena Gomez";
       mkResult "https://fentybeauty.com" "Fenty Beauty" "Rihanna's revolutionary inclusive beauty";
       mkResult "https://milkmakeup.com" "Milk Makeup" "Clean, vegan beauty products";
       mkResult "https://haus-labs.com" "Haus Labs" "Lady Gaga's clean beauty brand" ]);
    ("fitness",
     [ mkResult "https://alphalete.com" "Alphalete Athletics" "Premium fitness apparel";
       mkResult "https://youngla.com" "YoungLA" "Trendy athletic wear";
       mkResult "https://nvgtn.com" "NVGTN" "High-performance fitness clothing";
       mkResult "https://1stphorm.com" "1st Phorm" "Fitness supplements and apparel";
       mkResult "https://shredz.com" "SHREDZ" "Fitness lifestyle brand" ]);
    ("fashion",
     [ mkResult "https://prettylittlething.com" "PrettyLittleThing" "Fast fashion for Gen Z";
       mkResult "https://boohoo.com" "Boohoo" "Affordable trendy fashion";
       mkResult "https://asos.com" "ASOS" "Global online fashion destination";
       mkResult "https://shein.com" "SHEIN" "Ultra-fast fashion from China";
       mkResult "https://zaful.com" "Zaful" "Trendy fashion at low prices" ]);
    ("tech",
     [ mkResult "https://best-buy.com" "Best Buy" "Electronics retail giant";
       mkResult "https://newegg.com" "Newegg" "Computer hardware specialist";
       mkResult "https://bhphotovideo.com" "B&H Photo" "Professional photo/video gear";
       mkResult "https://adorama.com" "Adorama" "Photography equipment retailer";
       mkResult "https://microcenter.com" "Micro Center" "Computer hardware superstore" ]);
    ("home",
     [ mkResult "https://wayfair.com" "Wayfair" "Online furniture superstore";
       mkResult "https://overstock.com" "Overstock" "Discounted home goods";
       mkResult "https://westelm.com" "West Elm" "Modern furniture and decor";
       mkResult "https://cb2.com" "CB2" "Contemporary furniture brand";
       mkResult "https://article.com" "Article" "Direct-to-consumer furniture" ]) ].

Definition category_keywords : list string :=
  [ "cosmetic"; "makeup"; "skincare";
    "gym"; "workout"; "athletic"; "sport";
    "clothing"; "apparel"; "fashion"; "style";
    "electronics"; "computer"; "gadget"; "tech";
    "furniture"; "decor"; "home"; "interior" ].

Definition default_competitors : list SearchResult :=
  [ mkResult "https://shopify.com" "Shopify" "E-commerce platform leader";
    mkResult "https://amazon.com" "Amazon" "Global e-commerce giant";
    mkResult "https://alibaba.com" "Alibaba" "B2B marketplace leader" ].

Fixpoint enhanced_match (query_lower : string)
    (table : list (string * list SearchResult)) : list SearchResult :=
  match table with
  | [] => default_competitors
  | (category, competitors) :: rest =>
      if PyStr.contains query_lower category
         || PyStr.contains_any query_lower category_keywords
      then slice_to 3 competitors
      else enhanced_match query_lower rest
  end.

Definition _get_enhanced_industry_competitors (query : string) : list SearchResult :=
  enhanced_match (PyStr.lower query) enhanced_competitors.

Definition _perform_web_search (query : string) : list SearchResult :=
  let results := live_results query in
  let results :=
    match results with
    | [] => _get_enhanced_industry_competitors query
    | _ => results
    end in
  slice_to 3 results.

(** One iteration of the loop over the results of a query. *)
Definition competitor_of_result (domain : string) (result : SearchResult)
    : list Competitor :=
  match extract_domain (sr_url result) with
  | Some result_domain =>
      if PyStr.truthy result_domain
         && negb (PyStr.eqb (PyStr.replace "www." "" result_domain)
                            (PyStr.replace "www." "" domain))
      then [ {| c_url := sr_url result;
                c_domain := Some result_domain;
                c_title := sr_title result;
                c_description := sr_description result;
                c_category := _determine_category (sr_url result);
                c_strength := "Moderate";
                c_market_position := "Market Competitor";
                c_source := "Web Search" |} ]
      else []
  | None => []
  end.

(** [for result in search_results: if len(competitors) >= needed: break; ..] *)
Fixpoint results_loop (domain : string) (needed : Z)
    (search_results : list SearchResult) (competitors : list Competitor)
    : list Competitor :=
  match search_results with
  | [] => competitors
  | result :: rest =>
      if needed <=? len competitors then competitors
      else results_loop domain needed rest
             (competitors ++ competitor_of_result domain result)
  end.

(** [for query in search_queries: if len(competitors) >= needed: break; ..] *)
Fixpoint queries_loop (domain : string) (needed : Z) (queries : list string)
    (competitors : list Competitor) : list Competitor :=
  match queries with
  | [] => competitors
  | query :: rest =>
      if needed <=? len competitors then competitors
      else queries_loop domain needed rest
             (results_loop domain needed (_perform_web_search query) competitors)
  end.

Definition _search_web_competitors (domain : string) (needed : Z)
    : list Competitor :=
  let search_queries :=
    [ "alternatives to " +:+ domain;
      "competitors of " +:+ domain;
      "similar websites to " +:+ domain;
      domain +:+ " vs competitors" ] in
  queries_loop domain needed search_queries [].

(** ** Industry leaders *)

Definition industry_leaders : list (string * list string) :=
  [ ("beauty", ["sephora.com"; "ulta.com"; "beautylish.com"]);
    ("fashion", ["zara.com"; "hm.com"; "uniqlo.com"]);
    ("fitness", ["nike.com"; "adidas.com"; "lululemon.com"]);
    ("home", ["ikea.com"; "wayfair.com"; "westelm.com"]);
    ("tech", ["apple.com"; "bestbuy.com"; "newegg.com"]) ].

Definition industry_terms : list (string * list string) :=
  [ ("beauty", beauty_terms); ("fashion", fashion_terms);
    ("fitness", fitness_terms); ("home", home_terms); ("tech", tech_terms) ].

Fixpoint determine_industry (domain_lower : string)
    (table : list (string * list string)) : string :=
  match table with
  | [] => "general"
  | (ind, keywords) :: rest =>
      if PyStr.contains_any domain_lower keywords then ind
      else determine_industry domain_lower rest
  end.

Definition _generate_industry_competitors (domain : string) (needed : Z)
    : list Competitor :=
  let industry := determine_industry (PyStr.lower domain) industry_terms in
  match snd <$> List.find (fun kv => PyStr.eqb kv.1 industry) industry_leaders with
  | Some leaders =>
      map (fun leader =>
             let url := "https://" +:+ leader in
             {| c_url := url;
                c_domain := Some leader;
                c_title := _generate_competitor_title url;
                c_description := _generate_competitor_description url;
                c_category := _determine_category url;
                c_strength := "Strong";
                c_market_position := "Industry Leader";
                c_source := "Industry Analysis" |})
          (slice_to needed leaders)
  | None => []
  end.

(** ** The methods written under [GoogleSearchCompetitorFinder] *)

(** A template with one [{category}] hole: the text before and after it. *)
Record Template : Type := {
  t_suffix : string;
  t_title : string * string;
  t_desc : string * string
}.

Definition competitor_templates : list Template :=
  [ {| t_suffix := "hub.com";
       t_title := ("", " Hub - Premium Solutions");
       t_desc := ("Leading platform for ", " solutions with advanced features and premium service.") |};
    {| t_suffix := "pro.com";
       t_title := ("", "Pro - Professional Tools");
       t_desc := ("Professional-grade ", " tools trusted by industry experts and enterprises.") |};
    {| t_suffix := "express.com";
       t_title := ("", " Express - Fast & Reliable");
       t_desc := ("Fast, reliable ", " services with quick delivery and excellent support.") |};
    {| t_suffix := "elite.com";
       t_title := ("Elite ", " Solutions");
       t_desc := ("Elite-tier ", " solutions for discerning customers who demand the best.") |};
    {| t_suffix := "direct.com";
       t_title := ("", "Direct - Factory to You");
       t_desc := ("Direct-to-consumer ", " products with factory pricing and premium quality.") |} ].

Definition fill (t : string * string) (category : string) : string :=
  t.1 +:+ category +:+ t.2.

Definition default_template : Template :=
  {| t_suffix := ""; t_title := ("", ""); t_desc := ("", "") |}.

Definition _create_ai_generated_competitors (first_call : nat) (domain : string)
    (count : Z) : list Competitor :=
  let category := _determine_category domain in
  map (fun i =>
         let template :=
           nth (i mod length competitor_templates) competitor_templates
               default_template in
         let competitor_domain :=
           PyStr.replace " " "" (PyStr.lower category) +:+ t_suffix template in
         {| c_url := "https://" +:+ competitor_domain;
            c_domain := Some competitor_domain;
            c_title := fill (t_title template) (PyStr.title category);
            c_description := fill (t_desc template) (PyStr.lower category);
            c_category := category;
            c_strength := choice (first_call + i) ["Strong"; "Moderate"; "Emerging"];
            c_market_position := "AI Generated Competitor";
            c_source := "AI Generated" |})
      (seq 0 (Z.to_nat count)).

Definition _create_emergency_competitor (domain : string) (number : Z) : Competitor :=
  let category := _determine_category domain in
  let host := "competitor" +:+ str_of_Z number +:+ "-"
              +:+ PyStr.replace "." "-" domain +:+ ".example.com" in
  {| c_url := "https://" +:+ host;
     c_domain := Some host;
     c_title := "Alternative " +:+ category +:+ " Solution #" +:+ str_of_Z number;
     c_description :=
       "Professional " +:+ PyStr.lower category
       +:+ " alternative with competitive features and pricing. Emergency competitor generated to ensure minimum requirements.";
     c_category := category;
     c_strength := "Moderate";
     c_market_position := "Market Alternative";
     c_source := "Emergency Fallback" |}.

Definition _create_emergency_competitors (website_url : string) (count : Z)
    : list Competitor :=
  let domain :=
    match extract_domain website_url with
    | Some d => if PyStr.truthy d then d else "unknown"
    | None => "unknown"
    end in
  map (fun i => _create_emergency_competitor domain (Z.of_nat i + 1))
      (seq 0 (Z.to_nat count)).

(** ** [find_competitors] *)

(** [self.m(..)] inside [CompetitorFinder]. *)
Definition self_call {A} (name : string) (body : PyResult A) : PyResult A :=
  call_method CompetitorFinder_methods name body.

Definition database_competitor (call : nat) (comp_url : string) : Competitor :=
  {| c_url := comp_url;
     c_domain := extract_domain comp_url;
     c_title := _generate_competitor_title comp_url;
     c_description := _generate_competitor_description comp_url;
     c_category := _determine_category comp_url;
     c_strength := choice (2 * call) ["Strong"; "Moderate"; "Emerging"];
     c_market_position :=
       choice (2 * call + 1)
              ["Direct Competitor"; "Indirect Competitor"; "Industry Leader"];
     c_source := "Database" |}.

(** The sort key of the final ordering. *)
Definition source_rank (source : string) : Z :=
  if PyStr.eqb source "Database" then 0
  else if PyStr.eqb source "Web Search" then 1
  else if PyStr.eqb source "Industry Analysis" then 2
  else if PyStr.eqb source "AI Generated" then 3
  else if PyStr.eqb source "Emergency Fallback" then 4
  else 5.

(** [xs.sort(key=..)]: stable, lowest key first. *)
Fixpoint insert_by (key : Competitor → Z) (x : Competitor) (xs : list Competitor)
    : list Competitor :=
  match xs with
  | [] => [x]
  | y :: ys => if key x <=? key y then x :: y :: ys else y :: insert_by key x ys
  end.
Fixpoint sort_by (key : Competitor → Z) (xs : list Competitor) : list Competitor :=
  match xs with
  | [] => []
  | x :: xs' => insert_by key x (sort_by key xs')
  end.

(** [while len(competitors) < 2:
       competitors.append(self._create_emergency_competitor(..))] *)
Fixpoint emergency_loop (domain : string) (fuel : nat)
    (competitors : list Competitor) : PyResult (list Competitor) :=
  match fuel with
  | O => Ok competitors
  | S fuel' =>
      if len competitors <? 2 then
        fallback ← self_call "_create_emergency_competitor"
                     (Ok (_create_emergency_competitor domain (len competitors + 1)));
        emergency_loop domain fuel' (competitors ++ [fallback])
      else Ok competitors
  end.

Definition find_competitors (website_url : string) (limit : Z)
    : PyResult (list Competitor) :=
  try_except
    (let domain :=
       match extract_domain website_url with
       | Some d => if PyStr.truthy d then d else "unknown"
       | None => "unknown"
       end in
     (* Method 1: the table *)
     let mock_competitors := _get_mock_competitors domain limit in
     let competitors := imap database_competitor mock_competitors in
     (* Method 2: web search *)
     let competitors :=
       if len competitors <? 2
       then competitors
            ++ _search_web_competitors domain (Z.max (2 - len competitors) 3)
       else competitors in
     (* Method 3: industry analysis *)
     let competitors :=
       if len competitors <? 2
       then competitors
            ++ _generate_industry_competitors domain (Z.max (2 - len competitors) 2)
       else competitors in
     (* Method 4: generated competitors *)
     competitors ←
       (if len competitors <? 2 then
          ai_competitors ←
            self_call "_create_ai_generated_competitors"
              (Ok (_create_ai_generated_competitors
                     (2 * length mock_competitors) domain
                     (Z.max (2 - len competitors) 2)));
          Ok (competitors ++ ai_competitors)
        else Ok competitors);
     (* FINAL GUARANTEE *)
     competitors ← emergency_loop domain (Z.to_nat (2 - len competitors)) competitors;
     let competitors := sort_by (fun x => source_rank (c_source x)) competitors in
     let final_count := Z.max 2 (Z.min (len competitors) limit) in
     Ok (slice_to final_count competitors))
    (fun _ =>
       self_call "_create_emergency_competitors"
         (Ok (_create_emergency_competitors website_url 2))).

End CompetitorFinder.
End CompetitorFinder.

(* ===================================================================== *)
(** * [services/realtime_analyzer.py] *)
(* ===================================================================== *)

Module Analyzer.

(** [BrandContext]: the aggregated profile of one storefront. *)
Record BrandContext : Type := {
  brand_name : option string;
  website_url : string;
  favicon_url : option string;
  product_catalog : list Product;
  products : list Product;
  hero_products : list HeroProduct;
  product_count : Z;
  policies : list Policy;
  faqs : list FAQ;
  social_handles : list SocialHandle;
  contact_info : option ContactInfo;
  brand_description : option string;
  about_us : option string;
  brand_story : option string;
  important_links : list ImportantLink;
  competitors : list CompetitorFinder.Competitor;
  competitor_urls : list string;
  shopify_theme : option string;
  apps_detected : list string;
  analysis_date : option string;
  analysis_duration : option PyFloat;
  pages_analyzed : Z
}.

(** [f"{base_url.rstrip('/')}{path}"] *)
Definition under (base_url path : string) : string :=
  PyStr.rstrip_char "/" base_url +:+ path.

Definition _build_comprehensive_url_list (base_url : string) : list string :=
  [ base_url;
    under base_url "/products.json";
    under base_url "/collections/all";
    under base_url "/collections/all.json";
    under base_url "/sitemap_products_1.xml";
    under base_url "/pages/privacy-policy";
    under base_url "/pages/privacy";
    under base_url "/policies/privacy-policy";
    under base_url "/pages/terms-of-service";
    under base_url "/pages/terms";
    under base_url "/pages/refund-policy";
    under base_url "/pages/returns";
    under base_url "/pages/shipping-policy";
    under base_url "/pages/shipping";
    under base_url "/pages/about";
    under base_url "/pages/about-us";
    under base_url "/pages/our-story";
    under base_url "/pages/faq";
    under base_url "/pages/help";
    under base_url "/pages/support";
    under base_url "/pages/contact";
    under base_url "/pages/contact-us";
    under base_url "/pages/track-order";
    under base_url "/pages/size-guide";
    under base_url "/blogs/news" ].

(** ** Policies *)

Definition policy_mappings : list (string * PolicyType) :=
  [ ("privacy", PRIVACY); ("terms", TERMS); ("refund", RETURN);
    ("returns", RETURN); ("shipping", SHIPPING) ].

(** [policy_mappings.get(policy_type, PolicyType.TERMS)] *)
Definition policy_type_of (policy_type : string) : PolicyType :=
  match List.find (fun kv => PyStr.eqb kv.1 policy_type) policy_mappings with
  | Some kv => kv.2
  | None => TERMS
  end.

Definition policy_urls (main_url : string) : list (string * string) :=
  [ (under main_url "/pages/privacy-policy", "privacy");
    (under main_url "/pages/privacy", "privacy");
    (under main_url "/pages/terms-of-service", "terms");
    (under main_url "/pages/terms", "terms");
    (under main_url "/pages/refund-policy", "refund");
    (under main_url "/pages/returns", "returns");
    (under main_url "/pages/shipping-policy", "shipping");
    (under main_url "/pages/shipping", "shipping") ].

(** One iteration of the loop over [policy_urls]: the policy appended,
    if any. *)
Definition policy_of (scraped_content : ScrapedContent)
    (entry : string * string) : list Policy :=
  let '(url, policy_type) := entry in
  match scraped_content !! url with
  | Some (Some content_data) =>
      match page_content content_data with
      | Some content =>
          if PyStr.truthy content && (100 <? PyStr.length content) then
            [ {| pol_type := policy_type_of policy_type;
                 pol_title :=
                   Some (PyStr.title (PyStr.replace "_" " " policy_type)
                         +:+ " Policy");
                 pol_content := Some (PyStr.take 2000 content);
                 pol_url := None |} ]
          else []
      | None => []
      end
  | _ => []
  end.

Definition _parse_comprehensive_policies (main_url : string)
    (scraped_content : ScrapedContent) : list Policy :=
  flat_map (policy_of scraped_content) (policy_urls main_url).

(** [len([k for k, v in scraped_content.items() if v and v.get('content')])] *)
Definition count_pages (scraped_content : ScrapedContent) : Z :=
  len (List.filter (fun kv => has_content kv.2) (map_to_list scraped_content)).

Section Analyzer.

Variable BeautifulSoup : string → PyResult Bs4.Tag.
Variable urljoin : string → string → string.
Variable urlparse_netloc : string → string.
Variable parser : Parser.ShopifyParser.           (* [self.parser] *)
Variable _extract_hero_product_from_element : Bs4.Tag → option HeroProduct.

Definition parse_hero_products_from_html :=
  Parser.parse_hero_products_from_html
    BeautifulSoup urljoin parser _extract_hero_product_from_element.
Definition _create_emergency_hero_products :=
  Parser._create_emergency_hero_products parser.
Definition parse_faqs_from_html := Parser.parse_faqs_from_html BeautifulSoup.

(** ** Hero products: lines 301-317 of [_parse_comprehensive_content] *)
Definition comprehensive_hero_products (main_html : string) : list HeroProduct :=
  let hero_products :=
    if negb (PyStr.truthy main_html) then _create_emergency_hero_products 2
    else parse_hero_products_from_html main_html in
  (* ABSOLUTE GUARANTEE CHECK *)
  if len hero_products <? 2 then
    let emergency_count := 2 - len hero_products in
    hero_products ++ _create_emergency_hero_products emergency_count
  else hero_products.

(** ** FAQs *)

Definition faq_urls (main_url : string) : list string :=
  [ under main_url "/pages/faq"; under main_url "/pages/help";
    under main_url "/pages/support" ].

Definition page_faqs_of (scraped_content : ScrapedContent) (faq_url : string)
    : list FAQ :=
  match scraped_content !! faq_url with
  | Some (Some content_data) =>
      match page_content content_data with
      | Some content =>
          if PyStr.truthy content then parse_faqs_from_html content else []
      | None => []
      end
  | _ => []
  end.

Definition default_faqs : list FAQ :=
  [ Parser.mkFAQ "Do you offer international shipping?"
      "Please check our shipping policy for international delivery options.";
    Parser.mkFAQ "What is your return policy?"
      "Please refer to our return policy page for detailed information about returns and exchanges.";
    Parser.mkFAQ "How can I contact customer support?"
      "You can reach our customer support team through the contact information provided on our website." ].

Definition _parse_comprehensive_faqs (main_url : string)
    (scraped_content : ScrapedContent) (main_html : string) : list FAQ :=
  let faqs := flat_map (page_faqs_of scraped_content) (faq_urls main_url) in
  match faqs with
  | [] => faqs ++ default_faqs
  | _ => faqs
  end.

(** ** Brand name *)

Definition _extract_brand_name_from_title (html_content : string) : string :=
  match BeautifulSoup html_content with
  | Ok soup =>
      match Bs4.find soup ["title"] with
      | Some title =>
          let title_text := PyStr.strip (Bs4.get_text title) in
          if PyStr.contains title_text "|"
          then PyStr.strip (List.last (PyStr.split "|" title_text) "")
          else if PyStr.contains title_text "-"
          then PyStr.strip (List.last (PyStr.split "-" title_text) "")
          else hd "" (PyStr.split " " title_text)
      | None => "Unknown Brand"
      end
  | Raise _ => "Unknown Brand"
  end.

(** [^(www\.|shop\.|store\.|m\.)] *)
Definition host_prefix : Re.regex :=
  Re.Seq Re.Bol (Re.alts (map Re.lit ["www."; "shop."; "store."; "m."])).
(** [[^a-zA-Z0-9]] *)
Definition non_alnum : Re.regex := Re.Chr (fun c => negb (PyStr.is_alnum c)).

(** [urlparse] is taken total, so the [except] branch (returning
    ['Unknown Brand']) is not represented. *)
Definition _extract_brand_name_from_url (url : string) : string :=
  let domain := PyStr.lower (urlparse_netloc url) in
  let domain := Re.sub host_prefix "" domain in
  let domain_parts := PyStr.split "." domain in
  let fallback := PyStr.capitalize (hd "" (PyStr.split "." domain)) in
  if 2 <=? len domain_parts then
    let brand_name := hd "" domain_parts in
    let brand_name := Re.sub non_alnum "" brand_name in
    match brand_name with
    | String c rest => String (PyStr.upper_char c) rest
    | EmptyString => fallback
    end
  else fallback.

(** [\s+(store|shop|official|inc|llc|ltd)\.?$], ignoring case *)
Definition suffix_pattern : Re.regex :=
  Re.Seq (Re.plus Re.space)
    (Re.Seq (Re.alts (map Re.lit_i ["store"; "shop"; "official"; "inc"; "llc"; "ltd"]))
       (Re.Seq (Re.opt (Re.chr ".")) Re.Eol)).
(** [[:\-\|]+\s*$] *)
Definition trailing_punctuation : Re.regex :=
  Re.Seq (Re.plus (Re.one_of ":-|")) (Re.Seq (Re.Star Re.space) Re.Eol).

(** The name found in [<meta>] tags: [og:site_name], then
    [application-name]. *)
Definition meta_content (soup : Bs4.Tag) (key value : string) : option string :=
  match Bs4.find_attr soup ["meta"] key value with
  | Some tag =>
      match Bs4.get tag "content" with
      | Some content => if PyStr.truthy content then Some (PyStr.strip content) else None
      | None => None
      end
  | None => None
  end.

Definition _get_comprehensive_brand_name (url html_content : string)
    (brand_info : Parser.BrandInfo) : string :=
  let brand_name : option string := None in
  (* Try brand info from parser first *)
  let brand_name :=
    match brand_info, Parser.info_get brand_info "name" with
    | _ :: _, Some name =>
        if 0 <? PyStr.length (PyStr.strip name) then
          let candidate := PyStr.strip name in
          if negb (PyStr.contains_any (PyStr.lower candidate)
                     ["home"; "welcome"; "shop"; "store"])
          then Some candidate else brand_name
        else brand_name
    | _, _ => brand_name
    end in
  (* Try extracting from title *)
  let brand_name :=
    if negb (truthy_opt brand_name) && PyStr.truthy html_content then
      let title_name := _extract_brand_name_from_title html_content in
      if PyStr.truthy title_name && negb (PyStr.eqb title_name "Unknown Brand")
      then Some title_name else brand_name
    else brand_name in
  (* Try extracting from meta tags *)
  let brand_name :=
    if negb (truthy_opt brand_name) && PyStr.truthy html_content then
      match BeautifulSoup html_content with
      | Ok soup =>
          let brand_name :=
            match meta_content soup "property" "og:site_name" with
            | Some content => Some content
            | None => brand_name
            end in
          if negb (truthy_opt brand_name) then
            match meta_content soup "name" "application-name" with
            | Some content => Some content
            | None => brand_name
            end
          else brand_name
      | Raise _ => brand_name
      end
    else brand_name in
  (* Fallback to URL-based extraction *)
  let brand_name :=
    if negb (truthy_opt brand_name) then Some (_extract_brand_name_from_url url)
    else brand_name in
  (* Final cleanup *)
  match brand_name with
  | Some name =>
      if PyStr.truthy name then
        let name := Re.sub suffix_pattern "" name in
        let name := Re.sub trailing_punctuation "" name in
        let name := PyStr.strip name in
        if 0 <? PyStr.length name then name
        else _extract_brand_name_from_url url
      else _extract_brand_name_from_url url
  | None => _extract_brand_name_from_url url
  end.

(** ** Aggregation *)

(** The remaining collaborators of [_parse_comprehensive_content]. *)
Variable validators_url : string → bool.
Variable live_results : string → list CompetitorFinder.SearchResult.
Variable random_draw : nat → nat.
Variable validate_int : json → option Z.
Variable validate_str : json → option string.
Variable validate_bool : json → option bool.
Variable validate_str_list : json → option (list string).
Variable float_of_str : string → option PyFloat.
Variable repr_other : json → string.
Variable extract_emails_from_text : string → list string.
Variable extract_phone_numbers_from_text : string → list string.
Variable _extract_addresses_from_text : string → list string.
Variable _extract_structured_contact_info :
  Bs4.Tag → list string * list string * list string.
Variable _select_best_phone : list string → option string.
Variable _select_best_address : list string → option string.
Variable list_set : list string → list string.
(** [parse_social_handles_from_html] returns a local that is unbound when
    its [try] block fails early, so it may raise. *)
Variable parse_social_handles_from_html : string → PyResult (list SocialHandle).
Variable parse_important_links_from_html : string → list ImportantLink.
(** [datetime.now()], and its [%Y-%m-%d] rendering. *)
Variable now : string.
Variable today : string.

Definition parse_products_json :=
  Parser.parse_products_json urljoin parser validate_int validate_str
    validate_bool validate_str_list float_of_str repr_other.
Definition parse_contact_info_from_html :=
  Parser.parse_contact_info_from_html BeautifulSoup extract_emails_from_text
    extract_phone_numbers_from_text _extract_addresses_from_text
    _extract_structured_contact_info _select_best_phone _select_best_address
    list_set.
Definition parse_brand_info_from_html :=
  Parser.parse_brand_info_from_html BeautifulSoup urljoin parser.
Definition find_competitors :=
  CompetitorFinder.find_competitors validators_url urlparse_netloc
    live_results random_draw.

(** [info.get(key, '')] *)
Definition info_get_default (info : Parser.BrandInfo) (key : string) : option string :=
  match List.find (fun kv => PyStr.eqb kv.1 key) info with
  | Some kv => kv.2
  | None => Some ""
  end.

Fixpoint any_digit (p : string) : bool :=
  match p with
  | EmptyString => false
  | String d p' => PyStr.is_digit d || any_digit p'
  end.

Definition clean_phone_numbers (phones : list string) : list string :=
  map PyStr.strip
    (List.filter (fun p => PyStr.truthy (PyStr.strip p)
                           && (PyStr.length (PyStr.strip p) <? 50)
                           && any_digit p)
                 phones).

Definition _parse_comprehensive_content (main_url : string)
    (scraped_content : ScrapedContent) : PyResult BrandContext :=
  (* [scraped_content.get(main_url, {}).get('content', '')]: a URL whose
     fetch failed is mapped to [None], which has no [.get] *)
  main_html ←
    match scraped_content !! main_url with
    | None => Ok ""
    | Some None => Raise AttributeError
    | Some (Some main_content) => Ok (default "" (page_content main_content))
    end;
  let products_url := under main_url "/products.json" in
  let products_json :=
    match scraped_content !! products_url with
    | Some (Some products_data) => default (JObj []) (page_json products_data)
    | _ => JObj []
    end in
  let products :=
    if json_truthy products_json then parse_products_json products_json else [] in
  let hero_products := comprehensive_hero_products main_html in
  let policies := _parse_comprehensive_policies main_url scraped_content in
  let faqs := _parse_comprehensive_faqs main_url scraped_content main_html in
  social_handles ←
    (if PyStr.truthy main_html then parse_social_handles_from_html main_html
     else Ok []);
  let contact_info :=
    if PyStr.truthy main_html then parse_contact_info_from_html main_html
    else ContactInfo_default in
  let contact_info :=
    {| emails := emails contact_info;
       phone_numbers := clean_phone_numbers (phone_numbers contact_info);
       addresses := addresses contact_info;
       support_hours := support_hours contact_info |} in
  let brand_info :=
    if PyStr.truthy main_html then parse_brand_info_from_html main_html else [] in
  let important_links :=
    if PyStr.truthy main_html then parse_important_links_from_html main_html
    else [] in
  let domain :=
    hd "" (PyStr.split "/"
             (PyStr.replace "www." ""
                (PyStr.replace "http://" ""
                   (PyStr.replace "https://" "" main_url)))) in
  competitors ← find_competitors domain 5;
  Ok {| website_url := main_url;
        brand_name := Some (_get_comprehensive_brand_name main_url main_html brand_info);
        brand_description := info_get_default brand_info "description";
        about_us :=
          py_or (info_get_default brand_info "about")
                (Some ("Comprehensive analysis completed on " +:+ today));
        brand_story :=
          py_or (info_get_default brand_info "story")
                (Some "Shopify store with comprehensive brand analysis");
        favicon_url := info_get_default brand_info "favicon_url";
        shopify_theme := py_or (info_get_default brand_info "theme") (Some "Unknown");
        (* no ['apps'] entry is ever a list *)
        apps_detected := [];
        pages_analyzed := count_pages scraped_content;
        analysis_date := Some now;
        product_catalog := products;
        product_count := len products;
        hero_products := hero_products;
        policies := policies;
        faqs := faqs;
        social_handles := social_handles;
        important_links := important_links;
        contact_info := Some contact_info;
        competitors := competitors;
        (* fields left at their defaults *)
        products := [];
        competitor_urls := [];
        analysis_duration := None |}.

End Analyzer.

(** ** The report *)

(** Truthiness of a list. *)
Definition filled {A} (xs : list A) : bool :=
  match xs with [] => false | _ => true end.

(** [contact_info and (contact_info.emails or contact_info.phone_numbers)]
    as a truth value. *)
Definition reachable (brand_context : BrandContext) : bool :=
  match contact_info brand_context with
  | Some info => filled (emails info) || filled (phone_numbers info)
  | None => false
  end.

(** The local [score] of [_calculate_completeness_score] when the function
    returns. *)
Definition completeness_points (brand_context : BrandContext) : Z :=
  let score := 0 in
  let score := if filled (product_catalog brand_context) then score + 1 else score in
  let score := if filled (hero_products brand_context) then score + 1 else score in
  let score := if filled (policies brand_context) then score + 1 else score in
  let score := if filled (faqs brand_context) then score + 1 else score in
  let score := if filled (social_handles brand_context) then score + 1 else score in
  let score := if reachable brand_context then score + 1 else score in
  let score := if filled (important_links brand_context) then score + 1 else score in
  score.

(** A small Python [int] as a [float]. *)
Definition float_of_int (n : Z) : float := PrimFloat.of_uint63 (Uint63.of_Z n).

(** [(score / max_score) * 100] in double precision. *)
Definition _calculate_completeness_score (brand_context : BrandContext) : float :=
  let score := completeness_points brand_context in
  let max_score := 7 in
  PrimFloat.mul (PrimFloat.div (float_of_int score) (float_of_int max_score))
                (float_of_int 100).

Definition excellent : string :=
  "Excellent! All major brand elements are present and well-structured.".

Definition _generate_recommendations (brand_context : BrandContext) : list string :=
  let recommendations := [] in
  let recommendations :=
    if negb (filled (product_catalog brand_context))
    then recommendations ++ ["Add product catalog data to improve customer experience"]
    else recommendations in
  let recommendations :=
    if negb (filled (policies brand_context))
    then recommendations
         ++ ["Add clear policies (privacy, returns, shipping) for customer trust"]
    else recommendations in
  let recommendations :=
    if len (social_handles brand_context) <? 3
    then recommendations ++ ["Expand social media presence across more platforms"]
    else recommendations in
  let recommendations :=
    if negb (filled (faqs brand_context))
    then recommendations
         ++ ["Create comprehensive FAQ section to reduce customer inquiries"]
    else recommendations in
  match recommendations with
  | [] => [excellent]
  | _ => recommendations
  end.

(** ** [analyze_and_store_shop] *)

(** The entries of the result dictionary. *)
Record ProductData : Type := {
  pd_id : string;
  pd_title : string;
  pd_handle : string;
  pd_vendor : string;
  pd_product_type : string;
  pd_price : PyFloat + Z;
  pd_compare_at_price : option PyFloat;
  pd_available : bool;
  pd_tags : list string;
  pd_images : list string;
  pd_description : string;
  pd_url : string;
  pd_created_at : option string;
  pd_updated_at : option string
}.

Record LegacyProduct : Type := {
  lp_title : string;
  lp_price : PyFloat + Z;
  lp_vendor : string;
  lp_product_type : string;
  lp_url : string;
  lp_available : bool;
  lp_images : list string
}.

Record HeroData : Type := {
  hd_title : string;
  hd_price : string + Z;
  hd_description : string;
  hd_image_url : string;
  hd_product_url : string
}.

Record SocialData : Type := {
  sd_platform : string;
  sd_username : string;
  sd_url : string
}.

Record ContactData : Type := {
  cd_emails : list string;
  cd_phone_numbers : list string;
  cd_addresses : list string
}.

Record PolicyData : Type := {
  pld_type : string;
  pld_title : string;
  pld_content : string
}.

Record FaqData : Type := {
  fd_question : string;
  fd_answer : string
}.

Record LinkData : Type := {
  ld_title : string;
  ld_url : string;
  ld_type : string
}.

Record BrandData : Type := {
  bd_brand_name : option string;
  bd_website_url : string;
  bd_favicon_url : option string;
  bd_brand_description : option string;
  bd_about_us : option string;
  bd_brand_story : option string;
  bd_shopify_theme : option string;
  bd_apps_detected : list string;
  bd_analysis_date : option string;
  bd_pages_analyzed : Z;
  bd_product_count : Z;
  bd_product_catalog : list ProductData;
  bd_products : list LegacyProduct;
  bd_hero_products : list HeroData;
  bd_social_handles : list SocialData;
  bd_contact_info : ContactData;
  bd_policies : list PolicyData;
  bd_faqs : list FaqData;
  bd_important_links : list LinkData;
  bd_competitors : list CompetitorFinder.Competitor
}.

(** The dictionary returned: the one built at the end of the [try] block,
    or the one built by the handler. *)
Inductive AnalysisResult : Type :=
| Analysed (brand_id : option Z) (brand_name : option string)
    (website_url : string) (analysis_timestamp : string)
    (brand_data : BrandData) (saved_to_database : bool) (pages_analyzed : Z)
| Failed (error : exn) (website_url : string) (analysis_timestamp : string).

(** Truthiness of a [float]. *)
Definition float_truthy (f : PyFloat) : bool :=
  match f with
  | Finite q => negb (Qeq_bool q 0)
  | _ => true
  end.

(** [x or 0] for an optional [float] and for an optional [str]. *)
Definition float_or_zero (x : option PyFloat) : PyFloat + Z :=
  match x with
  | Some f => if float_truthy f then inl f else inr 0
  | None => inr 0
  end.
Definition str_or_zero (x : option string) : string + Z :=
  match x with
  | Some s => if PyStr.truthy s then inl s else inr 0
  | None => inr 0
  end.
(** [x or ''] *)
Definition or_empty (x : option string) : string :=
  match x with
  | Some s => if PyStr.truthy s then s else ""
  | None => ""
  end.

Definition product_data (p : Product) : ProductData :=
  {| pd_id := or_empty (p_id p);
     pd_title := or_empty (p_title p);
     pd_handle := or_empty (p_handle p);
     pd_vendor := or_empty (p_vendor p);
     pd_product_type := or_empty (p_product_type p);
     pd_price := float_or_zero (p_price p);
     pd_compare_at_price := p_compare_at_price p;
     pd_available := bool_decide (p_available p = Some true);
     pd_tags := p_tags p;
     pd_images := p_images p;
     pd_description := or_empty (p_description p);
     pd_url := or_empty (p_url p);
     pd_created_at := p_created_at p;
     pd_updated_at := p_updated_at p |}.

Definition legacy_product (p : ProductData) : LegacyProduct :=
  {| lp_title := pd_title p; lp_price := pd_price p; lp_vendor := pd_vendor p;
     lp_product_type := pd_product_type p; lp_url := pd_url p;
     lp_available := pd_available p; lp_images := pd_images p |}.

Definition hero_data (hp : HeroProduct) : HeroData :=
  {| hd_title := or_empty (hp_title hp);
     hd_price := str_or_zero (hp_price hp);
     hd_description := or_empty (hp_description hp);
     hd_image_url := or_empty (hp_image_url hp);
     hd_product_url := or_empty (hp_product_url hp) |}.

Definition social_data (sh : SocialHandle) : SocialData :=
  {| sd_platform := sh_platform sh;
     sd_username := or_empty (sh_username sh);
     sd_url := sh_url sh |}.

(** [[p for p in .. if p and p.strip() and len(p.strip()) < 50]] *)
Definition short_phones (phones : list string) : list string :=
  List.filter (fun p => PyStr.truthy p && PyStr.truthy (PyStr.strip p)
                        && (PyStr.length (PyStr.strip p) <? 50))
              phones.

Definition contact_data (info : option ContactInfo) : ContactData :=
  match info with
  | Some info =>
      {| cd_emails := emails info;
         cd_phone_numbers := short_phones (phone_numbers info);
         cd_addresses := addresses info |}
  | None => {| cd_emails := []; cd_phone_numbers := []; cd_addresses := [] |}
  end.

(** [p.type.value] *)
Definition PolicyType_value (t : PolicyType) : string :=
  match t with
  | PRIVACY => "privacy"
  | REFUND => "refund"
  | RETURN => "return"
  | TERMS => "terms"
  | SHIPPING => "shipping"
  end.

(** [(c or '')[:500] + '...' if len(c or '') > 500 else (c or '')] *)
Definition preview (content : option string) : string :=
  if 500 <? PyStr.length (or_empty content)
  then PyStr.take 500 (or_empty content) +:+ "..."
  else or_empty content.

Definition policy_data (p : Policy) : PolicyData :=
  {| pld_type := PolicyType_value (pol_type p);
     pld_title := or_empty (pol_title p);
     pld_content := preview (pol_content p) |}.

Definition faq_data (faq : FAQ) : FaqData :=
  {| fd_question := faq_question faq; fd_answer := faq_answer faq |}.

Definition link_data (il : ImportantLink) : LinkData :=
  {| ld_title := il_title il; ld_url := il_url il; ld_type := il_type il |}.

Definition brand_data_of (brand_context : BrandContext)
    (isoformat : string → string) : BrandData :=
  let product_catalog_data := map product_data (product_catalog brand_context) in
  {| bd_brand_name := brand_name brand_context;
     bd_website_url := website_url brand_context;
     bd_favicon_url := favicon_url brand_context;
     bd_brand_description := brand_description brand_context;
     bd_about_us := about_us brand_context;
     bd_brand_story := brand_story brand_context;
     bd_shopify_theme := shopify_theme brand_context;
     bd_apps_detected := apps_detected brand_context;
     bd_analysis_date := isoformat <$> analysis_date brand_context;
     bd_pages_analyzed := pages_analyzed brand_context;
     bd_product_count := product_count brand_context;
     bd_product_catalog := product_catalog_data;
     bd_products := map legacy_product product_catalog_data;
     bd_hero_products := map hero_data (hero_products brand_context);
     bd_social_handles := map social_data (social_handles brand_context);
     bd_contact_info := contact_data (contact_info brand_context);
     bd_policies := map policy_data (policies brand_context);
     bd_faqs := map faq_data (faqs brand_context);
     bd_important_links := map link_data (important_links brand_context);
     bd_competitors := competitors brand_context |}.

Section Pipeline.

Variable BeautifulSoup : string → PyResult Bs4.Tag.
Variable urljoin : string → string → string.
Variable urlparse_netloc : string → string.
Variable urlparse_path : string → PyResult string.
Variable validators_url : string → bool.
Variable cfg : Settings.
Variable net : string → nat → Scraper.GetOutcome.
Variable _extract_hero_product_from_element :
  Parser.ShopifyParser → Bs4.Tag → option HeroProduct.
Variable live_results : string → list CompetitorFinder.SearchResult.
Variable random_draw : nat → nat.
Variable validate_int : json → option Z.
Variable validate_str : json → option string.
Variable validate_bool : json → option bool.
Variable validate_str_list : json → option (list string).
Variable float_of_str : string → option PyFloat.
Variable repr_other : json → string.
Variable extract_emails_from_text : string → list string.
Variable extract_phone_numbers_from_text : string → list string.
Variable _extract_addresses_from_text : string → list string.
Variable _extract_structured_contact_info :
  Bs4.Tag → list string * list string * list string.
Variable _select_best_address : list string → option string.
Variable list_set : list string → list string.
(** [datetime.now()] when the profile is built and when the result is, the
    [%Y-%m-%d] rendering of the first, and [isoformat]. *)
Variable now today finished : string.
Variable isoformat : string → string.
(** The database block as a whole: the identifier of the saved brand,
    [None] when an operation inside its [try] fails, or the exception that
    opening the session raises. *)
Variable database_save : string → BrandContext → PyResult (option Z).

(** [self.parser = ShopifyParser(url)] and what is parsed with it. *)
Definition profile_of (url : string) (scraped_content : ScrapedContent)
    : PyResult BrandContext :=
  let parser := Parser.init urlparse_netloc url in
  _parse_comprehensive_content BeautifulSoup urljoin urlparse_netloc parser
    (_extract_hero_product_from_element parser) validators_url live_results
    random_draw validate_int validate_str validate_bool validate_str_list
    float_of_str repr_other extract_emails_from_text
    extract_phone_numbers_from_text _extract_addresses_from_text
    _extract_structured_contact_info Parser._select_best_phone
    _select_best_address list_set
    (Parser.parse_social_handles_from_html BeautifulSoup urljoin parser
       urlparse_path)
    (Parser.parse_important_links_from_html BeautifulSoup urljoin parser)
    now today url scraped_content.

(** [async with self.scraper: .. fetch_multiple_pages(urls_to_scrape)] *)
Definition scrape (url : string) : ScrapedContent :=
  Scraper.fetch_multiple_pages validators_url cfg true net
    (_build_comprehensive_url_list url).

Definition analyze_and_store_shop (url : string) (save_to_db : bool)
    : AnalysisResult :=
  let url := if negb (Helpers.has_protocol url) then "https://" +:+ url else url in
  let outcome : PyResult AnalysisResult :=
    let scraped_content := scrape url in
    if bool_decide (scraped_content = ∅) then Raise OtherError
    else
      brand_context ← profile_of url scraped_content;
      brand_id ← (if save_to_db then database_save url brand_context
                  else Ok None);
      Ok (Analysed brand_id (brand_name brand_context) url (isoformat finished)
            (brand_data_of brand_context isoformat) save_to_db
            (count_pages scraped_content)) in
  match outcome with
  | Ok result => result
  | Raise e => Failed e url (isoformat finished)
  end.

End Pipeline.

End Analyzer.

(* ===================================================================== *)
(** * Vocabulary of the statements *)
(* ===================================================================== *)

Module Spec.

(** The trace of a fetch whose last attempt is number [m]: every earlier
    attempt [k] is followed by a wait of [delay * (k + 1)] seconds. *)
Definition step (delay : Q) (k : nat) : list Scraper.event :=
  [Scraper.EvAttempt k; Scraper.EvSleep (delay * inject_Z (Z.of_nat k + 1))].
Definition expected_trace (delay : Q) (m : nat) : list Scraper.event :=
  flat_map (step delay) (seq 0 m) ++ [Scraper.EvAttempt m].

(** A reply that is not a 200 response: an exception out of the request,
    or any other status. *)
Definition not_200 (o : Scraper.GetOutcome) : Prop :=
  match o with
  | Scraper.GetRaised _ => True
  | Scraper.GetResponse status _ _ => status ≠ 200
  end.

(** A 200 reply whose decoding gives the task something truthy to keep. *)
Definition good_reply (url : string) (o : Scraper.GetOutcome) : Prop :=
  match o with
  | Scraper.GetRaised _ => False
  | Scraper.GetResponse status text data =>
      status = 200 ∧
      if PyStr.endswith url ".json"
      then ∃ j, data = Ok j ∧ json_truthy j = true
      else ∃ c, text = Ok c ∧ PyStr.truthy c = true
  end.

Section Batch.
Variable validators_url : string → bool.
Variable cfg : Settings.
Variable net : string → nat → Scraper.GetOutcome.

(** Every attempt allowed by the retry limit fails. *)
Definition fails_terminally (url : string) : Prop :=
  ∀ k, (Z.of_nat k ≤ MAX_RETRIES cfg) → not_200 (net url k).

(** Some attempt within the retry limit is answered with content, the
    attempts before it having failed. *)
Definition delivers_content (url : string) : Prop :=
  (∃ n, Scraper.normalize_url validators_url url = Ok n) ∧
  ∃ k, (Z.of_nat k ≤ MAX_RETRIES cfg)
       ∧ (∀ j, (j < k)%nat → not_200 (net url j))
       ∧ good_reply url (net url k).
End Batch.

(** The page that a reply gives the task of a URL: the decoded body, filed
    under the URL that was asked for, as HTML or as JSON by the URL's
    ending. *)
Definition page_of_reply (url : string) (o : Scraper.GetOutcome) (page : Page)
    : Prop :=
  match o with
  | Scraper.GetRaised _ => False
  | Scraper.GetResponse status text data =>
      status = 200 ∧
      if PyStr.endswith url ".json"
      then ∃ j, data = Ok j ∧ json_truthy j = true ∧ page = JsonPage url j
      else ∃ c, text = Ok c ∧ PyStr.truthy c = true ∧ page = HtmlPage url c
  end.

(** Some attempt within the retry limit is answered with the content of
    [page], the attempts before it having failed. *)
Definition delivers (validators_url : string → bool) (cfg : Settings)
    (net : string → nat → Scraper.GetOutcome) (url : string) (page : Page) : Prop :=
  (∃ n, Scraper.normalize_url validators_url url = Ok n) ∧
  ∃ k, (Z.of_nat k ≤ MAX_RETRIES cfg)
       ∧ (∀ j, (j < k)%nat → not_200 (net url j))
       ∧ page_of_reply url (net url k) page.

(** The body of the page recorded for a URL, if a page with a body was
    recorded. *)
Definition fetched_body (scraped_content : ScrapedContent) (url : string)
    : option string :=
  match scraped_content !! url with
  | Some (Some page) => page_content page
  | _ => None
  end.

(** A body of more than 100 characters. *)
Definition long_enough (body : option string) : bool :=
  match body with
  | Some content => 100 <? PyStr.length content
  | None => false
  end.

(** The policy paths whose page was fetched with a body of more than 100
    characters, in the order of the table. *)
Definition policy_pages (main_url : string) (scraped_content : ScrapedContent)
    : list (string * string) :=
  List.filter (fun entry => long_enough (fetched_body scraped_content entry.1))
              (Analyzer.policy_urls main_url).

Section Heroes.
Variable urljoin : string → string → string.
Variable self : Parser.ShopifyParser.
Variable _extract_hero_product_from_element : Bs4.Tag → option HeroProduct.

(** The entries extracted from the markup of a page: what the three
    groups of selectors give, less the near-duplicates. *)
Definition extracted_heroes (soup : Bs4.Tag) : list HeroProduct :=
  let select := Parser.selector_loop _extract_hero_product_from_element soup in
  let hero_products := select Parser.primary_selectors [] in
  let hero_products :=
    if len hero_products <? 2 then select Parser.secondary_selectors hero_products
    else hero_products in
  let hero_products :=
    if len hero_products <? 2 then select Parser.fallback_selectors hero_products
    else hero_products in
  Parser.remove_duplicates hero_products [] [].

(** The synthetic entries that the content of a page can give when
    [count_needed] entries are missing: from its images with an [alt]
    text, then from its headings, then from its links. *)
Definition synthetic_candidates (soup : Bs4.Tag) (count_needed : Z)
    : list HeroProduct :=
  omap (Parser.synthetic_from_image urljoin self)
       (slice_to (count_needed * 3) (Bs4.find_all_with soup ["img"] "alt"))
  ++ omap Parser.synthetic_from_heading
       (slice_to (count_needed * 2) (Bs4.find_all soup ["h1"; "h2"; "h3"; "h4"; "h5"]))
  ++ omap (Parser.synthetic_from_link urljoin self)
       (slice_to (count_needed * 2) (Bs4.find_all_with soup ["a"] "href")).

(** The fabricated placeholders numbered [from + 1] to [upto]. *)
Definition fabricated (from upto : nat) : list HeroProduct :=
  map (fun i => Parser.basic_product self (Z.of_nat i + 1)) (seq from (upto - from)).

(** The padding of a page that gave [extracted] entries: synthetic entries
    first, then fabricated ones, up to two entries in all. *)
Definition hero_padding (soup : Bs4.Tag) (extracted : list HeroProduct)
    : list HeroProduct :=
  let count_needed := 2 - len extracted in
  let synthetic :=
    take (Z.to_nat count_needed) (synthetic_candidates soup count_needed) in
  synthetic ++ fabricated (length synthetic) (Z.to_nat count_needed).
End Heroes.

(** Entries of a batch result that carry a page, and entries marked absent. *)
Definition carrying (m : ScrapedContent) : list (string * option Page) :=
  filter (fun kv => is_Some kv.2) (map_to_list m).
Definition absent (m : ScrapedContent) : list (string * option Page) :=
  filter (fun kv => ¬ is_Some kv.2) (map_to_list m).

(** The entry that a batch records for a task result. *)
Definition entry_of (result : PyResult (option Page)) : option Page :=
  match result with
  | Ok r => r
  | Raise _ => None
  end.

(** The [available] flag of a product is the one derived from its
    variants. *)
Definition derived (p : Product) : Prop :=
  p_available p = Some (Parser.derive_available (p_variants p)).

(** The number of policies of a given type. *)
Definition policies_of_type (t : PolicyType) (ps : list Policy) : nat :=
  length (List.filter (fun p => bool_decide (pol_type p = t)) ps).


(** Every character of [s] satisfies [q]. *)
Fixpoint only (q : ascii → bool) (s : string) : bool :=
  match s with
  | EmptyString => true
  | String c s' => q c && only q s'
  end.

(** A character that may stay in a file name. *)
Definition safe_char (c : ascii) : bool :=
  negb (Helpers.invalid_char c) && negb (PyStr.is_space c).

(** A character of ASCII text. *)
Definition ascii_char (c : ascii) : bool := (PyStr.code c <? 128)%nat.

(** A character of cleaned text: one that [clean_text] keeps, and no
    white space other than the plain space. *)
Definition clean_char (c : ascii) : bool :=
  CleanText.kept c && (negb (PyStr.is_space c) || Ascii.eqb c " ").

(** The text that [normalize_url] submits to [validators.url]: the URL
    without surrounding white space, with [https://] in front of it when
    it names no protocol. *)
Definition submitted (url : string) : string :=
  if negb (Helpers.has_protocol (PyStr.strip url))
  then "https://" +:+ PyStr.strip url else PyStr.strip url.

(** A reply that gives [fetch_json] nothing: an exception, a status other
    than 200, or a body that does not decode. *)
Definition no_json (o : Scraper.GetOutcome) : Prop :=
  match o with
  | Scraper.GetRaised _ => True
  | Scraper.GetResponse status _ data => status ≠ 200 ∨ ∃ e, data = Raise e
  end.

(** A 200 reply whose decoded body is falsy: an empty page, or JSON such
    as an empty object, an empty list, zero or null. *)
Definition falsy_reply (url : string) (o : Scraper.GetOutcome) : Prop :=
  match o with
  | Scraper.GetRaised _ => False
  | Scraper.GetResponse status text data =>
      status = 200 ∧
      if PyStr.endswith url ".json"
      then ∃ j, data = Ok j ∧ json_truthy j = false
      else text = Ok ""
  end.

(** The waits of a fetch whose last attempt is number [m]. *)
Definition expected_waits (delay : Q) (m : nat) : list Q :=
  map (fun k => (delay * inject_Z (Z.of_nat k + 1))%Q) (seq 0 m).

(** The keys of the batch result that [_parse_comprehensive_content]
    reads: the home page, the products feed, the eight policy pages and
    the three FAQ pages. *)
Definition lookups (main_url : string) : list string :=
  main_url :: Analyzer.under main_url "/products.json"
  :: map fst (Analyzer.policy_urls main_url) ++ Analyzer.faq_urls main_url.

(** The rank of a competitor record in the final ordering. *)
Definition rank (c : CompetitorFinder.Competitor) : Z :=
  CompetitorFinder.source_rank (CompetitorFinder.c_source c).

(** A list of competitor records in the final ordering: no record is
    followed, at any distance, by one of a lower rank. *)
Fixpoint ordered (competitors : list CompetitorFinder.Competitor) : Prop :=
  match competitors with
  | [] => True
  | c :: rest => Forall (fun c' => rank c ≤ rank c') rest ∧ ordered rest
  end.

(** The sources of the records that [find_competitors] can return. *)
Definition returned_sources : list string :=
  ["Database"; "Web Search"; "Industry Analysis"].

(** A record of [_search_web_competitors] for a store's domain: it names
    a domain that is not empty and is not the store's, [www.] apart. *)
Definition found_on_web (domain : string) (c : CompetitorFinder.Competitor) : Prop :=
  CompetitorFinder.c_source c = "Web Search"
  ∧ ∃ result_domain,
      CompetitorFinder.c_domain c = Some result_domain
      ∧ result_domain ≠ ""
      ∧ PyStr.replace "www." "" result_domain ≠ PyStr.replace "www." "" domain.

(** The URL that [analyze_and_store_shop] works with. *)
Definition with_protocol (url : string) : string :=
  if negb (Helpers.has_protocol url) then "https://" +:+ url else url.

(** A URL fetched as a page rather than as JSON. *)
Definition html_url (u : string) : bool := negb (PyStr.endswith u ".json").


(** The completeness score as a function of the number of sections that
    are filled. *)
Definition score_of (points : Z) : float :=
  PrimFloat.mul
    (PrimFloat.div (Analyzer.float_of_int points) (Analyzer.float_of_int 7))
    (Analyzer.float_of_int 100).

(** A profile with another count of pages. *)
Definition with_pages (n : Z) (p : Analyzer.BrandContext) : Analyzer.BrandContext :=
  {| Analyzer.brand_name := Analyzer.brand_name p;
     Analyzer.website_url := Analyzer.website_url p;
     Analyzer.favicon_url := Analyzer.favicon_url p;
     Analyzer.product_catalog := Analyzer.product_catalog p;
     Analyzer.products := Analyzer.products p;
     Analyzer.hero_products := Analyzer.hero_products p;
     Analyzer.product_count := Analyzer.product_count p;
     Analyzer.policies := Analyzer.policies p;
     Analyzer.faqs := Analyzer.faqs p;
     Analyzer.social_handles := Analyzer.social_handles p;
     Analyzer.contact_info := Analyzer.contact_info p;
     Analyzer.brand_description := Analyzer.brand_description p;
     Analyzer.about_us := Analyzer.about_us p;
     Analyzer.brand_story := Analyzer.brand_story p;
     Analyzer.important_links := Analyzer.important_links p;
     Analyzer.competitors := Analyzer.competitors p;
     Analyzer.competitor_urls := Analyzer.competitor_urls p;
     Analyzer.shopify_theme := Analyzer.shopify_theme p;
     Analyzer.apps_detected := Analyzer.apps_detected p;
     Analyzer.analysis_date := Analyzer.analysis_date p;
     Analyzer.analysis_duration := Analyzer.analysis_duration p;
     Analyzer.pages_analyzed := n |}.

(** Two outcomes of the aggregation that differ at most in the count of
    pages, which is [n] in the second. *)
Definition same_up_to_pages (n : Z) (r r' : PyResult Analyzer.BrandContext) : Prop :=
  match r, r' with
  | Ok p, Ok p' => p' = with_pages n p
  | Raise e, Raise e' => e = e'
  | _, _ => False
  end.

End Spec.

(* ===================================================================== *)
(** * Sample inputs *)
(* ===================================================================== *)

Module Samples.

(** ** Libraries *)

Definition validators_url : string → bool := fun _ => true.

Fixpoint until_delim (s : string) : string :=
  match s with
  | EmptyString => EmptyString
  | String c s' =>
      if PyStr.contains "/?#" (String c EmptyString) then EmptyString
      else String c (until_delim s')
  end.
(** The host of an [http(s)://host/..] URL. *)
Definition netloc (url : string) : string :=
  if PyStr.startswith url "https://" then until_delim (PyStr.drop 8 url)
  else if PyStr.startswith url "http://" then until_delim (PyStr.drop 7 url)
  else "".

Definition urljoin (base relative : string) : string :=
  PyStr.rstrip_char "/" base +:+ relative.

Definition validate_int (v : json) : option Z :=
  match v with JInt n => Some n | _ => None end.
Definition validate_str (v : json) : option string :=
  match v with JStr s => Some s | _ => None end.
Definition validate_bool (v : json) : option bool :=
  match v with JBool b => Some b | _ => None end.
Definition validate_str_list (v : json) : option (list string) :=
  match v with
  | JArr xs => mapM validate_str xs
  | _ => None
  end.
Definition float_of_str (s : string) : option PyFloat :=
  if PyStr.eqb s "19.99" then Some (Finite (1999 # 100)) else None.
Definition repr_other (v : json) : string := "".

(** ** Documents *)

Definition leaf (name text : string) : Bs4.Tag :=
  Bs4.mkTag name [] text (Some text) (fun _ => []) (fun _ => [])
    None (fun _ => None) (fun _ => None).

Definition named (names : list string) (t : Bs4.Tag) : bool :=
  existsb (PyStr.eqb (Bs4.name t)) names.

Fixpoint all_chars (p : ascii → bool) (s : string) : bool :=
  match s with
  | EmptyString => true
  | String c s' => p c && all_chars p s'
  end.
(** The bare tag names among the alternatives of a selector list. *)
Definition bare_names (selector : string) : list string :=
  List.filter (fun a => PyStr.truthy a && all_chars PyStr.is_alnum a)
              (map PyStr.strip (PyStr.split "," selector)).

(** An element, or a document, whose tags carry no attribute:
    [find_all] lists the given descendants by name, and a selector list
    picks those named by one of its bare tag names (no class or attribute
    selector can match). *)
Definition plain (name : string) (descendants : list Bs4.Tag) : Bs4.Tag :=
  Bs4.mkTag name [] (PyStr.join "" (map Bs4.get_text descendants)) None
    (fun selector => List.filter (named (bare_names selector)) descendants)
    (fun names => List.filter (named names) descendants)
    None (fun _ => None) (fun _ => None).

Definition empty_document : Bs4.Tag := plain "[document]" [].

Definition title_html : string := "<title>Foo | Acme Store</title>".
Definition title_document : Bs4.Tag :=
  plain "[document]" [leaf "title" "Foo | Acme Store"].

Definition question (i : nat) : string := "Question " +:+ PyStr.of_nat i +:+ "?".
Definition answer (i : nat) : string := "Answer to question " +:+ PyStr.of_nat i.
Definition faq_numbers : list nat := seq 1 20.

(** A page with one definition list of twenty question/answer pairs. *)
Definition faq_html : string :=
  "<dl>"
  +:+ PyStr.join ""
        (map (fun i => "<dt>" +:+ question i +:+ "</dt><dd>" +:+ answer i +:+ "</dd>")
             faq_numbers)
  +:+ "</dl>".
Definition faq_list : Bs4.Tag :=
  plain "dl" (flat_map (fun i => [leaf "dt" (question i); leaf "dd" (answer i)])
                       faq_numbers).
Definition faq_document : Bs4.Tag := plain "[document]" [faq_list].

(** A page whose text shows two e-mail addresses. *)
Definition contact_text : string := "sales@x.com, info@x.com".
Definition contact_html : string := "<p>" +:+ contact_text +:+ "</p>".
Definition contact_document : Bs4.Tag :=
  plain "[document]" [leaf "p" contact_text].

Definition BeautifulSoup (html : string) : PyResult Bs4.Tag :=
  if PyStr.eqb html title_html then Ok title_document
  else if PyStr.eqb html faq_html then Ok faq_document
  else if PyStr.eqb html contact_html then Ok contact_document
  else Ok empty_document.

Definition main_url : string := "https://shop.example".
Definition parser : Parser.ShopifyParser := Parser.init netloc main_url.
Definition no_hero : Bs4.Tag → option HeroProduct := fun _ => None.

(** ** Fetched pages *)

Fixpoint repeat_char (c : ascii) (n : nat) : string :=
  match n with
  | O => EmptyString
  | S n' => String c (repeat_char c n')
  end.
(** A page body of 101 characters. *)
Definition policy_body : string := repeat_char "p" 101.

Definition html_entry (url content : string) (m : ScrapedContent) : ScrapedContent :=
  <[url := Some (HtmlPage url content)]> m.

(** Both privacy pages were fetched. *)
Definition two_privacy_pages : ScrapedContent :=
  html_entry "https://shop.example/pages/privacy-policy" policy_body
    (html_entry "https://shop.example/pages/privacy" policy_body ∅).

(** The FAQ page and the help page were fetched. *)
Definition two_faq_pages : ScrapedContent :=
  html_entry "https://shop.example/pages/faq" faq_html
    (html_entry "https://shop.example/pages/help" faq_html ∅).

(** ** A batch of five URLs, two of which always time out *)

Definition batch : list string :=
  [ "https://shop.example";
    "https://shop.example/products.json";
    "https://shop.example/pages/faq";
    "https://shop.example/pages/privacy";
    "https://shop.example/pages/terms" ].
Definition timed_out : list string :=
  [ "https://shop.example/pages/privacy"; "https://shop.example/pages/terms" ].

Definition net (url : string) (attempt : nat) : Scraper.GetOutcome :=
  if existsb (PyStr.eqb url) timed_out then Scraper.GetRaised TimeoutError
  else if PyStr.endswith url ".json"
  then Scraper.GetResponse 200 (Ok "{}") (Ok (JObj [("products", JArr [])]))
  else Scraper.GetResponse 200 (Ok "<html></html>") (Raise OtherError).

(** A network on which every request times out. *)
Definition dead_net (url : string) (attempt : nat) : Scraper.GetOutcome :=
  Scraper.GetRaised TimeoutError.

(** ** A products feed: one product, two variants *)

Definition feed : json :=
  JObj [ ("products",
          JArr [ JObj [ ("id", JInt 1); ("title", JStr "Tee"); ("handle", JStr "tee");
                        ("variants",
                         JArr [ JObj [("id", JInt 11); ("available", JBool true);
                                      ("price", JStr "19.99")];
                                JObj [("id", JInt 12); ("available", JBool false)] ]) ] ]) ].

Definition parse_feed : list Product :=
  Parser.parse_products_json urljoin parser validate_int validate_str
    validate_bool validate_str_list float_of_str repr_other feed.

(** ** Contact candidates *)

Definition candidate_emails : list string := ["sales@x.com"; "info@x.com"].

(** The addresses found in [contact_text]. *)
Definition extract_emails_from_text (text : string) : list string :=
  if PyStr.eqb text contact_text then candidate_emails else [].


(** ** A search that only finds the store itself *)

Definition store_domain : string := "example-store.com".
(** What the first source leaves when its two top hits are pages of the
    store itself and the other sources are refused. *)
Definition own_site_only (query : string) : list CompetitorFinder.SearchResult :=
  [ CompetitorFinder.mkResult "https://example-store.com" "Example Store"
      ("Found via DuckDuckGo search: " +:+ quoted query);
    CompetitorFinder.mkResult "https://example-store.com" "About Example Store"
      ("Found via DuckDuckGo search: " +:+ quoted query) ].

(** A search whose five sources find nothing. *)
Definition no_results (query : string) : list CompetitorFinder.SearchResult := [].

(** ** More replies *)

(** A network that answers every request with an empty page, which
    decodes to an empty object. *)
Definition empty_net (url : string) (attempt : nat) : Scraper.GetOutcome :=
  Scraper.GetResponse 200 (Ok "") (Ok (JObj [])).

(** A feed of three entries, the second of which is not an object. *)
Definition tee : json :=
  JObj [("id", JInt 1); ("title", JStr "Tee"); ("handle", JStr "tee")].
Definition broken_feed : list (string * json) :=
  [("products", JArr ([tee] ++ JNull :: [tee]))].

(** ** A policy page: a heading, and a body of 101 characters *)

Definition policy_document : Bs4.Tag :=
  plain "[document]" [leaf "h1" "Privacy Policy"; leaf "main" policy_body].
(** The elements of these documents have no descendants to remove. *)
Definition text_without (names : list string) (elem : Bs4.Tag) : string :=
  Bs4.get_text elem.

(** ** A whole analysis *)

Definition urlparse_path (url : string) : PyResult string := Ok "".
Definition isoformat (t : string) : string := t.
Definition database_save (url : string) (brand_context : Analyzer.BrandContext)
    : PyResult (option Z) := Ok (Some 1).

Definition analyze (BeautifulSoup : string → PyResult Bs4.Tag)
    (net : string → nat → Scraper.GetOutcome) (url : string) (save_to_db : bool)
    : Analyzer.AnalysisResult :=
  Analyzer.analyze_and_store_shop BeautifulSoup urljoin netloc urlparse_path
    validators_url settings net (fun _ _ => None) no_results (fun _ => 0%nat)
    validate_int validate_str validate_bool validate_str_list float_of_str
    repr_other extract_emails_from_text (fun _ => []) (fun _ => [])
    (fun _ => ([], [], [])) (fun _ => None) (fun xs => xs)
    "2024-01-01T00:00:00" "2024-01-01" "2024-01-01T00:00:09" isoformat
    database_save url save_to_db.

(** The aggregation of a batch result for the sample store. *)
Definition aggregate (scraped_content : ScrapedContent)
    : PyResult Analyzer.BrandContext :=
  Analyzer._parse_comprehensive_content BeautifulSoup urljoin netloc parser
    no_hero validators_url no_results (fun _ => 0%nat)
    validate_int validate_str validate_bool validate_str_list float_of_str
    repr_other extract_emails_from_text (fun _ => []) (fun _ => [])
    (fun _ => ([], [], [])) (fun _ => None) (fun _ => None) (fun xs => xs)
    (fun _ => Ok []) (fun _ => [])
    "2024-01-01T00:00:00" "2024-01-01" main_url scraped_content.

(** The home page alone, and the home page with a page that the
    aggregation does not read. *)
Definition home_only : ScrapedContent := html_entry main_url title_html ∅.
Definition home_and_blog : ScrapedContent :=
  html_entry "https://shop.example/blogs/news" title_html home_only.

End Samples.
(* ===================================================================== *)
(** * Facts about the fetcher *)
(* ===================================================================== *)

Section ScraperFacts.

Variable validators_url : string → bool.
Variable cfg : Settings.
Variable session_open : bool.

(** The loop over the attempts [a, a+1, .., a+n], [a+n] being the retry
    limit: it stops at the first attempt [m] that returns, or at the last
    one. *)
Lemma retry_loop_seq {A} (body : nat → option A) (r : Z) (n a : nat) :
  Z.of_nat (a + n) = r →
  ∃ m : nat,
    (a ≤ m ≤ a + n)%nat
    ∧ Scraper.retry_loop cfg body r (seq a (S n))
      = (body m, flat_map (Spec.step (RATE_LIMIT_DELAY cfg)) (seq a (m - a)) ++ [Scraper.EvAttempt m])
    ∧ (∀ k, (a ≤ k < m)%nat → body k = None)
    ∧ ((m < a + n)%nat → body m ≠ None).
Proof.
  revert a. induction n as [|n IH]; intros a Hr.
  - exists a. replace (a - a)%nat with 0%nat by lia. cbn [seq Scraper.retry_loop].
    repeat split; try lia.
    destruct (body a) eqn:E; cbn; [done|].
    replace (Z.of_nat a <? r) with false by (symmetry; apply Z.ltb_ge; lia).
    done.
  - change (seq a (S (S n))) with (a :: seq (S a) (S n)).
    cbn [Scraper.retry_loop]. destruct (body a) eqn:E.
    + exists a. replace (a - a)%nat with 0%nat by lia.
      rewrite E. repeat split; try lia. congruence.
    + destruct (IH (S a)) as (m & Hm & Heq & Hbefore & Hlast); [lia|].
      exists m. rewrite Heq.
      replace (Z.of_nat a <? r) with true by (symmetry; apply Z.ltb_lt; lia).
      repeat split; try lia.
      * replace (m - a)%nat with (S (m - S a)) by lia.
        cbn [seq flat_map]. reflexivity.
      * intros k Hk. destruct (decide (k = a)) as [->|]; [done|].
        apply Hbefore. lia.
      * intros ?. apply Hlast. lia.
Qed.

Lemma retry_loop_ext {A} (body body' : nat → option A) r attempts :
  (∀ k, body k = body' k) →
  Scraper.retry_loop cfg body r attempts = Scraper.retry_loop cfg body' r attempts.
Proof.
  intros H. induction attempts as [|k rest IH]; [done|].
  cbn. rewrite <- H, IH. done.
Qed.

Lemma range_succ (r : Z) : 0 ≤ r → Scraper.range (r + 1) = seq 0 (S (Z.to_nat r)).
Proof. intros. unfold Scraper.range. f_equal. lia. Qed.

Lemma range_nonpos (r : Z) : r < 0 → Scraper.range (r + 1) = [].
Proof. intros. unfold Scraper.range. replace (Z.to_nat (r + 1)) with 0%nat by lia. done. Qed.

Lemma attempts_made_expected (m : nat) :
  Scraper.attempts_made (Spec.expected_trace (RATE_LIMIT_DELAY cfg) m) = S m.
Proof.
  unfold Spec.expected_trace, Scraper.attempts_made.
  rewrite List.filter_app, length_app. cbn.
  enough (H : ∀ a n, length (List.filter Scraper.is_attempt
            (flat_map (Spec.step (RATE_LIMIT_DELAY cfg)) (seq a n))) = n)
    by (rewrite H; lia).
  intros a n. revert a. induction n as [|n IH]; intros a; cbn; [done|].
  by rewrite IH.
Qed.

Variable net : string → nat → Scraper.GetOutcome.

Lemma html_attempt_not_200 url k :
  Spec.not_200 (net url k) → Scraper.html_attempt session_open net url k = None.
Proof.
  unfold Scraper.html_attempt, Spec.not_200. destruct session_open; cbn; [|done].
  destruct (net url k) as [e|status text data]; [done|].
  intros H. by apply Z.eqb_neq in H as ->.
Qed.

Lemma json_attempt_not_200 url k :
  Spec.not_200 (net url k) → Scraper.json_attempt session_open net url k = None.
Proof.
  unfold Scraper.json_attempt, Spec.not_200. destruct session_open; cbn; [|done].
  destruct (net url k) as [e|status text data]; [done|].
  intros H. by apply Z.eqb_neq in H as ->.
Qed.

End ScraperFacts.

Section FetchFacts.

Variable validators_url : string → bool.
Variable cfg : Settings.
Variable session_open : bool.

(** The whole retry loop of a fetch, for a retry limit [r ≥ 0]. *)
Lemma retry_loop_range {A} (body : nat → option A) (r : Z) :
  0 ≤ r →
  ∃ m : nat,
    Z.of_nat m ≤ r
    ∧ Scraper.retry_loop cfg body r (Scraper.range (r + 1))
      = (body m, Spec.expected_trace (RATE_LIMIT_DELAY cfg) m)
    ∧ (∀ k, (k < m)%nat → body k = None)
    ∧ (Z.of_nat m < r → body m ≠ None).
Proof.
  intros Hr. rewrite range_succ by done.
  destruct (retry_loop_seq cfg body r (Z.to_nat r) 0) as (m & Hm & Heq & Hb & Hl);
    [lia|].
  exists m. rewrite Heq. unfold Spec.expected_trace.
  replace (m - 0)%nat with m by lia.
  repeat split; try lia.
  - intros k Hk. apply Hb. lia.
  - intros ?. apply Hl. lia.
Qed.

(** With a negative limit no attempt is made. *)
Lemma retry_loop_none {A} (body : nat → option A) (r : Z) :
  r < 0 → Scraper.retry_loop cfg body r (Scraper.range (r + 1)) = (None, []).
Proof. intros. by rewrite range_nonpos. Qed.

(** A loop all of whose attempts fail returns nothing. *)
Lemma retry_loop_all_fail {A} (body : nat → option A) (r : Z) :
  (∀ k, Z.of_nat k ≤ r → body k = None) →
  (Scraper.retry_loop cfg body r (Scraper.range (r + 1))).1 = None.
Proof.
  intros Hfail. destruct (Z.lt_ge_cases r 0) as [Hneg|Hpos].
  - by rewrite retry_loop_none.
  - destruct (retry_loop_range body r Hpos) as (m & Hm & -> & _ & _).
    cbn. by apply Hfail.
Qed.

(** A loop whose attempt [k] is the first to return, returns its value. *)
Lemma retry_loop_first {A} (body : nat → option A) (r : Z) (k : nat) (a : A) :
  Z.of_nat k ≤ r →
  (∀ j, (j < k)%nat → body j = None) →
  body k = Some a →
  (Scraper.retry_loop cfg body r (Scraper.range (r + 1))).1 = Some a.
Proof.
  intros Hk Hbefore Hgood.
  destruct (retry_loop_range body r) as (m & Hm & -> & Hb & Hl); [lia|].
  cbn. destruct (Nat.lt_trichotomy m k) as [Hlt|[->|Hgt]]; [|done|].
  - exfalso. apply Hl; [lia|]. by apply Hbefore.
  - rewrite Hb in Hgood by done. done.
Qed.

End FetchFacts.

(** C8 (as amended). For every URL that [normalize_url] accepts and every
    retry limit [r ≥ 0] (by default [MAX_RETRIES], which is 3), a single-page
    fetch never raises and makes the attempts [0, 1, .., m] for some
    [m ≤ r], hence at most [r + 1] attempts (4 by default): after each failed
    attempt [k < m] it waits [RATE_LIMIT_DELAY * (k + 1)] seconds (1s base,
    scaled by the attempt number) and tries again; an attempt fails whenever
    the request raises or the response status is not 200; the fetch stops
    early only at an attempt that returns content; and when all [r + 1]
    attempts fail the result is [None]. *)
Theorem C8_fetch_html_retry_policy :
  ∀ (validators_url : string → bool) (cfg : Settings) (session_open : bool)
    (net : string → nat → Scraper.GetOutcome)
    (url : string) (retries : option Z) (normalized : string),
    let r := default (MAX_RETRIES cfg) retries in
    let run := Scraper.fetch_html validators_url cfg session_open net url retries in
    let attempt := Scraper.html_attempt session_open net url in
    Scraper.normalize_url validators_url url = Ok normalized →
    0 ≤ r →
    (∃ m : nat,
       Z.of_nat m ≤ r
       ∧ run = (Ok (attempt m), Spec.expected_trace (RATE_LIMIT_DELAY cfg) m)
       ∧ (∀ k, (k < m)%nat → attempt k = None)
       ∧ (Z.of_nat m < r → attempt m ≠ None))
    ∧ Z.of_nat (Scraper.attempts_made run.2) ≤ r + 1
    ∧ (∀ k, Spec.not_200 (net url k) → attempt k = None)
    ∧ ((∀ k, Z.of_nat k ≤ r → attempt k = None) →
       run.1 = Ok None ∧ Z.of_nat (Scraper.attempts_made run.2) = r + 1)
    ∧ MAX_RETRIES settings = 3 ∧ RATE_LIMIT_DELAY settings = 1%Q.
Proof.
  intros validators_url cfg session_open net url retries normalized r run attempt Hn Hr.
  assert (Hrun : ∃ m : nat,
       Z.of_nat m ≤ r
       ∧ run = (Ok (attempt m), Spec.expected_trace (RATE_LIMIT_DELAY cfg) m)
       ∧ (∀ k, (k < m)%nat → attempt k = None)
       ∧ (Z.of_nat m < r → attempt m ≠ None)).
  { subst run. unfold Scraper.fetch_html. rewrite Hn. fold r.
    destruct (retry_loop_range cfg attempt r Hr) as (m & Hm & Heq & Hb & Hl).
    exists m. subst attempt. rewrite Heq. done. }
  destruct Hrun as (m & Hm & Heq & Hb & Hl).
  split; [by exists m|]. rewrite Heq. cbn [fst snd].
  rewrite attempts_made_expected.
  split; [lia|]. split; [apply html_attempt_not_200|].
  split; [|done].
  intros Hall. split; [by rewrite Hall|].
  destruct (Z.lt_ge_cases (Z.of_nat m) r) as [Hlt|Hge]; [|lia].
  exfalso. apply (Hl Hlt). by apply Hall.
Qed.

Lemma C8_fetch_html_retry_policy_witness :
  let run := Scraper.fetch_html Samples.validators_url settings true
               Samples.dead_net "https://shop.example" None in
  Scraper.normalize_url Samples.validators_url "https://shop.example"
    = Ok "https://shop.example"
  ∧ run.1 = Ok None
  ∧ Z.of_nat (Scraper.attempts_made run.2) = 4.
Proof.
  pose proof (C8_fetch_html_retry_policy Samples.validators_url settings true
                Samples.dead_net "https://shop.example" None
                "https://shop.example" eq_refl ltac:(cbn; lia)) as H.
  split; [reflexivity|].
  destruct H as (_ & _ & _ & H & _).
  apply H. intros k _. reflexivity.
Defined.

(** C8, as stated: with the default settings ([MAX_RETRIES] = 3) a fetch
    whose requests all time out makes four attempts, not at most three. *)
Lemma C8_counterexample :
  let run := Scraper.fetch_html Samples.validators_url settings true
               Samples.dead_net "https://shop.example" None in
  MAX_RETRIES settings = 3
  ∧ run.1 = Ok None
  ∧ Scraper.attempts_made run.2 = 4%nat
  ∧ ¬ (Z.of_nat (Scraper.attempts_made run.2) ≤ MAX_RETRIES settings).
Proof. vm_compute. repeat split; try reflexivity. intros H. apply H. reflexivity. Qed.

Section BatchFacts.

Variable validators_url : string → bool.
Variable cfg : Settings.
Variable session_open : bool.
Variable net : string → nat → Scraper.GetOutcome.

Local Abbreviation task := (Scraper.task validators_url cfg session_open net).

Lemma record_insert acc url :
  Scraper.record acc (url, task url) = <[url := Spec.entry_of (task url)]> acc.
Proof. cbn. by destruct (task url). Qed.

Lemma foldl_record_lookup (urls : list string) (acc : ScrapedContent) (u : string) :
  foldl Scraper.record acc (zip urls (map task urls)) !! u
  = if decide (u ∈ urls) then Some (Spec.entry_of (task u)) else acc !! u.
Proof.
  revert acc. induction urls as [|x rest IH]; intros acc.
  - cbn. by rewrite decide_False by apply not_elem_of_nil.
  - cbn [map zip zip_with foldl]. rewrite IH, record_insert.
    destruct (decide (u ∈ rest)) as [Hin|Hnin].
    + by rewrite decide_True by (by apply list_elem_of_further).
    + destruct (decide (u = x)) as [->|Hne].
      * rewrite decide_True by apply list_elem_of_here. by rewrite lookup_insert_eq.
      * rewrite decide_False by (by intros [?|?]%elem_of_cons).
        by rewrite lookup_insert_ne.
Qed.

(** Each URL of the batch is mapped to the outcome of its own task. *)
Lemma fetch_multiple_pages_lookup (urls : list string) (u : string) :
  Scraper.fetch_multiple_pages validators_url cfg session_open net urls !! u
  = if decide (u ∈ urls) then Some (Spec.entry_of (task u)) else None.
Proof.
  unfold Scraper.fetch_multiple_pages. case_bool_decide as Hnil.
  - subst urls. by rewrite decide_False by apply not_elem_of_nil.
  - pose proof (foldl_record_lookup urls ∅ u) as H.
    rewrite lookup_empty in H. exact H.
Qed.

Lemma fetch_multiple_pages_list (urls : list string) :
  NoDup urls →
  map_to_list (Scraper.fetch_multiple_pages validators_url cfg session_open net urls)
  ≡ₚ map (λ u, (u, Spec.entry_of (task u))) urls.
Proof.
  intros Hnd.
  set (l := map (λ u, (u, Spec.entry_of (task u))) urls).
  assert (Hfst : l.*1 = urls).
  { subst l. clear Hnd. induction urls as [|x rest IH]; [done|]. cbn. by f_equal. }
  assert (Heq : Scraper.fetch_multiple_pages validators_url cfg session_open net urls
                = list_to_map l).
  { apply map_eq. intros i. rewrite fetch_multiple_pages_lookup.
    destruct (decide (i ∈ urls)) as [Hin|Hnin].
    - symmetry. apply elem_of_list_to_map_1; [by rewrite Hfst|].
      subst l. apply list_elem_of_fmap. by exists i.
    - symmetry. apply not_elem_of_list_to_map_1. by rewrite Hfst. }
  rewrite Heq. apply map_to_list_to_map. by rewrite Hfst.
Qed.

Lemma fetch_multiple_pages_size (urls : list string) :
  NoDup urls →
  size (Scraper.fetch_multiple_pages validators_url cfg session_open net urls)
  = length urls.
Proof.
  intros Hnd. rewrite <- length_map_to_list.
  rewrite (fetch_multiple_pages_list urls Hnd). by rewrite length_map.
Qed.

(** A task reads the network only at its own URL. *)
Lemma task_local (net' : string → nat → Scraper.GetOutcome) (u : string) :
  (∀ k, net' u k = net u k) →
  Scraper.task validators_url cfg session_open net' u = task u.
Proof.
  intros Hsame. unfold Scraper.task.
  unfold Scraper._fetch_json_with_url, Scraper._fetch_html_with_url,
    Scraper.fetch_json, Scraper.fetch_html.
  assert (Hh : ∀ k, Scraper.html_attempt session_open net' u k
                    = Scraper.html_attempt session_open net u k).
  { intros k. unfold Scraper.html_attempt. by rewrite Hsame. }
  assert (Hj : ∀ k, Scraper.json_attempt session_open net' u k
                    = Scraper.json_attempt session_open net u k).
  { intros k. unfold Scraper.json_attempt. by rewrite Hsame. }
  by rewrite (retry_loop_ext cfg _ _ _ _ Hh), (retry_loop_ext cfg _ _ _ _ Hj).
Qed.

(** A URL all of whose attempts fail is recorded as absent. *)
Lemma task_fails (u : string) :
  Spec.fails_terminally cfg net u → Spec.entry_of (task u) = None.
Proof.
  intros Hfail. unfold Scraper.task.
  unfold Scraper._fetch_json_with_url, Scraper._fetch_html_with_url,
    Scraper.fetch_json, Scraper.fetch_html.
  destruct (Scraper.normalize_url validators_url u) as [n|e];
    [|by destruct (PyStr.endswith u ".json")].
  cbn [default].
  destruct (PyStr.endswith u ".json").
  - assert (Hb : ∀ k, Z.of_nat k ≤ MAX_RETRIES cfg
                      → Scraper.json_attempt session_open net u k = None).
    { intros k Hk. apply json_attempt_not_200. by apply Hfail. }
    pose proof (retry_loop_all_fail cfg _ (MAX_RETRIES cfg) Hb) as H.
    destruct (Scraper.retry_loop cfg _ _ _) as [r tr]. cbn [fst] in H. by subst r.
  - assert (Hb : ∀ k, Z.of_nat k ≤ MAX_RETRIES cfg
                      → Scraper.html_attempt session_open net u k = None).
    { intros k Hk. apply html_attempt_not_200. by apply Hfail. }
    pose proof (retry_loop_all_fail cfg _ (MAX_RETRIES cfg) Hb) as H.
    destruct (Scraper.retry_loop cfg _ _ _) as [r tr]. cbn [fst] in H. by subst r.
Qed.

End BatchFacts.

(** A URL that is answered with content within the retry limit is recorded
    with its page, when the session is open. *)
Lemma task_delivers validators_url cfg net (u : string) :
  Spec.delivers_content validators_url cfg net u →
  ∃ page, Scraper.task validators_url cfg true net u = Ok (Some page).
Proof.
  intros [[n Hn] (k & Hk & Hbefore & Hgood)].
  unfold Scraper.task, Scraper._fetch_json_with_url, Scraper._fetch_html_with_url,
    Scraper.fetch_json, Scraper.fetch_html.
  rewrite Hn. cbn [default].
  unfold Spec.good_reply in Hgood.
  destruct (net u k) as [e|status text data] eqn:Hnet; [done|].
  destruct Hgood as [-> Hgood].
  destruct (PyStr.endswith u ".json").
  - destruct Hgood as (j & -> & Hj).
    assert (Hb : ∀ i, (i < k)%nat → Scraper.json_attempt true net u i = None).
    { intros i Hi. apply json_attempt_not_200. by apply Hbefore. }
    assert (Hg : Scraper.json_attempt true net u k = Some j).
    { unfold Scraper.json_attempt. cbn. by rewrite Hnet. }
    pose proof (retry_loop_first cfg _ (MAX_RETRIES cfg) k j Hk Hb Hg) as H.
    destruct (Scraper.retry_loop cfg _ _ _) as [r tr]. cbn [fst] in H. subst r.
    cbn. rewrite Hj. by eexists.
  - destruct Hgood as (c & -> & Hc).
    assert (Hb : ∀ i, (i < k)%nat → Scraper.html_attempt true net u i = None).
    { intros i Hi. apply html_attempt_not_200. by apply Hbefore. }
    assert (Hg : Scraper.html_attempt true net u k = Some c).
    { unfold Scraper.html_attempt. cbn. by rewrite Hnet. }
    pose proof (retry_loop_first cfg _ (MAX_RETRIES cfg) k c Hk Hb Hg) as H.
    destruct (Scraper.retry_loop cfg _ _ _) as [r tr]. cbn [fst] in H. subst r.
    cbn. rewrite Hc. by eexists.
Qed.

(** A 200 reply with an empty body gives the task nothing to keep: the URL
    is recorded as absent, like a failed one. *)
Lemma task_empty_body validators_url cfg net (u n : string) data :
  Scraper.normalize_url validators_url u = Ok n →
  PyStr.endswith u ".json" = false →
  0 ≤ MAX_RETRIES cfg →
  net u 0%nat = Scraper.GetResponse 200 (Ok EmptyString) data →
  Scraper.task validators_url cfg true net u = Ok None.
Proof.
  intros Hn Hjson Hr Hnet.
  unfold Scraper.task, Scraper._fetch_html_with_url, Scraper.fetch_html.
  rewrite Hjson, Hn. cbn [default].
  assert (Hg : Scraper.html_attempt true net u 0 = Some EmptyString).
  { unfold Scraper.html_attempt. cbn. by rewrite Hnet. }
  pose proof (retry_loop_first cfg _ (MAX_RETRIES cfg) 0 EmptyString Hr
                ltac:(intros; lia) Hg) as H.
  destruct (Scraper.retry_loop cfg _ _ _) as [r tr]. cbn [fst] in H. by subst r.
Qed.

Lemma filter_all {A} (P : A → Prop) `{∀ x, Decision (P x)} (l : list A) :
  Forall P l → filter P l = l.
Proof.
  induction 1 as [|x l Hx Hl IH]; [done|].
  rewrite filter_cons_True by done. by rewrite IH.
Qed.

Lemma filter_none {A} (P : A → Prop) `{∀ x, Decision (P x)} (l : list A) :
  Forall (λ x, ¬ P x) l → filter P l = [].
Proof.
  induction 1 as [|x l Hx Hl IH]; [done|].
  by rewrite filter_cons_False.
Qed.

(** A URL that is answered with content within the retry limit is recorded
    with that content, under the URL itself. *)
Lemma task_delivers_page validators_url cfg net (u : string) (page : Page) :
  Spec.delivers validators_url cfg net u page →
  Scraper.task validators_url cfg true net u = Ok (Some page).
Proof.
  intros [[n Hn] (k & Hk & Hbefore & Hgood)].
  unfold Scraper.task, Scraper._fetch_json_with_url, Scraper._fetch_html_with_url,
    Scraper.fetch_json, Scraper.fetch_html.
  rewrite Hn. cbn [default].
  unfold Spec.page_of_reply in Hgood.
  destruct (net u k) as [e|status text data] eqn:Hnet; [done|].
  destruct Hgood as [-> Hgood].
  destruct (PyStr.endswith u ".json").
  - destruct Hgood as (j & -> & Hj & ->).
    assert (Hb : ∀ i, (i < k)%nat → Scraper.json_attempt true net u i = None).
    { intros i Hi. apply json_attempt_not_200. by apply Hbefore. }
    assert (Hg : Scraper.json_attempt true net u k = Some j).
    { unfold Scraper.json_attempt. cbn. by rewrite Hnet. }
    pose proof (retry_loop_first cfg _ (MAX_RETRIES cfg) k j Hk Hb Hg) as H.
    destruct (Scraper.retry_loop cfg _ _ _) as [r tr]. cbn [fst] in H. subst r.
    cbn. by rewrite Hj.
  - destruct Hgood as (c & -> & Hc & ->).
    assert (Hb : ∀ i, (i < k)%nat → Scraper.html_attempt true net u i = None).
    { intros i Hi. apply html_attempt_not_200. by apply Hbefore. }
    assert (Hg : Scraper.html_attempt true net u k = Some c).
    { unfold Scraper.html_attempt. cbn. by rewrite Hnet. }
    pose proof (retry_loop_first cfg _ (MAX_RETRIES cfg) k c Hk Hb Hg) as H.
    destruct (Scraper.retry_loop cfg _ _ _) as [r tr]. cbn [fst] in H. subst r.
    cbn. by rewrite Hc.
Qed.

(** The content that is delivered makes a page. *)
Lemma delivers_content_page validators_url cfg net (u : string) :
  Spec.delivers_content validators_url cfg net u →
  ∃ page, Spec.delivers validators_url cfg net u page.
Proof.
  intros [Hn (k & Hk & Hbefore & Hgood)].
  unfold Spec.good_reply in Hgood.
  destruct (net u k) as [e|status text data] eqn:Hnet; [done|].
  destruct Hgood as [-> Hgood].
  destruct (PyStr.endswith u ".json") eqn:Hjson.
  - destruct Hgood as (j & -> & Hj). exists (JsonPage u j).
    split; [done|]. exists k. split; [done|]. split; [done|].
    unfold Spec.page_of_reply. rewrite Hnet, Hjson. split; [done|]. by exists j.
  - destruct Hgood as (c & -> & Hc). exists (HtmlPage u c).
    split; [done|]. exists k. split; [done|]. split; [done|].
    unfold Spec.page_of_reply. rewrite Hnet, Hjson. split; [done|]. by exists c.
Qed.

(** C7. For every batch of five distinct URLs, three of which are answered
    with content within the retry limit while the two others fail at every
    attempt, the batch fetch (a total function: it cannot raise) returns a
    mapping with exactly five entries, the batch's URLs. Three entries carry
    a page, those of the three URLs that were answered: each holds, under
    its own URL, the body of the first reply with status 200, as HTML or as
    JSON. The two others are marked absent ([None]). The entry of a URL
    depends on the network's replies for that URL only, so one URL's failure
    never affects the others' results. *)
Theorem C7_batch_fetch_isolates_failures :
  ∀ (validators_url : string → bool) (cfg : Settings)
    (net : string → nat → Scraper.GetOutcome)
    (urls ok failed : list string),
    let m := Scraper.fetch_multiple_pages validators_url cfg true net urls in
    NoDup urls →
    urls ≡ₚ ok ++ failed →
    length ok = 3%nat →
    length failed = 2%nat →
    (∀ u, u ∈ failed → Spec.fails_terminally cfg net u) →
    (∀ u, u ∈ ok → Spec.delivers_content validators_url cfg net u) →
    size m = 5%nat
    ∧ (∀ u, u ∈ urls ↔ is_Some (m !! u))
    ∧ length (Spec.carrying m) = 3%nat
    ∧ length (Spec.absent m) = 2%nat
    ∧ (∀ u, u ∈ ok →
         ∃ page, Spec.delivers validators_url cfg net u page
                 ∧ m !! u = Some (Some page))
    ∧ (∀ u, u ∈ failed → m !! u = Some None)
    ∧ (∀ net' u, u ∈ urls → (∀ k, net' u k = net u k) →
         Scraper.fetch_multiple_pages validators_url cfg true net' urls !! u = m !! u)
    ∧ (∀ u page, u ∈ ok → Spec.delivers validators_url cfg net u page →
         m !! u = Some (Some page))
    ∧ (Spec.carrying m).*1 ≡ₚ ok
    ∧ (Spec.absent m).*1 ≡ₚ failed.
Proof.
  intros validators_url cfg net urls ok failed m Hnd Hperm Hok Hfailed Hf Hd.
  set (task := Scraper.task validators_url cfg true net).
  set (pair := λ u : string, (u, Spec.entry_of (task u))).
  assert (Hlist : map_to_list m ≡ₚ map pair ok ++ map pair failed).
  { subst m. rewrite fetch_multiple_pages_list by done.
    fold task. fold pair. rewrite <- map_app.
    by apply Permutation_map. }
  assert (Hgood : Forall (λ kv : string * option Page, is_Some kv.2) (map pair ok)).
  { apply Forall_forall. intros kv [u [-> Hu]]%list_elem_of_fmap.
    destruct (task_delivers _ _ _ _ (Hd u Hu)) as [page Hpage].
    subst pair task. cbn. rewrite Hpage. by eexists. }
  assert (Hbad : Forall (λ kv : string * option Page, ¬ is_Some kv.2) (map pair failed)).
  { apply Forall_forall. intros kv [u [-> Hu]]%list_elem_of_fmap.
    subst pair task. cbn. rewrite task_fails by auto. by intros [? ?]. }
  assert (Hlookup : ∀ u, u ∈ urls → m !! u = Some (Spec.entry_of (task u))).
  { intros u Hu. subst m. rewrite fetch_multiple_pages_lookup.
    by rewrite decide_True. }
  assert (Hcarrying : Spec.carrying m ≡ₚ map pair ok).
  { unfold Spec.carrying. rewrite Hlist, filter_app.
    rewrite (filter_all _ _ Hgood).
    rewrite (filter_none (λ kv : string * option Page, is_Some kv.2)).
    - by rewrite app_nil_r.
    - done. }
  assert (Habsent : Spec.absent m ≡ₚ map pair failed).
  { unfold Spec.absent. rewrite Hlist, filter_app.
    rewrite (filter_all _ _ Hbad).
    rewrite (filter_none (λ kv : string * option Page, ¬ is_Some kv.2)).
    - done.
    - eapply Forall_impl; [exact Hgood|]. cbn. tauto. }
  assert (Hkeys : ∀ l : list string, (map pair l).*1 = l).
  { intros l. induction l as [|x l IH]; [done|]. cbn. by f_equal. }
  assert (Hpage : ∀ u page, u ∈ ok → Spec.delivers validators_url cfg net u page →
                            m !! u = Some (Some page)).
  { intros u page Hu Hdel. rewrite Hlookup by (rewrite Hperm; set_solver).
    unfold task. by rewrite (task_delivers_page _ _ _ _ _ Hdel). }
  repeat split.
  - subst m. rewrite fetch_multiple_pages_size by done.
    rewrite Hperm, length_app. lia.
  - intros Hu. rewrite Hlookup by done. by eexists.
  - intros [v Hv]. subst m. rewrite fetch_multiple_pages_lookup in Hv.
    by destruct (decide (u ∈ urls)).
  - rewrite Hcarrying, length_map. lia.
  - rewrite Habsent, length_map. lia.
  - intros u Hu. destruct (delivers_content_page _ _ _ _ (Hd u Hu)) as [page Hdel].
    exists page. split; [done|]. by apply Hpage.
  - intros u Hu. rewrite Hlookup by (rewrite Hperm; set_solver).
    unfold task. by rewrite task_fails by auto.
  - intros net' u Hu Hsame. rewrite Hlookup by done.
    rewrite fetch_multiple_pages_lookup, decide_True by done.
    unfold task. by rewrite (task_local validators_url cfg true net net' u Hsame).
  - exact Hpage.
  - by rewrite Hcarrying, Hkeys.
  - by rewrite Habsent, Hkeys.
Qed.

Lemma C7_batch_fetch_isolates_failures_witness :
  let m := Scraper.fetch_multiple_pages Samples.validators_url settings true
             Samples.net Samples.batch in
  size m = 5%nat
  ∧ length (Spec.carrying m) = 3%nat
  ∧ length (Spec.absent m) = 2%nat
  ∧ m !! "https://shop.example/pages/terms" = Some None
  ∧ m !! "https://shop.example"
    = Some (Some (HtmlPage "https://shop.example" "<html></html>")).
Proof.
  intros m.
  assert (Hnd : NoDup Samples.batch).
  { apply (bool_decide_unpack _). by vm_compute. }
  assert (Hperm : Samples.batch ≡ₚ take 3 Samples.batch ++ Samples.timed_out)
    by reflexivity.
  assert (Hf : ∀ u, u ∈ Samples.timed_out → Spec.fails_terminally settings Samples.net u).
  { intros u Hu k _. unfold Samples.net.
    replace (existsb (PyStr.eqb u) Samples.timed_out) with true; [done|].
    symmetry. apply existsb_exists. exists u. split.
    - by apply list_elem_of_In.
    - unfold PyStr.eqb. by apply bool_decide_eq_true. }
  assert (Hd : ∀ u, u ∈ take 3 Samples.batch →
                    Spec.delivers_content Samples.validators_url settings Samples.net u).
  { intros u Hu. apply list_elem_of_In in Hu. cbn in Hu.
    destruct Hu as [<- | [<- | [<- | []]]].
    all: split; [eexists; reflexivity|].
    all: exists 0%nat; split; [cbn; lia|]; split; [intros j Hj; lia|].
    all: vm_compute; split; [reflexivity|]; eexists; split; reflexivity. }
  pose proof (C7_batch_fetch_isolates_failures Samples.validators_url settings
                Samples.net Samples.batch (take 3 Samples.batch) Samples.timed_out
                Hnd Hperm eq_refl eq_refl Hf Hd)
    as (H1 & _ & H3 & H4 & _ & H6 & _ & H8 & _).
  split; [exact H1|]. split; [exact H3|]. split; [exact H4|]. split.
  - apply H6. unfold Samples.timed_out. apply list_elem_of_In. cbn. auto.
  - apply H8; [apply list_elem_of_here|].
    split; [eexists; reflexivity|].
    exists 0%nat. split; [cbn; lia|]. split; [intros j Hj; lia|].
    vm_compute. split; [reflexivity|]. eexists. split; [reflexivity|]. split; reflexivity.
Defined.

(* ===================================================================== *)
(** * Facts about slices and padding loops *)
(* ===================================================================== *)

Lemma slice_to_length {A} (n : Z) (xs : list A) :
  0 ≤ n → len (slice_to n xs) = Z.min n (len xs).
Proof.
  intros Hn. unfold slice_to, len.
  replace (0 <=? n) with true by (symmetry; apply Z.leb_le; lia).
  rewrite length_take. lia.
Qed.

Lemma len_app {A} (xs ys : list A) : len (xs ++ ys) = len xs + len ys.
Proof. unfold len. rewrite length_app. lia. Qed.

Lemma len_nonneg {A} (xs : list A) : 0 ≤ len xs.
Proof. unfold len. lia. Qed.

(* ===================================================================== *)
(** * Facts about the aggregated policies and FAQs *)
(* ===================================================================== *)

Lemma policies_of_type_app t (ps qs : list Policy) :
  Spec.policies_of_type t (ps ++ qs)
  = (Spec.policies_of_type t ps + Spec.policies_of_type t qs)%nat.
Proof. unfold Spec.policies_of_type. by rewrite List.filter_app, length_app. Qed.

(** A policy page yields no entry or one entry, of the type mapped to its
    path. *)
Lemma policy_of_cases (scraped_content : ScrapedContent) (url policy_type : string) :
  Analyzer.policy_of scraped_content (url, policy_type) = []
  ∨ ∃ p, Analyzer.policy_of scraped_content (url, policy_type) = [p]
         ∧ pol_type p = Analyzer.policy_type_of policy_type.
Proof.
  unfold Analyzer.policy_of.
  destruct (scraped_content !! url) as [[content_data|]|]; [|by left..].
  destruct (page_content content_data) as [content|]; [|by left].
  destruct (PyStr.truthy content && (100 <? PyStr.length content)); [|by left].
  right. by eexists.
Qed.

Lemma policy_of_count t (scraped_content : ScrapedContent) (url policy_type : string) :
  (Spec.policies_of_type t (Analyzer.policy_of scraped_content (url, policy_type))
   ≤ if decide (Analyzer.policy_type_of policy_type = t) then 1 else 0)%nat.
Proof.
  destruct (policy_of_cases scraped_content url policy_type) as [->|(p & -> & Hp)].
  - cbn. lia.
  - unfold Spec.policies_of_type. cbn. rewrite Hp.
    case_bool_decide; case_decide; cbn; try lia. done.
Qed.

Lemma policy_of_length (scraped_content : ScrapedContent) (entry : string * string) :
  (length (Analyzer.policy_of scraped_content entry) ≤ 1)%nat.
Proof.
  destruct entry as [url policy_type].
  destruct (policy_of_cases scraped_content url policy_type) as [->|(p & -> & _)];
    cbn; lia.
Qed.

(** The count of policies by type: two pages are mapped to each of the
    types privacy, terms, return and shipping, none to refund. *)
Lemma policies_count_by_type (main_url : string) (scraped_content : ScrapedContent)
    (t : PolicyType) :
  (Spec.policies_of_type t
     (Analyzer._parse_comprehensive_policies main_url scraped_content)
   ≤ (if decide (PRIVACY = t) then 2 else 0)
     + (if decide (TERMS = t) then 2 else 0)
     + (if decide (RETURN = t) then 2 else 0)
     + (if decide (SHIPPING = t) then 2 else 0))%nat.
Proof.
  unfold Analyzer._parse_comprehensive_policies, Analyzer.policy_urls.
  cbn [flat_map]. rewrite !policies_of_type_app.
  repeat match goal with
  | |- context [Spec.policies_of_type t (Analyzer.policy_of scraped_content (?u, ?ty))] =>
      let H := fresh "H" in
      pose proof (policy_of_count t scraped_content u ty) as H;
      change (Analyzer.policy_type_of ty) with
        ltac:(let v := eval vm_compute in (Analyzer.policy_type_of ty) in exact v) in H;
      generalize dependent
        (Spec.policies_of_type t (Analyzer.policy_of scraped_content (u, ty)));
      intros ? ?
  end.
  cbn. repeat case_decide; lia.
Qed.

Lemma policies_per_type (main_url : string) (scraped_content : ScrapedContent)
    (t : PolicyType) :
  (Spec.policies_of_type t
     (Analyzer._parse_comprehensive_policies main_url scraped_content) ≤ 2)%nat.
Proof.
  pose proof (policies_count_by_type main_url scraped_content t) as H.
  destruct t; repeat case_decide; try done; lia.
Qed.

Lemma policies_length (main_url : string) (scraped_content : ScrapedContent) :
  (length (Analyzer._parse_comprehensive_policies main_url scraped_content) ≤ 8)%nat.
Proof.
  unfold Analyzer._parse_comprehensive_policies, Analyzer.policy_urls.
  cbn [flat_map]. rewrite !length_app.
  repeat match goal with
  | |- context [length (Analyzer.policy_of scraped_content ?e)] =>
      let H := fresh "H" in
      pose proof (policy_of_length scraped_content e) as H;
      generalize dependent (length (Analyzer.policy_of scraped_content e));
      intros ? ?
  end.
  cbn. lia.
Qed.

(** A policy path yields an entry exactly when its page was fetched with a
    body of more than 100 characters: then one entry, of the type mapped to
    the path, holding the first 2000 characters of the body. *)
Lemma policy_of_emitted (scraped_content : ScrapedContent) (url policy_type : string) :
  Analyzer.policy_of scraped_content (url, policy_type)
  = if Spec.long_enough (Spec.fetched_body scraped_content url)
    then [ {| pol_type := Analyzer.policy_type_of policy_type;
              pol_title :=
                Some (PyStr.title (PyStr.replace "_" " " policy_type) +:+ " Policy");
              pol_content :=
                PyStr.take 2000 <$> Spec.fetched_body scraped_content url;
              pol_url := None |} ]
    else [].
Proof.
  unfold Analyzer.policy_of, Spec.fetched_body, Spec.long_enough.
  destruct (scraped_content !! url) as [[content_data|]|]; [|done..].
  destruct (page_content content_data) as [content|]; [|done].
  destruct (Z.ltb_spec 100 (PyStr.length content)) as [Hlong|Hshort].
  - destruct content; [unfold PyStr.length in Hlong; cbn in Hlong; lia|done].
  - by rewrite andb_false_r.
Qed.

Lemma policies_emitted (scraped_content : ScrapedContent)
    (entries : list (string * string)) :
  let policies := flat_map (Analyzer.policy_of scraped_content) entries in
  let emitted :=
    List.filter (λ entry, Spec.long_enough (Spec.fetched_body scraped_content entry.1))
                entries in
  map pol_type policies = map (λ entry, Analyzer.policy_type_of entry.2) emitted
  ∧ map pol_content policies
    = map (λ entry, PyStr.take 2000 <$> Spec.fetched_body scraped_content entry.1)
          emitted.
Proof.
  induction entries as [|[url policy_type] entries [IH1 IH2]]; [done|].
  cbn [flat_map List.filter fst]. rewrite policy_of_emitted.
  destruct (Spec.long_enough (Spec.fetched_body scraped_content url)); cbn.
  - split; by f_equal.
  - by split.
Qed.

Lemma policies_of_type_types t (ps : list Policy) :
  Spec.policies_of_type t ps
  = length (List.filter (λ ty, bool_decide (ty = t)) (map pol_type ps)).
Proof.
  unfold Spec.policies_of_type.
  induction ps as [|p ps IH]; [done|]. cbn.
  destruct (bool_decide (pol_type p = t)); cbn; by rewrite IH.
Qed.

Lemma both_privacy_pages (main_url : string) (scraped_content : ScrapedContent) :
  Spec.long_enough
    (Spec.fetched_body scraped_content (Analyzer.under main_url "/pages/privacy-policy"))
  = true →
  Spec.long_enough
    (Spec.fetched_body scraped_content (Analyzer.under main_url "/pages/privacy"))
  = true →
  Spec.policies_of_type PRIVACY
    (Analyzer._parse_comprehensive_policies main_url scraped_content) = 2%nat.
Proof.
  intros H1 H2. rewrite policies_of_type_types.
  unfold Analyzer._parse_comprehensive_policies.
  rewrite (proj1 (policies_emitted scraped_content (Analyzer.policy_urls main_url))).
  unfold Analyzer.policy_urls. cbn [List.filter fst]. rewrite H1, H2.
  repeat match goal with
  | |- context [Spec.long_enough (Spec.fetched_body scraped_content ?u)] =>
      destruct (Spec.long_enough (Spec.fetched_body scraped_content u))
  end; by vm_compute.
Qed.

(** C1 (as amended). The aggregated policies list holds one entry for each
    of the eight fixed policy paths whose page was fetched with a body of
    more than 100 characters, in the order of the paths, and no other
    entry: its entry has the type mapped to the path and the first 2000
    characters of the body. Two paths map to each of the types privacy,
    terms, return and shipping, so the list has at most two entries of any
    one type, at most eight entries, and none of type refund; when both
    privacy pages were fetched with such bodies, it holds two entries of
    type privacy. *)
Theorem C1_policies_one_per_page :
  ∀ (main_url : string) (scraped_content : ScrapedContent),
    let policies := Analyzer._parse_comprehensive_policies main_url scraped_content in
    let pages := Spec.policy_pages main_url scraped_content in
    (∀ entry, (length (Analyzer.policy_of scraped_content entry) ≤ 1)%nat)
    ∧ (∀ t, (Spec.policies_of_type t policies ≤ 2)%nat)
    ∧ (length policies ≤ 8)%nat
    ∧ Spec.policies_of_type REFUND policies = 0%nat
    ∧ map pol_type policies = map (λ entry, Analyzer.policy_type_of entry.2) pages
    ∧ map pol_content policies
      = map (λ entry, PyStr.take 2000 <$> Spec.fetched_body scraped_content entry.1)
            pages
    ∧ (∀ url policy_type content,
         (url, policy_type) ∈ Analyzer.policy_urls main_url →
         Spec.fetched_body scraped_content url = Some content →
         (100 < String.length content)%nat →
         ∃ policy, policy ∈ policies
                   ∧ pol_type policy = Analyzer.policy_type_of policy_type
                   ∧ pol_content policy = Some (PyStr.take 2000 content))
    ∧ (Spec.long_enough
         (Spec.fetched_body scraped_content
            (Analyzer.under main_url "/pages/privacy-policy")) = true →
       Spec.long_enough
         (Spec.fetched_body scraped_content
            (Analyzer.under main_url "/pages/privacy")) = true →
       Spec.policies_of_type PRIVACY policies = 2%nat).
Proof.
  intros main_url scraped_content policies pages.
  split; [apply policy_of_length|].
  split; [apply policies_per_type|].
  split; [apply policies_length|].
  split.
  { pose proof (policies_count_by_type main_url scraped_content REFUND) as H.
    subst policies. repeat case_decide; try done. lia. }
  split; [apply (policies_emitted scraped_content (Analyzer.policy_urls main_url))|].
  split; [apply (policies_emitted scraped_content (Analyzer.policy_urls main_url))|].
  split; [|apply both_privacy_pages].
  intros url policy_type content Hin Hbody Hlong.
  eexists. split.
  - subst policies. unfold Analyzer._parse_comprehensive_policies.
    apply list_elem_of_In, in_flat_map. exists (url, policy_type).
    split; [by apply list_elem_of_In|].
    rewrite policy_of_emitted, Hbody. unfold Spec.long_enough, PyStr.length.
    replace (100 <? Z.of_nat (String.length content)) with true
      by (symmetry; apply Z.ltb_lt; lia).
    left. reflexivity.
  - by split.
Qed.

Lemma C1_policies_one_per_page_witness :
  Spec.policies_of_type PRIVACY
    (Analyzer._parse_comprehensive_policies Samples.main_url Samples.two_privacy_pages)
  = 2%nat.
Proof.
  refine (proj2 (proj2 (proj2 (proj2 (proj2 (proj2 (proj2
            (C1_policies_one_per_page Samples.main_url
               Samples.two_privacy_pages))))))) _ _); by vm_compute.
Defined.

(** C1, as stated: when both privacy pages were fetched with bodies of 101
    characters, the list holds two entries of type privacy. *)
Lemma C1_counterexample :
  let policies :=
    Analyzer._parse_comprehensive_policies Samples.main_url Samples.two_privacy_pages in
  map pol_type policies = [PRIVACY; PRIVACY]
  ∧ ¬ (Spec.policies_of_type PRIVACY policies ≤ 1)%nat.
Proof.
  assert (H : map pol_type
            (Analyzer._parse_comprehensive_policies Samples.main_url
               Samples.two_privacy_pages) = [PRIVACY; PRIVACY]) by (by vm_compute).
  split; [exact H|].
  unfold Spec.policies_of_type.
  assert (H2 : length (List.filter (λ p, bool_decide (pol_type p = PRIVACY))
            (Analyzer._parse_comprehensive_policies Samples.main_url
               Samples.two_privacy_pages)) = 2%nat) by (by vm_compute).
  cbv zeta. rewrite H2. lia.
Qed.

Section FaqFacts.

Variable BeautifulSoup : string → PyResult Bs4.Tag.

(** The per-page extraction is capped at twenty entries. *)
Lemma parse_faqs_length (html_content : string) :
  (length (Parser.parse_faqs_from_html BeautifulSoup html_content) ≤ 20)%nat.
Proof.
  unfold Parser.parse_faqs_from_html.
  match goal with |- (length (slice_to 20 ?l) ≤ _)%nat =>
    pose proof (slice_to_length 20 l ltac:(lia)) as H end.
  unfold len in H. lia.
Qed.

Lemma page_faqs_length (scraped_content : ScrapedContent) (faq_url : string) :
  (length (Analyzer.page_faqs_of BeautifulSoup scraped_content faq_url) ≤ 20)%nat.
Proof.
  unfold Analyzer.page_faqs_of.
  destruct (scraped_content !! faq_url) as [[content_data|]|]; cbn; try lia.
  destruct (page_content content_data) as [content|]; cbn; try lia.
  destruct (PyStr.truthy content); cbn; try lia.
  apply parse_faqs_length.
Qed.

Lemma found_faqs_length (main_url : string) (scraped_content : ScrapedContent) :
  (length (flat_map (Analyzer.page_faqs_of BeautifulSoup scraped_content)
             (Analyzer.faq_urls main_url)) ≤ 60)%nat.
Proof.
  unfold Analyzer.faq_urls. cbn [flat_map]. rewrite !length_app.
  pose proof (page_faqs_length scraped_content (Analyzer.under main_url "/pages/faq")).
  pose proof (page_faqs_length scraped_content (Analyzer.under main_url "/pages/help")).
  pose proof (page_faqs_length scraped_content (Analyzer.under main_url "/pages/support")).
  cbn. lia.
Qed.

Lemma comprehensive_faqs_length (main_url : string)
    (scraped_content : ScrapedContent) (main_html : string) :
  (1 ≤ length (Analyzer._parse_comprehensive_faqs BeautifulSoup main_url
                 scraped_content main_html) ≤ 60)%nat.
Proof.
  unfold Analyzer._parse_comprehensive_faqs.
  pose proof (found_faqs_length main_url scraped_content) as H.
  destruct (flat_map _ _) as [|x found]; cbn in *; lia.
Qed.

End FaqFacts.

(** C4 (as amended). Per-page FAQ extraction returns at most 20 entries.
    The aggregated faqs list is the concatenation of the extractions of the
    three FAQ pages (faq, help, support), so its length is at most 60; when
    these yield nothing it consists of exactly the three default pairs, so it
    is never empty. *)
Theorem C4_faqs_capped_per_page :
  ∀ (BeautifulSoup : string → PyResult Bs4.Tag)
    (main_url : string) (scraped_content : ScrapedContent) (main_html : string),
    let found :=
      flat_map (Analyzer.page_faqs_of BeautifulSoup scraped_content)
               (Analyzer.faq_urls main_url) in
    let faqs :=
      Analyzer._parse_comprehensive_faqs BeautifulSoup main_url scraped_content
        main_html in
    (∀ html, (length (Parser.parse_faqs_from_html BeautifulSoup html) ≤ 20)%nat)
    ∧ (found = [] → faqs = Analyzer.default_faqs)
    ∧ (found ≠ [] → faqs = found)
    ∧ length Analyzer.default_faqs = 3%nat
    ∧ (1 ≤ length faqs ≤ 60)%nat.
Proof.
  intros BeautifulSoup main_url scraped_content main_html found faqs.
  assert (Hfaqs : faqs = match found with [] => found ++ Analyzer.default_faqs | _ => found end)
    by reflexivity.
  split; [apply parse_faqs_length|].
  split; [intros Hnil; rewrite Hfaqs, Hnil; reflexivity|].
  split; [intros Hne; rewrite Hfaqs; by destruct found|].
  split; [reflexivity|].
  apply comprehensive_faqs_length.
Qed.

Lemma C4_faqs_capped_per_page_witness :
  let faqs :=
    Analyzer._parse_comprehensive_faqs Samples.BeautifulSoup Samples.main_url ∅ "" in
  faqs = Analyzer.default_faqs ∧ length faqs = 3%nat.
Proof.
  intros faqs.
  destruct (C4_faqs_capped_per_page Samples.BeautifulSoup Samples.main_url ∅ "")
    as (_ & Hdefault & _ & Hthree & _).
  assert (H : faqs = Analyzer.default_faqs) by (apply Hdefault; reflexivity).
  split; [exact H|]. rewrite H. exact Hthree.
Defined.

(** C4, as stated: when the FAQ page and the help page each hold twenty
    question/answer pairs, the aggregated list has forty entries. *)
Lemma C4_counterexample :
  let faqs :=
    Analyzer._parse_comprehensive_faqs Samples.BeautifulSoup Samples.main_url
      Samples.two_faq_pages "" in
  length (Parser.parse_faqs_from_html Samples.BeautifulSoup Samples.faq_html) = 20%nat
  ∧ length faqs = 40%nat
  ∧ ¬ (length faqs ≤ 20)%nat.
Proof.
  assert (H : length (Analyzer._parse_comprehensive_faqs Samples.BeautifulSoup
                        Samples.main_url Samples.two_faq_pages "") = 40%nat)
    by (by vm_compute).
  cbv zeta. rewrite H. split; [by vm_compute|]. split; [done|lia].
Qed.

(* ===================================================================== *)
(** * Facts about hero products *)
(* ===================================================================== *)

(** The padding loop ends with at least [n] items. *)
Lemma pad_loop_length {A} (make : Z → A) (n : Z) (fuel : nat) (xs : list A) :
  (Z.to_nat (n - len xs) ≤ fuel)%nat → n ≤ len (Parser.pad_loop make n fuel xs).
Proof.
  revert xs. induction fuel as [|fuel IH]; intros xs Hfuel; cbn.
  - lia.
  - destruct (len xs <? n) eqn:E.
    + apply IH. rewrite len_app. unfold len in *. cbn. apply Z.ltb_lt in E. lia.
    + apply Z.ltb_ge in E. lia.
Qed.

Lemma pad_to_length {A} (make : Z → A) (n : Z) (xs : list A) :
  n ≤ len (Parser.pad_to make n xs).
Proof. unfold Parser.pad_to. by apply pad_loop_length. Qed.

Section HeroFacts.

Variable BeautifulSoup : string → PyResult Bs4.Tag.
Variable urljoin : string → string → string.
Variable self : Parser.ShopifyParser.
Variable _extract_hero_product_from_element : Bs4.Tag → option HeroProduct.

Lemma emergency_products_length (count : Z) :
  len (Parser._create_emergency_hero_products self count) = Z.max 0 count.
Proof.
  unfold Parser._create_emergency_hero_products, len.
  rewrite length_map, length_seq. lia.
Qed.

(** The synthetic fill returns exactly the number of entries asked for. *)
Lemma synthetic_products_length (soup : Bs4.Tag) (count_needed : Z) :
  0 ≤ count_needed →
  len (Parser._create_synthetic_hero_products urljoin self soup count_needed)
  = count_needed.
Proof.
  intros Hc. unfold Parser._create_synthetic_hero_products.
  rewrite slice_to_length by done.
  match goal with |- Z.min _ (len (Parser.pad_to ?mk _ ?xs)) = _ =>
    pose proof (pad_to_length mk count_needed xs) end.
  lia.
Qed.

(** Hero-product extraction returns between two and ten entries. *)
Lemma parse_hero_products_length (html_content : string) :
  2 ≤ len (Parser.parse_hero_products_from_html BeautifulSoup urljoin self
             _extract_hero_product_from_element html_content) ≤ 10.
Proof.
  unfold Parser.parse_hero_products_from_html.
  rewrite slice_to_length by lia.
  match goal with |- context [Z.min 10 (len ?l)] => enough (2 ≤ len l) by lia end.
  match goal with |- 2 ≤ len (if len ?u <? 2 then _ else _) =>
    destruct (len u <? 2) eqn:E end.
  - apply pad_to_length.
  - by apply Z.ltb_ge in E.
Qed.

Lemma comprehensive_hero_products_length (main_html : string) :
  2 ≤ len (Analyzer.comprehensive_hero_products BeautifulSoup urljoin self
             _extract_hero_product_from_element main_html) ≤ 10.
Proof.
  unfold Analyzer.comprehensive_hero_products.
  assert (H : 2 ≤ len (if negb (PyStr.truthy main_html)
                       then Analyzer._create_emergency_hero_products self 2
                       else Analyzer.parse_hero_products_from_html BeautifulSoup
                              urljoin self _extract_hero_product_from_element
                              main_html) ≤ 10).
  { destruct (negb (PyStr.truthy main_html)).
    - unfold Analyzer._create_emergency_hero_products.
      rewrite emergency_products_length. lia.
    - apply parse_hero_products_length. }
  match goal with |- context [if len ?u <? 2 then _ else _] =>
    replace (len u <? 2) with false by (symmetry; apply Z.ltb_ge; lia) end.
  exact H.
Qed.

End HeroFacts.

(** The loop over candidates adds the first results, up to the count
    needed. *)
Lemma synthetic_loop_take (make : Bs4.Tag → option HeroProduct)
    (xs : list Bs4.Tag) (count_needed : Z) (synthetic_products : list HeroProduct) :
  Parser.synthetic_loop make xs count_needed synthetic_products
  = synthetic_products
    ++ take (Z.to_nat (count_needed - len synthetic_products)) (omap make xs).
Proof.
  revert synthetic_products.
  induction xs as [|x xs IH]; intros acc; cbn [Parser.synthetic_loop].
  { change (omap make []) with (@nil HeroProduct). by rewrite take_nil, app_nil_r. }
  destruct (Z.leb_spec count_needed (len acc)) as [Hfull|Hless].
  { replace (Z.to_nat (count_needed - len acc)) with 0%nat by lia.
    by rewrite take_0, app_nil_r. }
  change (omap make (x :: xs)) with
    (match make x with Some p => p :: omap make xs | None => omap make xs end).
  destruct (make x) as [p|]; [|apply IH].
  rewrite IH, len_app, <- app_assoc. f_equal.
  change (len [p]) with 1.
  replace (Z.to_nat (count_needed - len acc))
    with (S (Z.to_nat (count_needed - (len acc + 1)))) by lia.
  done.
Qed.

(** A method that runs when entries are still missing continues the list
    of candidates. *)
Lemma take_continue {A} (n : nat) (found more : list A) :
  (if len (take n found) <? Z.of_nat n
   then take n found ++ take (n - length (take n found)) more
   else take n found)
  = take n (found ++ more).
Proof.
  rewrite take_app. unfold len. rewrite length_take.
  destruct (Z.ltb_spec (Z.of_nat (n `min` length found)) (Z.of_nat n)) as [H|H].
  - replace (n `min` length found)%nat with (length found) by lia. done.
  - replace (n - length found)%nat with 0%nat by lia.
    by rewrite take_0, app_nil_r.
Qed.

(** The padding loop appends the items numbered from the length of the
    list to [n]. *)
Lemma pad_loop_spec {A} (make : Z → A) (n : Z) (fuel : nat) (xs : list A) :
  (Z.to_nat (n - len xs) ≤ fuel)%nat →
  Parser.pad_loop make n fuel xs
  = xs ++ map (λ i, make (Z.of_nat i + 1)) (seq (length xs) (Z.to_nat n - length xs)).
Proof.
  revert xs. induction fuel as [|fuel IH]; intros xs Hfuel; cbn [Parser.pad_loop].
  - replace (Z.to_nat n - length xs)%nat with 0%nat by (unfold len in *; lia).
    by rewrite app_nil_r.
  - destruct (Z.ltb_spec (len xs) n) as [Hless|Hfull].
    + rewrite IH by (rewrite len_app; unfold len in *; cbn; lia).
      rewrite <- app_assoc, length_app. cbn [length app]. f_equal.
      replace (Z.to_nat n - length xs)%nat
        with (S (Z.to_nat n - (length xs + 1))) by (unfold len in *; lia).
      cbn [seq map]. unfold len. f_equal. f_equal. f_equal. lia.
    + replace (Z.to_nat n - length xs)%nat with 0%nat by (unfold len in *; lia).
      by rewrite app_nil_r.
Qed.

Lemma pad_to_spec {A} (make : Z → A) (n : Z) (xs : list A) :
  Parser.pad_to make n xs
  = xs ++ map (λ i, make (Z.of_nat i + 1)) (seq (length xs) (Z.to_nat n - length xs)).
Proof. unfold Parser.pad_to. by apply pad_loop_spec. Qed.

Lemma pad_to_enough {A} (make : Z → A) (n : Z) (xs : list A) :
  n ≤ len xs → Parser.pad_to make n xs = xs.
Proof.
  intros H. rewrite pad_to_spec.
  replace (Z.to_nat n - length xs)%nat with 0%nat by (unfold len in *; lia).
  by rewrite app_nil_r.
Qed.

Section HeroPadding.

Variable BeautifulSoup : string → PyResult Bs4.Tag.
Variable urljoin : string → string → string.
Variable self : Parser.ShopifyParser.
Variable _extract_hero_product_from_element : Bs4.Tag → option HeroProduct.

(** The synthetic fill: the first candidates that the page gives, then
    fabricated placeholders for what is still missing. *)
Lemma synthetic_products_spec (soup : Bs4.Tag) (count_needed : Z) :
  0 ≤ count_needed →
  let synthetic :=
    take (Z.to_nat count_needed)
         (Spec.synthetic_candidates urljoin self soup count_needed) in
  Parser._create_synthetic_hero_products urljoin self soup count_needed
  = synthetic ++ Spec.fabricated self (length synthetic) (Z.to_nat count_needed).
Proof.
  intros Hn synthetic.
  unfold Parser._create_synthetic_hero_products.
  rewrite !synthetic_loop_take. cbn [app]. change (len []) with 0.
  rewrite Z.sub_0_r.
  set (n := Z.to_nat count_needed) in *.
  set (images := omap _ (slice_to (count_needed * 3) _)).
  set (headings := omap _ (slice_to (count_needed * 2) (Bs4.find_all soup _))).
  set (links := omap _ (slice_to (count_needed * 2) (Bs4.find_all_with soup ["a"] _))).
  assert (Hn' : count_needed = Z.of_nat n) by lia.
  assert (Hstep : ∀ found more : list HeroProduct,
    (if len (take n found) <? count_needed
     then take n found ++ take (Z.to_nat (count_needed - len (take n found))) more
     else take n found) = take n (found ++ more)).
  { intros found more. rewrite <- take_continue, Hn'.
    replace (Z.to_nat (Z.of_nat n - len (take n found)))
      with (n - length (take n found))%nat by (unfold len; lia).
    done. }
  rewrite Hstep, Hstep.
  assert (Hs : synthetic = take n (images ++ headings ++ links)) by done.
  rewrite <- app_assoc, <- Hs.
  rewrite pad_to_spec. fold n. fold (Spec.fabricated self (length synthetic) n).
  unfold slice_to. replace (0 <=? count_needed) with true by (symmetry; lia).
  fold n. apply take_ge.
  rewrite length_app. unfold Spec.fabricated. rewrite length_map, length_seq.
  assert (length synthetic ≤ n)%nat by (rewrite Hs, length_take; lia).
  lia.
Qed.

Lemma hero_padding_length (soup : Bs4.Tag) (extracted : list HeroProduct) :
  len (Spec.hero_padding urljoin self soup extracted) = Z.max 0 (2 - len extracted).
Proof.
  unfold Spec.hero_padding, Spec.fabricated.
  unfold len. rewrite length_app, length_map, length_seq, length_take. lia.
Qed.

(** What hero-product extraction returns: the entries extracted from the
    markup, followed, when they are fewer than two, by the padding; on a
    page that the HTML parser rejects, two emergency entries. *)
Lemma parse_hero_products_spec (html_content : string) :
  Parser.parse_hero_products_from_html BeautifulSoup urljoin self
    _extract_hero_product_from_element html_content
  = match BeautifulSoup html_content with
    | Ok soup =>
        let extracted :=
          Spec.extracted_heroes _extract_hero_product_from_element soup in
        take 10 (extracted ++ Spec.hero_padding urljoin self soup extracted)
    | Raise _ =>
        [Parser._create_emergency_hero_product self 1;
         Parser._create_emergency_hero_product self 2]
    end.
Proof.
  unfold Parser.parse_hero_products_from_html.
  destruct (BeautifulSoup html_content) as [soup|e]; [|reflexivity].
  fold (Spec.extracted_heroes _extract_hero_product_from_element soup).
  cbv zeta.
  set (extracted := Spec.extracted_heroes _extract_hero_product_from_element soup).
  pose proof (hero_padding_length soup extracted) as Hpad.
  assert (Hfilled :
    (if len extracted <? 2
     then extracted
          ++ Parser._create_synthetic_hero_products urljoin self soup
               (2 - len extracted)
     else extracted)
    = extracted ++ Spec.hero_padding urljoin self soup extracted).
  { destruct (Z.ltb_spec (len extracted) 2) as [Hless|Hfull].
    - by rewrite synthetic_products_spec by lia.
    - unfold Spec.hero_padding, Spec.fabricated.
      replace (Z.to_nat (2 - len extracted)) with 0%nat by lia.
      rewrite take_0. cbn. by rewrite app_nil_r. }
  rewrite Hfilled.
  set (filled := extracted ++ Spec.hero_padding urljoin self soup extracted).
  assert (Hlen : 2 ≤ len filled).
  { subst filled. rewrite len_app, Hpad. pose proof (len_nonneg extracted). lia. }
  rewrite pad_to_enough by done.
  replace (len filled <? 2) with false by (symmetry; apply Z.ltb_ge; lia).
  reflexivity.
Qed.

Lemma comprehensive_hero_products_spec (main_html : string) :
  Analyzer.comprehensive_hero_products BeautifulSoup urljoin self
    _extract_hero_product_from_element main_html
  = if PyStr.truthy main_html
    then Parser.parse_hero_products_from_html BeautifulSoup urljoin self
           _extract_hero_product_from_element main_html
    else [Parser._create_emergency_hero_product self 1;
          Parser._create_emergency_hero_product self 2].
Proof.
  unfold Analyzer.comprehensive_hero_products.
  destruct (PyStr.truthy main_html); cbn [negb]; [|reflexivity].
  pose proof (parse_hero_products_length BeautifulSoup urljoin self
                _extract_hero_product_from_element main_html) as H.
  unfold Analyzer.parse_hero_products_from_html.
  replace (len _ <? 2) with false by (symmetry; apply Z.ltb_ge; lia).
  reflexivity.
Qed.

End HeroPadding.

(** C2. For every home-page HTML input, whatever the HTML parser and the
    per-element extraction make of it, hero-product extraction returns at
    least two entries, and so does the hero-product step of the
    aggregation. The entries extracted from the markup are kept, the first
    ten of them at most. When they are fewer than two, they are followed by
    as many entries as are missing: synthetic entries first, made from the
    images, then the headings, then the links of the page, and fabricated
    placeholders for what is still missing, so that a page with nothing to
    extract and no such content gets two fabricated entries. A page that
    the HTML parser rejects gets two emergency entries. *)
Theorem C2_hero_products_at_least_two :
  ∀ (BeautifulSoup : string → PyResult Bs4.Tag)
    (urljoin : string → string → string) (parser : Parser.ShopifyParser)
    (_extract_hero_product_from_element : Bs4.Tag → option HeroProduct)
    (html_content : string),
    let heroes := Parser.parse_hero_products_from_html BeautifulSoup urljoin parser
                    _extract_hero_product_from_element html_content in
    (2 ≤ length heroes)%nat
    ∧ (2 ≤ length (Analyzer.comprehensive_hero_products BeautifulSoup urljoin parser
                     _extract_hero_product_from_element html_content))%nat
    ∧ match BeautifulSoup html_content with
      | Ok soup =>
          let extracted :=
            Spec.extracted_heroes _extract_hero_product_from_element soup in
          let count_needed := 2 - len extracted in
          let synthetic :=
            take (Z.to_nat count_needed)
                 (Spec.synthetic_candidates urljoin parser soup count_needed) in
          let placeholders :=
            Spec.fabricated parser (length synthetic) (Z.to_nat count_needed) in
          heroes = take 10 (extracted ++ synthetic ++ placeholders)
          ∧ length (synthetic ++ placeholders) = Z.to_nat count_needed
          ∧ ((2 ≤ length extracted)%nat → heroes = take 10 extracted)
          ∧ (Spec.synthetic_candidates urljoin parser soup 2 = [] →
             extracted = [] →
             heroes = [Parser.basic_product parser 1; Parser.basic_product parser 2])
      | Raise _ =>
          heroes = [Parser._create_emergency_hero_product parser 1;
                    Parser._create_emergency_hero_product parser 2]
      end
    ∧ Analyzer.comprehensive_hero_products BeautifulSoup urljoin parser
        _extract_hero_product_from_element html_content
      = if PyStr.truthy html_content then heroes
        else [Parser._create_emergency_hero_product parser 1;
              Parser._create_emergency_hero_product parser 2].
Proof.
  intros. split; [|split; [|split]].
  - pose proof (parse_hero_products_length BeautifulSoup urljoin parser
                  _extract_hero_product_from_element html_content) as H.
    subst heroes. unfold len in H. lia.
  - pose proof (comprehensive_hero_products_length BeautifulSoup urljoin parser
                  _extract_hero_product_from_element html_content) as H.
    unfold len in H. lia.
  - subst heroes. rewrite parse_hero_products_spec.
    destruct (BeautifulSoup html_content) as [soup|e]; [|reflexivity].
    cbv zeta.
    set (extracted := Spec.extracted_heroes _extract_hero_product_from_element soup).
    pose proof (hero_padding_length urljoin parser soup extracted) as Hpad.
    unfold Spec.hero_padding in *. cbv zeta in Hpad.
    split; [reflexivity|]. split; [unfold len in *; lia|]. split.
    + intros Hlen.
      replace (Z.to_nat (2 - len extracted)) with 0%nat by (unfold len; lia).
      rewrite take_0. unfold Spec.fabricated. cbn. by rewrite app_nil_r.
    + intros Hnone ->. change (2 - len []) with 2. by rewrite Hnone.
  - apply comprehensive_hero_products_spec.
Qed.

Lemma C2_hero_products_at_least_two_witness :
  map hp_title
    (Parser.parse_hero_products_from_html Samples.BeautifulSoup Samples.urljoin
       Samples.parser Samples.no_hero "<html><body></body></html>")
  = [Some "Store Feature #1"; Some "Store Feature #2"].
Proof.
  pose proof (C2_hero_products_at_least_two Samples.BeautifulSoup Samples.urljoin
                Samples.parser Samples.no_hero "<html><body></body></html>")
    as (_ & _ & H & _).
  change (Samples.BeautifulSoup "<html><body></body></html>")
    with (@Ok Bs4.Tag Samples.empty_document) in H.
  cbv zeta in H. destruct H as (_ & _ & _ & H).
  rewrite H; reflexivity.
Defined.

(** C10. For every home-page HTML input, hero-product extraction returns at
    most ten entries (the list is truncated to length 10), so the length of
    its result lies between 2 and 10; the same holds after the hero-product
    step of the aggregation. *)
Theorem C10_hero_products_at_most_ten :
  ∀ (BeautifulSoup : string → PyResult Bs4.Tag)
    (urljoin : string → string → string) (parser : Parser.ShopifyParser)
    (_extract_hero_product_from_element : Bs4.Tag → option HeroProduct)
    (html_content : string),
    let heroes := Parser.parse_hero_products_from_html BeautifulSoup urljoin parser
                    _extract_hero_product_from_element html_content in
    (2 ≤ length heroes ≤ 10)%nat
    ∧ (∃ unique_heroes, heroes = take 10 unique_heroes)
    ∧ (2 ≤ length (Analyzer.comprehensive_hero_products BeautifulSoup urljoin parser
                     _extract_hero_product_from_element html_content) ≤ 10)%nat.
Proof.
  intros. split; [|split].
  - pose proof (parse_hero_products_length BeautifulSoup urljoin parser
                  _extract_hero_product_from_element html_content) as H.
    subst heroes. unfold len in H. lia.
  - subst heroes. unfold Parser.parse_hero_products_from_html. by eexists.
  - pose proof (comprehensive_hero_products_length BeautifulSoup urljoin parser
                  _extract_hero_product_from_element html_content) as H.
    unfold len in H. lia.
Qed.

Section PureFabrication.

Variable BeautifulSoup : string → PyResult Bs4.Tag.
Variable urljoin : string → string → string.
Variable self : Parser.ShopifyParser.
Variable _extract_hero_product_from_element : Bs4.Tag → option HeroProduct.

Lemma selector_loop_nothing (soup : Bs4.Tag) (selectors : list string)
    (hero_products : list HeroProduct) :
  (∀ selector, Bs4.select soup selector = []) →
  Parser.selector_loop _extract_hero_product_from_element soup selectors
    hero_products = hero_products.
Proof.
  intros Hsel. revert hero_products.
  induction selectors as [|s rest IH]; intros hero_products; cbn; [done|].
  destruct (10 <=? len hero_products); [done|].
  rewrite Hsel. cbn. apply IH.
Qed.

(** A page with no matching markup, no image, no heading and no link gets
    exactly the two fabricated entries "Store Feature #1" and "#2". *)
Lemma hero_pure_fabrication (html_content : string) (soup : Bs4.Tag) :
  BeautifulSoup html_content = Ok soup →
  (∀ selector, Bs4.select soup selector = []) →
  (∀ names, Bs4.find_all soup names = []) →
  Parser.parse_hero_products_from_html BeautifulSoup urljoin self
    _extract_hero_product_from_element html_content
  = [Parser.basic_product self 1; Parser.basic_product self 2].
Proof.
  intros Hsoup Hsel Hfind. unfold Parser.parse_hero_products_from_html.
  rewrite Hsoup. rewrite !selector_loop_nothing by done. cbn.
  unfold Parser._create_synthetic_hero_products, Bs4.find_all_with.
  rewrite !Hfind. reflexivity.
Qed.

End PureFabrication.

Example hero_pure_fabrication_example :
  map hp_title
    (Parser.parse_hero_products_from_html Samples.BeautifulSoup Samples.urljoin
       Samples.parser Samples.no_hero "<html><body></body></html>")
  = [Some "Store Feature #1"; Some "Store Feature #2"].
Proof.
  rewrite (hero_pure_fabrication Samples.BeautifulSoup Samples.urljoin Samples.parser
             Samples.no_hero _ Samples.empty_document); reflexivity.
Qed.

(* ===================================================================== *)
(** * Facts about the products feed *)
(* ===================================================================== *)

Lemma bind_Ok {A B} (c : PyResult A) (k : A → PyResult B) (b : B) :
  c ≫= k = Ok b → ∃ a, c = Ok a ∧ k a = Ok b.
Proof. destruct c as [a|e]; cbn; [by exists a | done]. Qed.

Ltac bind_inv H :=
  repeat (apply bind_Ok in H; destruct H as (? & _ & H)).

Lemma derive_available_true (variants : list ProductVariant) :
  Parser.derive_available variants = true
  ↔ variants = [] ∨ ∃ v, v ∈ variants ∧ pv_available v = Some true.
Proof.
  unfold Parser.derive_available. destruct variants as [|v0 vs]; [by split; auto|].
  rewrite existsb_exists. split.
  - intros (v & Hin & Hv). right. exists v. split.
    + by apply list_elem_of_In.
    + by apply bool_decide_eq_true in Hv.
  - intros [?|(v & Hin & Hv)]; [done|]. exists v. split.
    + by apply list_elem_of_In.
    + by apply bool_decide_eq_true.
Qed.

Section ProductFacts.

Variable urljoin : string → string → string.
Variable self : Parser.ShopifyParser.
Variable validate_int : json → option Z.
Variable validate_str : json → option string.
Variable validate_bool : json → option bool.
Variable validate_str_list : json → option (list string).
Variable float_of_str : string → option PyFloat.
Variable repr_other : json → string.

Local Abbreviation parse_product :=
  (Parser.parse_product urljoin self validate_int validate_str validate_bool
     validate_str_list float_of_str repr_other).
Local Abbreviation products_loop :=
  (Parser.products_loop urljoin self validate_int validate_str validate_bool
     validate_str_list float_of_str repr_other).

Lemma parse_product_derived d p : parse_product d = Ok p → Spec.derived p.
Proof.
  unfold Parser.parse_product. intros H.
  apply bind_Ok in H as (variant_items & _ & H).
  apply bind_Ok in H as (variants & _ & H).
  apply bind_Ok in H as (image_items & _ & H).
  apply bind_Ok in H as (images & _ & H).
  destruct (Parser.primary_pricing float_of_str variants) as [price compare].
  bind_inv H. injection H as <-. reflexivity.
Qed.

Lemma products_loop_derived items products :
  Forall Spec.derived products → Forall Spec.derived (products_loop items products).
Proof.
  revert products. induction items as [|item rest IH]; intros products Hp; cbn.
  - done.
  - destruct item; try done.
    destruct (parse_product kv) as [p|e] eqn:E.
    + apply IH. apply Forall_app. split; [done|].
      apply Forall_singleton. by eapply parse_product_derived.
    + by apply IH.
Qed.

Lemma parse_products_derived (products_data : json) :
  Forall Spec.derived
    (Parser.parse_products_json urljoin self validate_int validate_str
       validate_bool validate_str_list float_of_str repr_other products_data).
Proof.
  unfold Parser.parse_products_json.
  destruct products_data; try apply Forall_nil_2.
  destruct (Parser.dict_lookup kv "products"); [|apply Forall_nil_2].
  destruct (Parser.py_iter j); [|apply Forall_nil_2].
  apply products_loop_derived, Forall_nil_2.
Qed.

End ProductFacts.

(** C5. For every product parsed from the JSON products feed, whatever
    pydantic's field validation accepts, the [available] flag is set, and it
    is true exactly when the product has no variants or one of its variants
    has [available = true]; in particular a product with two variants, one
    available and one not, is available. *)
Theorem C5_product_available_any_variant :
  ∀ (urljoin : string → string → string) (parser : Parser.ShopifyParser)
    (validate_int : json → option Z) (validate_str : json → option string)
    (validate_bool : json → option bool)
    (validate_str_list : json → option (list string))
    (float_of_str : string → option PyFloat) (repr_other : json → string)
    (products_data : json) (p : Product),
    p ∈ Parser.parse_products_json urljoin parser validate_int validate_str
          validate_bool validate_str_list float_of_str repr_other products_data →
    (∃ b, p_available p = Some b)
    ∧ (p_available p = Some true
       ↔ p_variants p = [] ∨ ∃ v, v ∈ p_variants p ∧ pv_available v = Some true)
    ∧ (p_variants p = [] → p_available p = Some true)
    ∧ (∀ v1 v2, p_variants p = [v1; v2] →
         pv_available v1 = Some true → pv_available v2 = Some false →
         p_available p = Some true).
Proof.
  intros urljoin parser validate_int validate_str validate_bool validate_str_list
    float_of_str repr_other products_data p Hin.
  pose proof (parse_products_derived urljoin parser validate_int validate_str
                validate_bool validate_str_list float_of_str repr_other
                products_data) as Hall.
  rewrite Forall_forall in Hall. specialize (Hall p Hin). unfold Spec.derived in Hall.
  assert (Hiff : p_available p = Some true
       ↔ p_variants p = [] ∨ ∃ v, v ∈ p_variants p ∧ pv_available v = Some true).
  { rewrite Hall, <- derive_available_true. split; [by intros [= ->]|by intros ->]. }
  split; [by eexists|]. split; [exact Hiff|]. split.
  - intros Hnil. apply Hiff. by left.
  - intros v1 v2 Hvs Hv1 _. apply Hiff. right. exists v1. split; [|done].
    rewrite Hvs. apply list_elem_of_here.
Qed.

Lemma C5_product_available_any_variant_witness :
  ∃ p, Samples.parse_feed = [p]
       ∧ map pv_available (p_variants p) = [Some true; Some false]
       ∧ p_available p = Some true.
Proof.
  assert (Hfeed : ∃ p, Samples.parse_feed = [p]
                       ∧ map pv_available (p_variants p) = [Some true; Some false])
    by (eexists; split; vm_compute; reflexivity).
  destruct Hfeed as (p & Hp & Hvs). exists p. split; [exact Hp|]. split; [exact Hvs|].
  destruct (p_variants p) as [|v1 [|v2 [|? ?]]] eqn:E; try discriminate Hvs.
  injection Hvs as Hv1 Hv2.
  assert (Hin : p ∈ Samples.parse_feed) by (rewrite Hp; apply list_elem_of_here).
  destruct (C5_product_available_any_variant _ _ _ _ _ _ _ _ _ p Hin)
    as (_ & _ & _ & Htwo).
  exact (Htwo v1 v2 E Hv1 Hv2).
Defined.

(* ===================================================================== *)
(** * Facts about the choice of an e-mail address *)
(* ===================================================================== *)

Lemma insert_desc_head {A} (x : A * Z) (xs : list (A * Z)) :
  head (Parser.insert_desc x xs)
  = match head xs with
    | Some y => if y.2 <=? x.2 then Some x else Some y
    | None => Some x
    end.
Proof. destruct xs as [|y ys]; cbn; [done|]. by destruct (y.2 <=? x.2). Qed.

(** The head of the sorted list is an element of highest score. *)
Lemma sort_desc_head {A} (xs : list (A * Z)) (x : A * Z) :
  head (Parser.sort_desc xs) = Some x →
  x ∈ xs ∧ ∀ y, y ∈ xs → y.2 ≤ x.2.
Proof.
  revert x. induction xs as [|a xs IH]; intros x; cbn; [done|].
  rewrite insert_desc_head.
  destruct (head (Parser.sort_desc xs)) as [y|] eqn:Hhead.
  - destruct (IH y eq_refl) as [Hy Hmax].
    destruct (y.2 <=? a.2) eqn:E; intros [= <-].
    + apply Z.leb_le in E. split; [apply list_elem_of_here|].
      intros z [->|Hz]%elem_of_cons; [lia|]. specialize (Hmax z Hz). lia.
    + apply Z.leb_gt in E. split; [by apply list_elem_of_further|].
      intros z [->|Hz]%elem_of_cons; [lia|]. by apply Hmax.
  - intros [= <-]. split; [apply list_elem_of_here|].
    destruct xs as [|b xs']; [|].
    + intros z [->|Hz]%elem_of_cons; [lia|]. by apply elem_of_nil in Hz.
    + cbn in Hhead. rewrite insert_desc_head in Hhead.
      by destruct (head (Parser.sort_desc xs')) as [w|]; [destruct (w.2 <=? b.2)|].
Qed.


Lemma singleton_if_length (best : option string) :
  (length (Parser.singleton_if best) ≤ 1)%nat.
Proof. destruct best as [[|c s]|]; cbn; lia. Qed.





Lemma contact_emails_length BeautifulSoup ee ep ea es sp sa list_set
    (html_content : string) :
  (length (emails (Parser.parse_contact_info_from_html BeautifulSoup ee ep ea es
                     sp sa list_set html_content)) ≤ 1)%nat.
Proof.
  unfold Parser.parse_contact_info_from_html.
  destruct (BeautifulSoup html_content); cbn; [apply singleton_if_length|lia].
Qed.



(* ===================================================================== *)
(** * Facts about the brand name *)
(* ===================================================================== *)

(** The parser's brand information has no ['name'] entry: its keys are
    ['brand_name'], ['description'], ['favicon_url'], ['about'], ['story']. *)
Lemma parse_brand_info_no_name BeautifulSoup urljoin parser (html_content : string) :
  Parser.info_get
    (Parser.parse_brand_info_from_html BeautifulSoup urljoin parser html_content)
    "name" = None.
Proof.
  unfold Parser.parse_brand_info_from_html.
  by destruct (BeautifulSoup html_content).
Qed.

(** C9. For a page whose title tag reads "Foo | Acme Store", and a brand
    information without usable ['name'] entry (the case of every brand
    information built by the parser), the resolved brand name is "Acme":
    the title is split on "|", its trailing segment "Acme Store" is taken,
    and the trailing " Store" is stripped. *)
Theorem C9_brand_name_from_title :
  ∀ (BeautifulSoup : string → PyResult Bs4.Tag) (urljoin : string → string → string)
    (urlparse_netloc : string → string) (parser : Parser.ShopifyParser)
    (url html_content : string) (soup title : Bs4.Tag)
    (brand_info : Parser.BrandInfo),
    PyStr.truthy html_content = true →
    BeautifulSoup html_content = Ok soup →
    Bs4.find soup ["title"] = Some title →
    Bs4.get_text title = "Foo | Acme Store" →
    Parser.info_get brand_info "name" = None →
    Analyzer._extract_brand_name_from_title BeautifulSoup html_content = "Acme Store"
    ∧ Analyzer._get_comprehensive_brand_name BeautifulSoup urlparse_netloc url
        html_content brand_info = "Acme"
    ∧ Analyzer._get_comprehensive_brand_name BeautifulSoup urlparse_netloc url
        html_content
        (Parser.parse_brand_info_from_html BeautifulSoup urljoin parser html_content)
      = "Acme".
Proof.
  intros BeautifulSoup urljoin urlparse_netloc parser url html_content soup title
    brand_info Hhtml Hsoup Hfind Htext Hname.
  assert (Htitle : Analyzer._extract_brand_name_from_title BeautifulSoup html_content
                   = "Acme Store").
  { unfold Analyzer._extract_brand_name_from_title.
    rewrite Hsoup, Hfind, Htext. reflexivity. }
  assert (Hany : ∀ info, Parser.info_get info "name" = None →
            Analyzer._get_comprehensive_brand_name BeautifulSoup urlparse_netloc url
              html_content info = "Acme").
  { intros info Hinfo. unfold Analyzer._get_comprehensive_brand_name.
    rewrite Htitle, Hhtml.
    destruct info as [|kv info]; [reflexivity|]. rewrite Hinfo. reflexivity. }
  split; [exact Htitle|]. split; [by apply Hany|].
  apply Hany, parse_brand_info_no_name.
Qed.

Lemma C9_brand_name_from_title_witness :
  Analyzer._get_comprehensive_brand_name Samples.BeautifulSoup Samples.netloc
    Samples.main_url Samples.title_html
    (Parser.parse_brand_info_from_html Samples.BeautifulSoup Samples.urljoin
       Samples.parser Samples.title_html)
  = "Acme".
Proof.
  apply (C9_brand_name_from_title Samples.BeautifulSoup Samples.urljoin
           Samples.netloc Samples.parser Samples.main_url Samples.title_html
           Samples.title_document (Samples.leaf "title" "Foo | Acme Store") []);
    reflexivity.
Defined.

(* ===================================================================== *)
(** * Facts about the competitor finder *)
(* ===================================================================== *)

Lemma insert_by_length key x xs :
  length (CompetitorFinder.insert_by key x xs) = S (length xs).
Proof.
  induction xs as [|y ys IH]; cbn; [done|].
  destruct (key x <=? key y); cbn; [done|]. by rewrite IH.
Qed.

Lemma sort_by_length key xs :
  length (CompetitorFinder.sort_by key xs) = length xs.
Proof.
  induction xs as [|x xs IH]; cbn; [done|]. by rewrite insert_by_length, IH.
Qed.

(** The two fallbacks of [find_competitors] are not methods of its class. *)
Lemma unbound_fallbacks {A} (body : PyResult A) :
  CompetitorFinder.self_call "_create_ai_generated_competitors" body
    = Raise AttributeError
  ∧ CompetitorFinder.self_call "_create_emergency_competitor" body
    = Raise AttributeError
  ∧ CompetitorFinder.self_call "_create_emergency_competitors" body
    = Raise AttributeError.
Proof. repeat split; reflexivity. Qed.

(** [find_competitors] either returns at least two records, or raises
    [AttributeError]: it raises exactly when the table, the web search and
    the industry leaders together give fewer than two records. *)
Lemma find_competitors_two_or_raise validators_url urlparse_netloc live_results
    random_draw (website_url : string) (limit : Z) :
  let result := CompetitorFinder.find_competitors validators_url urlparse_netloc
                  live_results random_draw website_url limit in
  result = Raise AttributeError
  ∨ ∃ competitors, result = Ok competitors ∧ (2 ≤ length competitors)%nat.
Proof.
  unfold CompetitorFinder.find_competitors.
  set (domain := match CompetitorFinder.extract_domain _ _ website_url with
                 | Some d => if PyStr.truthy d then d else "unknown"
                 | None => "unknown" end).
  set (c1 := imap _ _).
  set (c2 := if len c1 <? 2 then _ else c1).
  set (c3 := if len c2 <? 2 then _ else c2).
  destruct (len c3 <? 2) eqn:E.
  - left. reflexivity.
  - right. apply Z.ltb_ge in E. cbn.
    replace (Z.to_nat (2 - len c3)) with 0%nat by lia. cbn.
    eexists. split; [reflexivity|].
    match goal with |- (2 ≤ length (slice_to ?n ?l))%nat =>
      pose proof (slice_to_length n l ltac:(lia)) as H;
      assert (len l = len c3) as Hl by (unfold len; by rewrite sort_by_length)
    end.
    unfold len in *. lia.
Qed.

(** C3, at a failing input. For the domain "example-store.com" (no entry of
    the table, no industry keyword), when each web search only finds the
    store's own site, the first three methods give no record, and the call
    raises [AttributeError] instead of returning two fabricated records:
    [_create_ai_generated_competitors], and then
    [_create_emergency_competitors] in the handler, are looked up on a class
    that does not define them. *)
Theorem C3_find_competitors_raises :
  CompetitorFinder._get_mock_competitors Samples.store_domain 5 = []
  ∧ CompetitorFinder._search_web_competitors Samples.validators_url Samples.netloc
      Samples.own_site_only Samples.store_domain 3 = []
  ∧ CompetitorFinder._generate_industry_competitors Samples.validators_url
      Samples.netloc Samples.store_domain 2 = []
  ∧ CompetitorFinder.find_competitors Samples.validators_url Samples.netloc
      Samples.own_site_only (λ _, 0%nat) Samples.store_domain 5
    = Raise AttributeError.
Proof. repeat split; by vm_compute. Qed.

(* ===================================================================== *)
(** * Facts about the aggregated profile *)
(* ===================================================================== *)

Section ProfileFacts.

Variable BeautifulSoup : string → PyResult Bs4.Tag.
Variable urljoin : string → string → string.
Variable urlparse_netloc : string → string.
Variable parser : Parser.ShopifyParser.
Variable _extract_hero_product_from_element : Bs4.Tag → option HeroProduct.
Variable validators_url : string → bool.
Variable live_results : string → list CompetitorFinder.SearchResult.
Variable random_draw : nat → nat.
Variable validate_int : json → option Z.
Variable validate_str : json → option string.
Variable validate_bool : json → option bool.
Variable validate_str_list : json → option (list string).
Variable float_of_str : string → option PyFloat.
Variable repr_other : json → string.
Variable extract_emails_from_text : string → list string.
Variable extract_phone_numbers_from_text : string → list string.
Variable _extract_addresses_from_text : string → list string.
Variable _extract_structured_contact_info :
  Bs4.Tag → list string * list string * list string.
Variable _select_best_phone : list string → option string.
Variable _select_best_address : list string → option string.
Variable list_set : list string → list string.
Variable parse_social_handles_from_html : string → PyResult (list SocialHandle).
Variable parse_important_links_from_html : string → list ImportantLink.
Variable now today : string.

Local Abbreviation aggregate :=
  (Analyzer._parse_comprehensive_content BeautifulSoup urljoin urlparse_netloc
     parser _extract_hero_product_from_element validators_url live_results
     random_draw validate_int validate_str validate_bool validate_str_list
     float_of_str repr_other extract_emails_from_text
     extract_phone_numbers_from_text _extract_addresses_from_text
     _extract_structured_contact_info _select_best_phone _select_best_address
     list_set parse_social_handles_from_html parse_important_links_from_html
     now today).

(** When the fetch of the home page failed, the aggregation raises. *)
Lemma aggregate_without_home_page (main_url : string)
    (scraped_content : ScrapedContent) :
  scraped_content !! main_url = Some None →
  aggregate main_url scraped_content = Raise AttributeError.
Proof.
  intros H. unfold Analyzer._parse_comprehensive_content. by rewrite H.
Qed.

(** The bounds that hold of every profile the aggregation returns. *)
Lemma aggregate_bounds (main_url : string) (scraped_content : ScrapedContent)
    (profile : Analyzer.BrandContext) :
  aggregate main_url scraped_content = Ok profile →
  Analyzer.policies profile
    = Analyzer._parse_comprehensive_policies main_url scraped_content
  ∧ (∀ t, (Spec.policies_of_type t (Analyzer.policies profile) ≤ 2)%nat)
  ∧ (1 ≤ length (Analyzer.faqs profile) ≤ 60)%nat
  ∧ (2 ≤ length (Analyzer.hero_products profile) ≤ 10)%nat
  ∧ (2 ≤ length (Analyzer.competitors profile))%nat
  ∧ (∀ info, Analyzer.contact_info profile = Some info →
              (length (emails info) ≤ 1)%nat)
  ∧ Forall Spec.derived (Analyzer.product_catalog profile).
Proof.
  unfold Analyzer._parse_comprehensive_content. intros H.
  apply bind_Ok in H as (main_html & _ & H).
  apply bind_Ok in H as (social_handles & _ & H).
  apply bind_Ok in H as (found & Hfound & H).
  injection H as <-. cbn.
  split; [reflexivity|]. split; [apply policies_per_type|].
  split; [apply comprehensive_faqs_length|].
  split.
  { pose proof (comprehensive_hero_products_length BeautifulSoup urljoin parser
                  _extract_hero_product_from_element main_html) as Hh.
    unfold len in Hh. lia. }
  split.
  { pose proof (find_competitors_two_or_raise validators_url urlparse_netloc
                  live_results random_draw) as Hc.
    unfold Analyzer.find_competitors in Hfound.
    match type of Hfound with
    | CompetitorFinder.find_competitors _ _ _ _ ?d ?l = _ =>
        specialize (Hc d l); cbv zeta in Hc; rewrite Hfound in Hc
    end.
    destruct Hc as [Hc|(cs & [= <-] & Hc)]; [done|exact Hc]. }
  split.
  { intros info [= <-]. cbn.
    destruct (PyStr.truthy main_html); [apply contact_emails_length|cbn; lia]. }
  destruct (json_truthy _); [apply parse_products_derived|apply Forall_nil_2].
Qed.

End ProfileFacts.

(* ===================================================================== *)
(** * Facts about strings and substitutions *)
(* ===================================================================== *)

Lemma only_app q (a b : string) :
  Spec.only q (a +:+ b) = Spec.only q a && Spec.only q b.
Proof.
  induction a as [|c a IH]; [done|].
  change (String c a +:+ b) with (String c (a +:+ b)).
  cbn [Spec.only]. rewrite IH. by rewrite andb_assoc.
Qed.

Lemma only_all (q : ascii → bool) (s : string) :
  (∀ c, q c = true) → Spec.only q s = true.
Proof.
  intros Hq. induction s as [|c s IH]; [done|].
  cbn [Spec.only]. by rewrite Hq, IH.
Qed.

Lemma only_impl (q q' : ascii → bool) (s : string) :
  (∀ c, q c = true → q' c = true) →
  Spec.only q s = true → Spec.only q' s = true.
Proof.
  intros Hq. induction s as [|c s IH]; [done|].
  cbn [Spec.only]. intros [Hc Hs]%andb_true_iff.
  by rewrite (Hq _ Hc), IH.
Qed.

Lemma only_rev_app q (a b : string) :
  Spec.only q (String.rev_app a b) = Spec.only q a && Spec.only q b.
Proof.
  revert b. induction a as [|c a IH]; intros b; [done|].
  cbn [String.rev_app Spec.only]. rewrite IH. cbn [Spec.only].
  destruct (q c), (Spec.only q a), (Spec.only q b); done.
Qed.

Lemma only_rev q (s : string) : Spec.only q (String.rev s) = Spec.only q s.
Proof. unfold String.rev. rewrite only_rev_app. cbn. by rewrite andb_true_r. Qed.

Lemma only_lstrip q p (s : string) :
  Spec.only q s = true → Spec.only q (PyStr.lstrip_by p s) = true.
Proof.
  induction s as [|c s IH]; [done|].
  cbn [PyStr.lstrip_by]. destruct (p c); [|done].
  cbn [Spec.only]. intros [_ Hs]%andb_true_iff. by apply IH.
Qed.

Lemma only_strip q (s : string) :
  Spec.only q s = true → Spec.only q (PyStr.strip s) = true.
Proof.
  intros Hs. unfold PyStr.strip, PyStr.rstrip_by.
  rewrite only_rev. apply only_lstrip. rewrite only_rev. by apply only_lstrip.
Qed.

Lemma only_take q (n : nat) (s : string) :
  Spec.only q s = true → Spec.only q (PyStr.take n s) = true.
Proof.
  revert n. induction s as [|c s IH]; intros [|n]; try done.
  cbn [PyStr.take Spec.only]. intros [Hc Hs]%andb_true_iff.
  by rewrite Hc, IH.
Qed.

Lemma str_length_take (n : nat) (s : string) :
  String.length (PyStr.take n s) = (n `min` String.length s)%nat.
Proof.
  revert n. induction s as [|c s IH]; intros [|n]; try done.
  cbn [PyStr.take String.length]. rewrite IH. lia.
Qed.

Lemma length_append (a b : string) :
  String.length (a +:+ b) = (String.length a + String.length b)%nat.
Proof.
  induction a as [|c a IH]; [done|].
  change (String c a +:+ b) with (String c (a +:+ b)).
  cbn [String.length]. by rewrite IH.
Qed.

Lemma length_rev_app (a b : string) :
  String.length (String.rev_app a b) = (String.length a + String.length b)%nat.
Proof.
  revert b. induction a as [|c a IH]; intros b; [done|].
  cbn [String.rev_app]. rewrite IH. cbn [String.length]. lia.
Qed.

Lemma str_length_rev (s : string) : String.length (String.rev s) = String.length s.
Proof. unfold String.rev. rewrite length_rev_app. cbn. lia. Qed.

Lemma length_lstrip p (s : string) :
  (String.length (PyStr.lstrip_by p s) ≤ String.length s)%nat.
Proof.
  induction s as [|c s IH]; [done|].
  cbn [PyStr.lstrip_by]. destruct (p c); cbn [String.length]; lia.
Qed.

Lemma length_strip (s : string) :
  (String.length (PyStr.strip s) ≤ String.length s)%nat.
Proof.
  unfold PyStr.strip, PyStr.rstrip_by. rewrite str_length_rev.
  etrans; [apply length_lstrip|]. rewrite str_length_rev. apply length_lstrip.
Qed.

(** What is left of [s] once its leading characters of class [p] are
    dropped is [s] without that many characters. *)
Lemma lstrip_drop p (s : string) :
  PyStr.drop (String.length s - String.length (PyStr.lstrip_by p s)) s
  = PyStr.lstrip_by p s.
Proof.
  induction s as [|c s IH]; [done|].
  cbn [PyStr.lstrip_by]. destruct (p c).
  - pose proof (length_lstrip p s).
    replace (String.length (String c s) - String.length (PyStr.lstrip_by p s))%nat
      with (S (String.length s - String.length (PyStr.lstrip_by p s)))
      by (cbn [String.length]; lia).
    cbn [PyStr.drop]. apply IH.
  - by rewrite Nat.sub_diag.
Qed.

Section Substitution.

Variable p : ascii → bool.
Variable repl : string.

Local Abbreviation rest_of := (λ (_ : bool) (rest : string), Some rest).

(** [re.sub] of a one-character class. *)
Lemma sub_go_chr_only q (s : string) (b : bool) :
  Spec.only q repl = true →
  Spec.only (λ c, p c || q c) s = true →
  Spec.only q (Re.sub_go (Re.Chr p) repl 0 b s) = true.
Proof.
  intros Hrepl. revert b. induction s as [|c s IH]; intros b; [done|].
  cbn [Spec.only]. intros [Hc Hs]%andb_true_iff.
  cbn [Re.sub_go Re.run]. destruct (p c) eqn:Hp.
  - replace (String.length (String c s) - String.length s)%nat with 1%nat
      by (cbn [String.length]; lia).
    rewrite only_app, Hrepl. by apply IH.
  - cbn [Spec.only]. cbn in Hc. rewrite Hc. by apply IH.
Qed.

Lemma sub_go_chr_id (s : string) (b : bool) :
  Spec.only (λ c, negb (p c)) s = true →
  Re.sub_go (Re.Chr p) repl 0 b s = s.
Proof.
  revert b. induction s as [|c s IH]; intros b; [done|].
  cbn [Spec.only]. intros [Hc Hs]%andb_true_iff.
  cbn [Re.sub_go Re.run]. apply negb_true_iff in Hc. rewrite Hc.
  by rewrite IH.
Qed.

Lemma sub_go_chr_length (s : string) (b : bool) :
  (String.length repl ≤ 1)%nat →
  (String.length (Re.sub_go (Re.Chr p) repl 0 b s) ≤ String.length s)%nat.
Proof.
  intros Hrepl. revert b. induction s as [|c s IH]; intros b; [done|].
  cbn [Re.sub_go Re.run]. destruct (p c) eqn:Hp.
  - replace (String.length (String c s) - String.length s)%nat with 1%nat
      by (cbn [String.length]; lia).
    rewrite length_append. specialize (IH false). cbn [String.length]. lia.
  - cbn [String.length]. specialize (IH false). lia.
Qed.

(** The greedy star of a class consumes the leading characters of the
    class, whatever the fuel beyond the length of the text. *)
Lemma star_chr (n : nat) (s : string) (b : bool) :
  (String.length s ≤ n)%nat →
  (fix star (n : nat) (bol : bool) (s : string) {struct n} : option string :=
     match n with
     | O => rest_of bol s
     | S n' =>
         match Re.run (Re.Chr p) bol s
                 (λ b s', if (String.length s' <? String.length s)%nat
                          then star n' b s' else None) with
         | Some x => Some x
         | None => rest_of bol s
         end
     end) n b s
  = Some (PyStr.lstrip_by p s).
Proof.
  revert s b. induction n as [|n IH]; intros s b Hn.
  - destruct s; [done|]. cbn in Hn. lia.
  - destruct s as [|c s]; [done|].
    cbn [Re.run PyStr.lstrip_by]. destruct (p c); [|done].
    assert ((String.length s <? String.length (String c s))%nat = true) as ->
      by (apply Nat.ltb_lt; cbn; lia).
    rewrite IH; [done|]. cbn in Hn. lia.
Qed.

Lemma run_plus_chr (s : string) (b : bool) :
  Re.run (Re.plus (Re.Chr p)) b s rest_of
  = match s with
    | String c s' => if p c then Some (PyStr.lstrip_by p s') else None
    | EmptyString => None
    end.
Proof.
  destruct s as [|c s]; [done|].
  unfold Re.plus. cbn [Re.run]. destruct (p c); [|done].
  by apply star_chr.
Qed.

Lemma sub_go_plus_skip (k : nat) (s : string) (b : bool) :
  Re.sub_go (Re.plus (Re.Chr p)) repl k b s
  = Re.sub_go (Re.plus (Re.Chr p)) repl 0 false (PyStr.drop k s).
Proof.
  revert s b. induction k as [|k IH]; intros s b.
  - cbn [PyStr.drop]. destruct s as [|c s]; [done|].
    cbn [Re.sub_go]. by rewrite !run_plus_chr.
  - destruct s as [|c s]; [done|]. cbn [Re.sub_go PyStr.drop]. apply IH.
Qed.

(** One step of [re.sub] of the pattern [[p]+]. *)
Lemma sub_go_plus_step (c : ascii) (s : string) (b : bool) :
  Re.sub_go (Re.plus (Re.Chr p)) repl 0 b (String c s)
  = if p c
    then repl +:+ Re.sub_go (Re.plus (Re.Chr p)) repl 0 false (PyStr.lstrip_by p s)
    else String c (Re.sub_go (Re.plus (Re.Chr p)) repl 0 false s).
Proof.
  cbn [Re.sub_go]. rewrite run_plus_chr. destruct (p c); [|done].
  pose proof (length_lstrip p s).
  replace (String.length (String c s) - String.length (PyStr.lstrip_by p s))%nat
    with (S (String.length s - String.length (PyStr.lstrip_by p s)))
    by (cbn [String.length]; lia).
  by rewrite sub_go_plus_skip, lstrip_drop.
Qed.

Lemma sub_go_plus_only q (s : string) :
  Spec.only q repl = true →
  Spec.only (λ c, p c || q c) s = true →
  Spec.only q (Re.sub_go (Re.plus (Re.Chr p)) repl 0 false s) = true.
Proof.
  intros Hrepl.
  assert (∀ n (s : string), (String.length s ≤ n)%nat →
            Spec.only (λ c, p c || q c) s = true →
            Spec.only q (Re.sub_go (Re.plus (Re.Chr p)) repl 0 false s) = true)
    as H; [|by apply (H (String.length s))].
  clear s. intros n. induction n as [|n IH]; intros s Hn Hs.
  - destruct s; [done|]. cbn in Hn. lia.
  - destruct s as [|c s]; [done|].
    cbn [Spec.only] in Hs. apply andb_true_iff in Hs as [Hc Hs].
    rewrite sub_go_plus_step. destruct (p c) eqn:Hp.
    + rewrite only_app, Hrepl. apply IH.
      * pose proof (length_lstrip p s). cbn in Hn. lia.
      * by apply only_lstrip.
    + cbn [Spec.only]. cbn in Hc. rewrite Hc. apply IH; [|done].
      cbn in Hn. lia.
Qed.

Lemma sub_go_plus_id (s : string) :
  Spec.only (λ c, negb (p c)) s = true →
  Re.sub_go (Re.plus (Re.Chr p)) repl 0 false s = s.
Proof.
  induction s as [|c s IH]; [done|].
  cbn [Spec.only]. intros [Hc Hs]%andb_true_iff.
  rewrite sub_go_plus_step. apply negb_true_iff in Hc. rewrite Hc.
  by rewrite IH.
Qed.

Lemma sub_go_plus_length (s : string) :
  (String.length repl ≤ 1)%nat →
  (String.length (Re.sub_go (Re.plus (Re.Chr p)) repl 0 false s)
   ≤ String.length s)%nat.
Proof.
  intros Hrepl.
  assert (∀ n (s : string), (String.length s ≤ n)%nat →
            (String.length (Re.sub_go (Re.plus (Re.Chr p)) repl 0 false s)
             ≤ String.length s)%nat)
    as H; [|by apply (H (String.length s))].
  clear s. intros n. induction n as [|n IH]; intros s Hn.
  - destruct s; [done|]. cbn in Hn. lia.
  - destruct s as [|c s]; [done|].
    rewrite sub_go_plus_step. destruct (p c).
    + rewrite length_append. pose proof (length_lstrip p s).
      assert (String.length (PyStr.lstrip_by p s) ≤ n)%nat as Hl
        by (cbn in Hn; lia).
      specialize (IH _ Hl). cbn [String.length]. lia.
    + cbn [String.length]. cbn in Hn.
      assert (String.length s ≤ n)%nat as Hl by lia.
      specialize (IH _ Hl). lia.
Qed.

(** The flag that marks position 0 plays no role for these patterns. *)
Lemma sub_plus_chr (s : string) :
  Re.sub (Re.plus (Re.Chr p)) repl s
  = Re.sub_go (Re.plus (Re.Chr p)) repl 0 false s.
Proof. unfold Re.sub. apply (sub_go_plus_skip 0). Qed.

End Substitution.

(* ===================================================================== *)
(** * Facts about the helpers *)
(* ===================================================================== *)

Lemma sanitize_filename_safe (filename : string) :
  Spec.only Spec.safe_char (Helpers.sanitize_filename filename) = true
  ∧ (1 ≤ String.length (Helpers.sanitize_filename filename) ≤ 100)%nat.
Proof.
  unfold Helpers.sanitize_filename.
  set (s1 := Re.sub (Re.Chr Helpers.invalid_char) "_" filename).
  set (s2 := Re.sub (Re.plus Re.space) "_" s1).
  assert (H1 : Spec.only (λ c, negb (Helpers.invalid_char c)) s1 = true).
  { apply sub_go_chr_only; [done|]. apply only_all. intros c.
    by destruct (Helpers.invalid_char c). }
  assert (H2 : Spec.only Spec.safe_char s2 = true).
  { unfold s2, Re.space. rewrite sub_plus_chr. apply sub_go_plus_only; [done|].
    eapply only_impl; [|exact H1]. intros c Hc. unfold Spec.safe_char.
    rewrite Hc. by destruct (PyStr.is_space c). }
  set (s3 := if 100 <? PyStr.length s2 then PyStr.take 100 s2 else s2).
  assert (H3 : Spec.only Spec.safe_char s3 = true ∧ (String.length s3 ≤ 100)%nat).
  { unfold s3, PyStr.length. destruct (Z.ltb_spec 100 (Z.of_nat (String.length s2))).
    - split; [by apply only_take|]. rewrite str_length_take. lia.
    - split; [done|lia]. }
  destruct H3 as [H3 H3']. clearbody s3.
  destruct s3 as [|c t]; [split; [by vm_compute|cbn; lia]|].
  cbn [PyStr.truthy]. split; [done|]. cbn [String.length] in *. lia.
Qed.

(** Sanitising a sanitised name changes nothing. *)
Lemma sanitize_filename_fixed (name : string) :
  Spec.only Spec.safe_char name = true →
  (1 ≤ String.length name ≤ 100)%nat →
  Helpers.sanitize_filename name = name.
Proof.
  intros Hsafe Hlen. unfold Helpers.sanitize_filename.
  assert (Re.sub (Re.Chr Helpers.invalid_char) "_" name = name) as ->.
  { apply sub_go_chr_id. eapply only_impl; [|exact Hsafe].
    unfold Spec.safe_char. intros c. by destruct (Helpers.invalid_char c). }
  assert (Re.sub (Re.plus Re.space) "_" name = name) as ->.
  { unfold Re.space. rewrite sub_plus_chr. apply sub_go_plus_id.
    eapply only_impl; [|exact Hsafe].
    unfold Spec.safe_char. intros c [_ H]%andb_true_iff. done. }
  unfold PyStr.length.
  destruct (Z.ltb_spec 100 (Z.of_nat (String.length name))); [lia|].
  destruct name; [cbn in Hlen; lia|done].
Qed.

Lemma clean_text_clean (text : string) :
  Spec.only Spec.clean_char (CleanText.clean_text text) = true
  ∧ (String.length (CleanText.clean_text text) ≤ String.length text)%nat.
Proof.
  unfold CleanText.clean_text. destruct (PyStr.truthy text); cbn [negb]; [|split; [done|cbn; lia]].
  set (q1 := λ c, negb (PyStr.is_space c) || Ascii.eqb c " ").
  set (c1 := Re.sub (Re.plus Re.space) " " (PyStr.strip text)).
  assert (H1 : Spec.only q1 c1 = true).
  { unfold c1, Re.space. rewrite sub_plus_chr. apply sub_go_plus_only; [done|].
    apply only_all. intros c. unfold q1. by destruct (PyStr.is_space c). }
  assert (L1 : (String.length c1 ≤ String.length text)%nat).
  { unfold c1, Re.space. rewrite sub_plus_chr.
    etrans; [apply sub_go_plus_length; cbn; lia|]. apply length_strip. }
  split.
  - rewrite sub_plus_chr. apply sub_go_plus_only; [done|].
    eapply only_impl; [|exact H1]. intros c Hc. unfold Spec.clean_char.
    fold (q1 c). rewrite Hc. by destruct (CleanText.kept c).
  - rewrite sub_plus_chr. etrans; [apply sub_go_plus_length; cbn; lia|done].
Qed.

(** X1. [sanitize_filename] returns a usable file name for every input:
    between 1 and 100 characters long, with no white space and none of the
    nine characters that the function replaces. *)
Theorem X1_sanitize_filename_safe (filename : string) :
  let name := Helpers.sanitize_filename filename in
  (1 ≤ String.length name ≤ 100)%nat
  ∧ Spec.only Spec.safe_char name = true.
Proof.
  intros name. destruct (sanitize_filename_safe filename) as [Hsafe Hlen].
  by split.
Qed.

(** X2. [sanitize_filename] is idempotent: sanitising a sanitised name
    changes nothing. *)
Theorem X2_sanitize_filename_idempotent (filename : string) :
  Helpers.sanitize_filename (Helpers.sanitize_filename filename)
  = Helpers.sanitize_filename filename.
Proof.
  destruct (sanitize_filename_safe filename) as [Hsafe Hlen].
  by apply sanitize_filename_fixed.
Qed.

(** X3. On ASCII text, [clean_text] never makes a text longer, and what
    it returns holds only characters of the class that its second
    substitution keeps, and no white space other than the plain space. *)
Theorem X3_clean_text_clean (text : string) :
  Spec.only Spec.ascii_char text = true →
  let cleaned := CleanText.clean_text text in
  (String.length cleaned ≤ String.length text)%nat
  ∧ Spec.only Spec.clean_char cleaned = true.
Proof.
  intros _ cleaned. destruct (clean_text_clean text) as [Hclean Hlen].
  by split.
Qed.

Lemma X3_clean_text_clean_witness :
  let cleaned := CleanText.clean_text "  Free   shipping, today!  " in
  (String.length cleaned ≤ 27)%nat
  ∧ Spec.only Spec.clean_char cleaned = true.
Proof.
  apply (X3_clean_text_clean "  Free   shipping, today!  "). by vm_compute.
Defined.

Lemma append_nil_r (s : string) : s +:+ "" = s.
Proof.
  induction s as [|c s IH]; [done|].
  change (String c s +:+ "") with (String c (s +:+ "")). by rewrite IH.
Qed.

Lemma append_assoc (a b c : string) : (a +:+ b) +:+ c = a +:+ (b +:+ c).
Proof.
  induction a as [|x a IH]; [done|].
  change (String x a +:+ b) with (String x (a +:+ b)).
  change (String x (a +:+ b) +:+ c) with (String x ((a +:+ b) +:+ c)).
  change (String x a +:+ (b +:+ c)) with (String x (a +:+ (b +:+ c))).
  by rewrite IH.
Qed.

Lemma rev_app_append (a b : string) : String.rev_app a b = String.rev a +:+ b.
Proof.
  revert b. induction a as [|x a IH]; intros b; [done|].
  unfold String.rev. cbn [String.rev_app]. rewrite IH, (IH (String x "")).
  by rewrite append_assoc.
Qed.

Lemma rev_app_rev_app (a b c : string) :
  String.rev_app (String.rev_app a b) c = String.rev_app b (a +:+ c).
Proof.
  revert b c. induction a as [|x a IH]; intros b c; [done|].
  cbn [String.rev_app]. by rewrite IH.
Qed.

Lemma rev_involutive (s : string) : String.rev (String.rev s) = s.
Proof. unfold String.rev. rewrite rev_app_rev_app. cbn. apply append_nil_r. Qed.

Lemma rev_append (a b : string) :
  String.rev (a +:+ b) = String.rev b +:+ String.rev a.
Proof.
  induction a as [|x a IH].
  - cbn. by rewrite append_nil_r.
  - change (String x a +:+ b) with (String x (a +:+ b)).
    unfold String.rev at 1 3. cbn [String.rev_app].
    rewrite !rev_app_append, IH. by rewrite append_assoc.
Qed.

Lemma startswith_append (p s : string) : PyStr.startswith (p +:+ s) p = true.
Proof.
  induction p as [|c p IH]; [by destruct s|].
  change (String c p +:+ s) with (String c (p +:+ s)).
  cbn [PyStr.startswith]. rewrite IH. by rewrite Ascii.eqb_refl.
Qed.

Lemma startswith_split (s p : string) :
  PyStr.startswith s p = true → ∃ t, s = p +:+ t.
Proof.
  revert s. induction p as [|c p IH]; intros s; [by exists s|].
  destruct s as [|d s]; [done|]. cbn [PyStr.startswith].
  intros [Hc Hs]%andb_true_iff. apply Ascii.eqb_eq in Hc as ->.
  destruct (IH _ Hs) as [t ->]. by exists t.
Qed.

Lemma endswith_append (s p : string) : PyStr.endswith (s +:+ p) p = true.
Proof. unfold PyStr.endswith. rewrite rev_append. apply startswith_append. Qed.

Lemma endswith_split (s p : string) :
  PyStr.endswith s p = true → ∃ t, s = t +:+ p.
Proof.
  unfold PyStr.endswith. intros [t Ht]%startswith_split.
  exists (String.rev t). rewrite <- (rev_involutive s), Ht, rev_append.
  by rewrite rev_involutive.
Qed.

Lemma take_append (a b : string) : PyStr.take (String.length a) (a +:+ b) = a.
Proof.
  induction a as [|c a IH]; [by destruct b|].
  change (String c a +:+ b) with (String c (a +:+ b)).
  cbn [String.length PyStr.take]. by rewrite IH.
Qed.

Section NormalizeFacts.

Variable validators_url : string → bool.

Local Abbreviation candidate := Spec.submitted.

Lemma normalize_url_cases (url : string) :
  Helpers.normalize_url validators_url url
  = if negb (PyStr.truthy url) then Raise ValueError
    else if negb (validators_url (candidate url)) then Raise ValueError
    else Ok (if PyStr.endswith (candidate url) "/"
             then PyStr.take (String.length (candidate url) - 1) (candidate url)
             else candidate url).
Proof. reflexivity. Qed.

Lemma normalize_url_ok (url n : string) :
  Helpers.normalize_url validators_url url = Ok n →
  url ≠ ""
  ∧ validators_url (candidate url) = true
  ∧ (n = candidate url ∧ PyStr.endswith n "/" = false
     ∨ candidate url = n +:+ "/").
Proof.
  rewrite normalize_url_cases.
  destruct url as [|c url]; [done|]. cbn [PyStr.truthy negb].
  set (u := candidate (String c url)).
  destruct (validators_url u) eqn:Hv; cbn [negb]; [|done].
  intros [= <-]. split; [done|]. split; [done|].
  destruct (PyStr.endswith u "/") eqn:He; [right|by left].
  destruct (endswith_split _ _ He) as [t Ht]. rewrite Ht at 2. f_equal.
  rewrite Ht, length_append. cbn [String.length].
  replace (String.length t + 1 - 1)%nat with (String.length t) by lia.
  by rewrite take_append.
Qed.

Lemma normalize_url_raises (url : string) (e : exn) :
  Helpers.normalize_url validators_url url = Raise e → e = ValueError.
Proof.
  rewrite normalize_url_cases.
  destruct (negb (PyStr.truthy url)); [congruence|].
  destruct (negb (validators_url (candidate url))); congruence.
Qed.

End NormalizeFacts.

(** X4. [is_shopify_store] answers [True] exactly when the URL normalises
    and [urlparse] accepts the result: the table of Shopify indicators has
    no influence on the answer. *)
Theorem X4_is_shopify_store_iff validators_url urlparse_netloc (url : string) :
  Helpers.is_shopify_store validators_url urlparse_netloc url = true
  ↔ ∃ n d, Helpers.normalize_url validators_url url = Ok n
           ∧ urlparse_netloc n = Ok d.
Proof.
  unfold Helpers.is_shopify_store.
  destruct (Helpers.normalize_url validators_url url) as [n|e]; cbn.
  - destruct (urlparse_netloc n) as [d|e] eqn:E; cbn.
    + rewrite orb_true_r. split; [|done]. intros _. by exists n, d.
    + split; [done|]. intros (n' & d & [= <-] & H). congruence.
  - split; [done|]. by intros (n & d & H & _).
Qed.

(** X5. [normalize_url] raises nothing but [ValueError], and does so
    exactly for the empty string and for a text that [validators.url]
    rejects once stripped and given a protocol; otherwise it returns that
    text, less one final slash if there is one. *)
Theorem X5_normalize_url_outcome (validators_url : string → bool) (url : string) :
  match Helpers.normalize_url validators_url url with
  | Ok normalized =>
      url ≠ ""
      ∧ validators_url (Spec.submitted url) = true
      ∧ (normalized = Spec.submitted url ∧ PyStr.endswith normalized "/" = false
         ∨ Spec.submitted url = normalized +:+ "/")
  | Raise e =>
      e = ValueError
      ∧ (url = "" ∨ validators_url (Spec.submitted url) = false)
  end.
Proof.
  destruct (Helpers.normalize_url validators_url url) as [n|e] eqn:E.
  - by apply normalize_url_ok.
  - split; [by eapply normalize_url_raises|].
    rewrite normalize_url_cases in E.
    destruct url as [|c url]; [by left|]. cbn [PyStr.truthy negb] in E.
    destruct (validators_url (Spec.submitted (String c url))); [done|by right].
Qed.

(* ===================================================================== *)
(** * More facts about the fetcher *)
(* ===================================================================== *)

Lemma attempts_made_app (tr tr' : list Scraper.event) :
  Scraper.attempts_made (tr ++ tr')
  = (Scraper.attempts_made tr + Scraper.attempts_made tr')%nat.
Proof. unfold Scraper.attempts_made. by rewrite List.filter_app, length_app. Qed.

Section JsonFacts.

Variable validators_url : string → bool.
Variable cfg : Settings.
Variable session_open : bool.
Variable net : string → nat → Scraper.GetOutcome.

Lemma json_attempt_no_json (url : string) (k : nat) :
  Spec.no_json (net url k) → Scraper.json_attempt session_open net url k = None.
Proof.
  unfold Scraper.json_attempt, Spec.no_json.
  destruct session_open; [|done]. cbn.
  destruct (net url k) as [e|status text data]; [done|].
  intros [H|[e ->]]; [by destruct (Z.eqb_spec status 200)|].
  by destruct (status =? 200).
Qed.

(** A call of [fetch_json] or [fetch_html] on a URL that normalises runs
    the loop up to some attempt [m] within the limit. *)
Lemma fetch_json_run (url n : string) (retries : option Z) :
  let r := default (MAX_RETRIES cfg) retries in
  Scraper.normalize_url validators_url url = Ok n →
  0 ≤ r →
  ∃ m : nat,
    Z.of_nat m ≤ r
    ∧ Scraper.fetch_json validators_url cfg session_open net url retries
      = (Ok (Scraper.json_attempt session_open net url m),
         Spec.expected_trace (RATE_LIMIT_DELAY cfg) m)
    ∧ (Z.of_nat m < r → Scraper.json_attempt session_open net url m ≠ None).
Proof.
  intros r Hn Hr. unfold Scraper.fetch_json. rewrite Hn. fold r.
  destruct (retry_loop_range cfg (Scraper.json_attempt session_open net url) r Hr)
    as (m & Hm & Heq & _ & Hl).
  exists m. by rewrite Heq.
Qed.

Lemma fetch_html_run (url n : string) (retries : option Z) :
  let r := default (MAX_RETRIES cfg) retries in
  Scraper.normalize_url validators_url url = Ok n →
  0 ≤ r →
  ∃ m : nat,
    Z.of_nat m ≤ r
    ∧ Scraper.fetch_html validators_url cfg session_open net url retries
      = (Ok (Scraper.html_attempt session_open net url m),
         Spec.expected_trace (RATE_LIMIT_DELAY cfg) m)
    ∧ (Z.of_nat m < r → Scraper.html_attempt session_open net url m ≠ None).
Proof.
  intros r Hn Hr. unfold Scraper.fetch_html. rewrite Hn. fold r.
  destruct (retry_loop_range cfg (Scraper.html_attempt session_open net url) r Hr)
    as (m & Hm & Heq & _ & Hl).
  exists m. by rewrite Heq.
Qed.

(** X7. When every reply within the retry limit is an exception, a status
    other than 200, or a 200 reply whose body does not decode, [fetch_json]
    returns [None] after [r + 1] attempts, having waited after each of them
    but the last. *)
Theorem X7_fetch_json_gives_up (url n : string) (retries : option Z) :
  let r := default (MAX_RETRIES cfg) retries in
  Scraper.normalize_url validators_url url = Ok n →
  0 ≤ r →
  (∀ k, Z.of_nat k ≤ r → Spec.no_json (net url k)) →
  Scraper.fetch_json validators_url cfg session_open net url retries
  = (Ok None, Spec.expected_trace (RATE_LIMIT_DELAY cfg) (Z.to_nat r)).
Proof.
  intros r Hn Hr Hall.
  destruct (fetch_json_run url n retries Hn Hr) as (m & Hm & -> & Hl).
  subst r. set (r := default (MAX_RETRIES cfg) retries) in *. clearbody r.
  assert (Hb : Scraper.json_attempt session_open net url m = None)
    by (apply json_attempt_no_json; by apply Hall).
  destruct (Z.lt_ge_cases (Z.of_nat m) r) as [Hlt|Hge]; [by destruct (Hl Hlt)|].
  rewrite Hb. assert (m = Z.to_nat r) as -> by lia. done.
Qed.

Lemma fetch_json_attempts (url : string) (retries : option Z) :
  let r := default (MAX_RETRIES cfg) retries in
  0 ≤ r →
  Z.of_nat (Scraper.attempts_made
              (Scraper.fetch_json validators_url cfg session_open net url retries).2)
  ≤ r + 1.
Proof.
  intros r Hr.
  destruct (Scraper.normalize_url validators_url url) as [n|e] eqn:Hn.
  - destruct (fetch_json_run url n retries Hn Hr) as (m & Hm & -> & _).
    cbn [snd]. rewrite attempts_made_expected.
    subst r. set (r := default (MAX_RETRIES cfg) retries) in *. lia.
  - unfold Scraper.fetch_json. rewrite Hn. cbn. lia.
Qed.


End JsonFacts.


(** The page of the sample store is answered with status 200, and is no
    JSON. *)
Lemma X7_fetch_json_gives_up_witness :
  let run := Scraper.fetch_json Samples.validators_url settings true Samples.net
               "https://shop.example" None in
  run.1 = Ok None ∧ Scraper.attempts_made run.2 = 4%nat.
Proof.
  intros run.
  assert (H : run = (Ok None, Spec.expected_trace (RATE_LIMIT_DELAY settings) 3)).
  { apply (X7_fetch_json_gives_up Samples.validators_url settings true Samples.net
             "https://shop.example" "https://shop.example" None eq_refl).
    - cbn. lia.
    - intros k _. right. by exists OtherError. }
  rewrite H. by split.
Defined.

Section RobotsFacts.

Variable validators_url : string → bool.
Variable urljoin : string → string → string.
Variable cfg : Settings.
Variable session_open : bool.
Variable net : string → nat → Scraper.GetOutcome.

(** X8. [check_robots_txt] never raises and makes at most two requests:
    when the address of [robots.txt] does not normalise it returns [None]
    without any request, and otherwise it returns what the first or the
    second attempt gave. *)
Theorem X8_check_robots_txt_cases (base_url : string) :
  let run := Scraper.check_robots_txt validators_url urljoin cfg session_open net
               base_url in
  let robots_url := urljoin base_url "/robots.txt" in
  (∃ e, Scraper.normalize_url validators_url robots_url = Raise e
        ∧ run = (None, []))
  ∨ (∃ m : nat, (m ≤ 1)%nat
       ∧ run = (Scraper.html_attempt session_open net robots_url m,
                Spec.expected_trace (RATE_LIMIT_DELAY cfg) m)).
Proof.
  intros run robots_url. subst run. unfold Scraper.check_robots_txt.
  fold robots_url.
  destruct (Scraper.normalize_url validators_url robots_url) as [n|e] eqn:Hn.
  - right.
    destruct (fetch_html_run validators_url cfg session_open net robots_url n
                (Some 1) Hn) as (m & Hm & -> & _); [done|].
    exists m. cbn in Hm. split; [lia|done].
  - left. exists e. split; [done|].
    unfold Scraper.fetch_html. by rewrite Hn.
Qed.

End RobotsFacts.

Section BatchMore.

Variable validators_url : string → bool.
Variable cfg : Settings.
Variable session_open : bool.
Variable net : string → nat → Scraper.GetOutcome.

Local Abbreviation task := (Scraper.task validators_url cfg session_open net).
Local Abbreviation fetch :=
  (Scraper.fetch_multiple_pages validators_url cfg session_open net).

(** X9. The keys of the mapping that [fetch_multiple_pages] returns are
    exactly the URLs it was given, whatever happened to the requests and
    however often a URL is listed; for no URL the mapping is empty. *)
Theorem X9_fetch_multiple_pages_keys (urls : list string) :
  dom (Scraper.fetch_multiple_pages validators_url cfg session_open net urls)
  = (list_to_set urls : gset string).
Proof.
  apply set_eq. intros u.
  rewrite elem_of_dom, (fetch_multiple_pages_lookup validators_url cfg session_open net),
    elem_of_list_to_set.
  destruct (decide (u ∈ urls)); split; done.
Qed.

Lemma task_invalid (u : string) (e : exn) :
  Scraper.normalize_url validators_url u = Raise e → task u = Raise e.
Proof.
  intros H.
  unfold Scraper.task, Scraper._fetch_json_with_url, Scraper._fetch_html_with_url,
    Scraper.fetch_json, Scraper.fetch_html.
  rewrite H. by destruct (PyStr.endswith u ".json").
Qed.

(** A page dictionary with content is never recorded for a URL that ends
    in [.json]. *)
Lemma task_content_html (u : string) :
  has_content (Spec.entry_of (task u)) = true → PyStr.endswith u ".json" = false.
Proof.
  unfold Scraper.task. destruct (PyStr.endswith u ".json"); [|done].
  unfold Scraper._fetch_json_with_url.
  destruct (Scraper.fetch_json validators_url cfg session_open net u None).1
    as [[j|]|e]; cbn; try done.
  by destruct (json_truthy j).
Qed.

End BatchMore.

Lemma task_falsy validators_url cfg net (u n : string) :
  Scraper.normalize_url validators_url u = Ok n →
  0 ≤ MAX_RETRIES cfg →
  Spec.falsy_reply u (net u 0%nat) →
  Scraper.task validators_url cfg true net u = Ok None.
Proof.
  intros Hn Hr Hreply.
  unfold Scraper.task, Scraper._fetch_json_with_url, Scraper._fetch_html_with_url,
    Scraper.fetch_json, Scraper.fetch_html.
  rewrite Hn. cbn [default].
  unfold Spec.falsy_reply in Hreply.
  destruct (net u 0%nat) as [e|status text data] eqn:Hnet; [done|].
  destruct Hreply as [-> Hreply].
  destruct (PyStr.endswith u ".json").
  - destruct Hreply as (j & -> & Hj).
    assert (Hg : Scraper.json_attempt true net u 0 = Some j).
    { unfold Scraper.json_attempt. cbn. by rewrite Hnet. }
    pose proof (retry_loop_first cfg _ (MAX_RETRIES cfg) 0%nat j Hr
                  ltac:(intros; lia) Hg) as H.
    destruct (Scraper.retry_loop cfg _ _ _) as [r tr]. cbn [fst] in H. subst r.
    cbn. by rewrite Hj.
  - subst text.
    assert (Hg : Scraper.html_attempt true net u 0 = Some "").
    { unfold Scraper.html_attempt. cbn. by rewrite Hnet. }
    pose proof (retry_loop_first cfg _ (MAX_RETRIES cfg) 0%nat "" Hr
                  ltac:(intros; lia) Hg) as H.
    destruct (Scraper.retry_loop cfg _ _ _) as [r tr]. cbn [fst] in H. by subst r.
Qed.

(** X10. A URL of the batch is recorded as absent ([None]), like a failed
    one, when it does not normalise, and also when its first reply has
    status 200 and a falsy body: an empty page, or JSON such as an empty
    object. *)
Theorem X10_batch_absent validators_url cfg net (urls : list string) (u : string) :
  u ∈ urls →
  (∃ e, Scraper.normalize_url validators_url u = Raise e)
  ∨ ((∃ n, Scraper.normalize_url validators_url u = Ok n)
     ∧ 0 ≤ MAX_RETRIES cfg
     ∧ Spec.falsy_reply u (net u 0%nat)) →
  Scraper.fetch_multiple_pages validators_url cfg true net urls !! u = Some None.
Proof.
  intros Hu H. rewrite fetch_multiple_pages_lookup, decide_True by done.
  destruct H as [[e He]|([n Hn] & Hr & Hf)].
  - by rewrite (task_invalid _ _ _ _ _ _ He).
  - by rewrite (task_falsy _ _ _ _ _ Hn Hr Hf).
Qed.

Lemma X10_batch_absent_witness :
  Scraper.fetch_multiple_pages Samples.validators_url settings true
    Samples.empty_net Samples.batch !! "https://shop.example/products.json"
  = Some None.
Proof.
  apply X10_batch_absent.
  - apply list_elem_of_further, list_elem_of_here.
  - right. split; [by eexists|]. split; [cbn; lia|].
    split; [done|]. by exists (JObj []).
Defined.

(** ** The number of pages counted *)

Lemma endswith_append_r (a b p : string) :
  PyStr.endswith b p = true → PyStr.endswith (a +:+ b) p = true.
Proof.
  intros [t ->]%endswith_split. rewrite <- append_assoc. apply endswith_append.
Qed.

Lemma filter_length_le {A} (f : A → bool) (l : list A) :
  (length (List.filter f l) ≤ length l)%nat.
Proof. induction l as [|x l IH]; cbn; [done|]. destruct (f x); cbn; lia. Qed.


Lemma count_pages_batch validators_url cfg session_open net (urls : list string) :
  Analyzer.count_pages
    (Scraper.fetch_multiple_pages validators_url cfg session_open net urls)
  ≤ len (List.filter Spec.html_url urls).
Proof.
  unfold Analyzer.count_pages, len. apply inj_le.
  set (m := Scraper.fetch_multiple_pages validators_url cfg session_open net urls).
  set (L := List.filter (λ kv : string * option Page, has_content kv.2) (map_to_list m)).
  rewrite <- (length_fmap fst L).
  apply submseteq_length, NoDup_submseteq.
  - assert (Hsub : sublist L (map_to_list m)).
    { unfold L. generalize (map_to_list m). intros l.
      induction l as [|x l IH]; cbn; [done|].
      destruct (has_content x.2); by constructor. }
    eapply sublist_NoDup; [apply (NoDup_fst_map_to_list m)|by apply fmap_sublist].
  - intros u [[u' v] [-> Hin]]%list_elem_of_fmap. cbn.
    apply list_elem_of_In, filter_In in Hin as [Hin Hc]. cbn in Hc.
    apply list_elem_of_In, elem_of_map_to_list in Hin. unfold m in Hin.
    rewrite fetch_multiple_pages_lookup in Hin.
    destruct (decide (u' ∈ urls)) as [Hu|]; [|done].
    injection Hin as <-.
    apply list_elem_of_In, filter_In. split; [by apply list_elem_of_In|].
    unfold Spec.html_url. by rewrite (task_content_html _ _ _ _ _ Hc).
Qed.

Lemma filter_html_bound (a b c d : string) (rest : list string) :
  Spec.html_url b = false → Spec.html_url d = false →
  (length (List.filter Spec.html_url (a :: b :: c :: d :: rest)) ≤ 2 + length rest)%nat.
Proof.
  intros Hb Hd. pose proof (filter_length_le Spec.html_url rest).
  cbn [List.filter]. rewrite Hb, Hd.
  destruct (Spec.html_url a), (Spec.html_url c); cbn [length]; lia.
Qed.

Lemma url_list_html (base_url : string) :
  len (List.filter Spec.html_url (Analyzer._build_comprehensive_url_list base_url)) ≤ 23.
Proof.
  unfold Analyzer._build_comprehensive_url_list, len.
  etrans; [apply inj_le, filter_html_bound|done];
    unfold Spec.html_url, Analyzer.under; by rewrite endswith_append_r.
Qed.

Section ShopifyData.

Variable validators_url : string → bool.
Variable urljoin : string → string → string.
Variable cfg : Settings.
Variable net : string → nat → Scraper.GetOutcome.

Local Abbreviation fetch_endpoint :=
  (Scraper.fetch_endpoint validators_url urljoin cfg net).

Lemma fetch_endpoint_name (base_url : string) (endpoint : string * string) :
  (fetch_endpoint base_url endpoint).1.1 = endpoint.1.
Proof.
  unfold Scraper.fetch_endpoint. destruct endpoint as [name path].
  destruct (Scraper.fetch_json _ _ _ _ _ _) as [[data|e] tr]; done.
Qed.

Lemma fetch_endpoint_attempts (base_url : string) (endpoint : string * string) :
  0 ≤ MAX_RETRIES cfg →
  Z.of_nat (Scraper.attempts_made (fetch_endpoint base_url endpoint).2)
  ≤ MAX_RETRIES cfg + 1.
Proof.
  intros Hr. unfold Scraper.fetch_endpoint. destruct endpoint as [name path].
  pose proof (fetch_json_attempts validators_url cfg true net
                (urljoin base_url path) None Hr) as H.
  destruct (Scraper.fetch_json _ _ _ _ _ _) as [[data|e] tr];
    cbn [snd default from_option id] in *.
  - rewrite attempts_made_app.
    change (Scraper.attempts_made [Scraper.EvSleep (RATE_LIMIT_DELAY cfg)])
      with 0%nat.
    lia.
  - done.
Qed.

(** X11. [fetch_shopify_data] returns an entry for each of [products],
    [collections], [shop] and [policies], in this order, whatever the
    replies; with a retry limit [r >= 0] it makes at most [4 * (r + 1)]
    requests. *)
Theorem X11_fetch_shopify_data_shape (base_url : string) :
  0 ≤ MAX_RETRIES cfg →
  let run := Scraper.fetch_shopify_data validators_url urljoin cfg net base_url in
  run.1.*1 = ["products"; "collections"; "shop"; "policies"]
  ∧ Z.of_nat (Scraper.attempts_made run.2) ≤ 4 * (MAX_RETRIES cfg + 1).
Proof.
  intros Hr. unfold Scraper.fetch_shopify_data, Scraper.endpoints.
  cbn [map flat_map fst snd fmap list_fmap].
  rewrite !fetch_endpoint_name.
  split; [done|].
  rewrite app_nil_r, !attempts_made_app.
  pose proof (fetch_endpoint_attempts base_url ("products", "/products.json") Hr).
  pose proof (fetch_endpoint_attempts base_url
                ("collections", "/collections.json") Hr).
  pose proof (fetch_endpoint_attempts base_url ("shop", "/shop.json") Hr).
  pose proof (fetch_endpoint_attempts base_url ("policies", "/policies.json") Hr).
  lia.
Qed.

End ShopifyData.

Lemma X11_fetch_shopify_data_shape_witness :
  let run := Scraper.fetch_shopify_data Samples.validators_url Samples.urljoin
               settings Samples.dead_net "https://shop.example" in
  run.1.*1 = ["products"; "collections"; "shop"; "policies"]
  ∧ Z.of_nat (Scraper.attempts_made run.2) ≤ 16.
Proof.
  exact (X11_fetch_shopify_data_shape Samples.validators_url Samples.urljoin
           settings Samples.dead_net "https://shop.example" ltac:(cbn; lia)).
Defined.

(* ===================================================================== *)
(** * More facts about the parser *)
(* ===================================================================== *)

Section ProductsMore.

Variable urljoin : string → string → string.
Variable self : Parser.ShopifyParser.
Variable validate_int : json → option Z.
Variable validate_str : json → option string.
Variable validate_bool : json → option bool.
Variable validate_str_list : json → option (list string).
Variable float_of_str : string → option PyFloat.
Variable repr_other : json → string.

Local Abbreviation products_loop :=
  (Parser.products_loop urljoin self validate_int validate_str validate_bool
     validate_str_list float_of_str repr_other).

(** An entry that is not an object ends the loop: what follows it is
    never looked at. *)
Lemma products_loop_stops (items rest : list json) (bad : json)
    (products : list Product) :
  (∀ d, bad ≠ JObj d) →
  products_loop (items ++ bad :: rest) products = products_loop items products.
Proof.
  intros Hbad. revert products.
  induction items as [|x items IH]; intros products.
  - cbn. destruct bad; try done. by destruct (Hbad kv).
  - cbn [app Parser.products_loop]. destruct x; try done.
    destruct (Parser.parse_product _ _ _ _ _ _ _ _ _); apply IH.
Qed.

Lemma products_loop_length (items : list json) (products : list Product) :
  (length (products_loop items products) ≤ length products + length items)%nat.
Proof.
  revert products. induction items as [|x items IH]; intros products.
  - cbn. lia.
  - cbn [Parser.products_loop length]. destruct x; try lia.
    destruct (Parser.parse_product _ _ _ _ _ _ _ _ _).
    + etrans; [apply IH|]. rewrite length_app. cbn. lia.
    + etrans; [apply IH|]. lia.
Qed.

(** X12. [parse_products_json] stops at the first entry of the feed that
    is not an object: the products before it are returned, and the entries
    after it are never looked at. *)
Theorem X12_parse_products_json_stops (d : list (string * json))
    (items rest : list json) (bad : json) :
  let parse_products_json :=
    Parser.parse_products_json urljoin self validate_int validate_str
      validate_bool validate_str_list float_of_str repr_other in
  Parser.dict_lookup d "products" = Some (JArr (items ++ bad :: rest)) →
  (∀ d', bad ≠ JObj d') →
  parse_products_json (JObj d)
  = parse_products_json (JObj [("products", JArr items)])
  ∧ (length (parse_products_json (JObj d)) ≤ length items)%nat.
Proof.
  intros parse_products_json Hd Hbad. subst parse_products_json.
  unfold Parser.parse_products_json. rewrite Hd.
  cbn [Parser.py_iter].
  rewrite (products_loop_stops _ _ _ _ Hbad).
  split; [reflexivity|].
  etrans; [apply products_loop_length|]. cbn. lia.
Qed.

End ProductsMore.

Lemma X12_parse_products_json_stops_witness :
  let parse_products_json :=
    Parser.parse_products_json Samples.urljoin Samples.parser
      Samples.validate_int Samples.validate_str Samples.validate_bool
      Samples.validate_str_list Samples.float_of_str Samples.repr_other in
  parse_products_json (JObj Samples.broken_feed)
  = parse_products_json (JObj [("products", JArr [Samples.tee])])
  ∧ (length (parse_products_json (JObj Samples.broken_feed)) ≤ 1)%nat.
Proof.
  apply (X12_parse_products_json_stops Samples.urljoin Samples.parser
           Samples.validate_int Samples.validate_str Samples.validate_bool
           Samples.validate_str_list Samples.float_of_str Samples.repr_other
           Samples.broken_feed [Samples.tee] [Samples.tee] JNull eq_refl).
  intros d' H. discriminate H.
Defined.

(** ** The choice of a phone number *)

Lemma insert_desc_nonempty {A} (x : A * Z) (xs : list (A * Z)) :
  Parser.insert_desc x xs ≠ [].
Proof. destruct xs as [|y ys]; cbn; [done|]. by destruct (y.2 <=? x.2). Qed.

Lemma sort_desc_nil {A} (xs : list (A * Z)) :
  Parser.sort_desc xs = [] → xs = [].
Proof.
  destruct xs as [|x xs]; [done|]. cbn. intros H.
  by destruct (insert_desc_nonempty x (Parser.sort_desc xs)).
Qed.

Lemma select_best_phone_max (phones : list string) (p : string) :
  Parser._select_best_phone phones = Some p →
  ∃ phone, phone ∈ phones ∧ p = PyStr.strip phone
           ∧ ∀ q, q ∈ phones →
                  Parser.phone_score (PyStr.strip q) ≤ Parser.phone_score p.
Proof.
  unfold Parser._select_best_phone.
  set (scored := map (λ phone, (PyStr.strip phone,
                                Parser.phone_score (PyStr.strip phone))) phones).
  intros H.
  assert (Hhead : fst <$> head (Parser.sort_desc scored) = Some p)
    by (by destruct phones).
  destruct (head (Parser.sort_desc scored)) as [[p' z]|] eqn:E; [|done].
  injection Hhead as <-.
  destruct (sort_desc_head _ _ E) as [Hin Hmax].
  apply list_elem_of_In, in_map_iff in Hin as (phone & [= <- <-] & Hin).
  exists phone. split; [by apply list_elem_of_In|]. split; [done|].
  intros q Hq.
  apply (Hmax (PyStr.strip q, Parser.phone_score (PyStr.strip q))).
  apply list_elem_of_In, in_map_iff. exists q. split; [done|].
  by apply list_elem_of_In.
Qed.

Lemma select_best_phone_none (phones : list string) :
  Parser._select_best_phone phones = None ↔ phones = [].
Proof.
  split; [|by intros ->].
  destruct phones as [|phone phones]; [done|].
  unfold Parser._select_best_phone.
  set (scored := map _ (phone :: phones)).
  destruct (Parser.sort_desc scored) as [|x xs] eqn:E; [|done].
  by apply sort_desc_nil in E.
Qed.


(** X13. [_select_best_phone] returns [None] for an empty list only;
    otherwise it returns one of the candidates, stripped, and no candidate
    has a higher score. *)
Theorem X13_select_best_phone (phones : list string) :
  match Parser._select_best_phone phones with
  | Some best =>
      ∃ phone, phone ∈ phones ∧ best = PyStr.strip phone
               ∧ ∀ other, other ∈ phones →
                   Parser.phone_score (PyStr.strip other) ≤ Parser.phone_score best
  | None => phones = []
  end.
Proof.
  destruct (Parser._select_best_phone phones) as [best|] eqn:E.
  - by apply select_best_phone_max.
  - by apply select_best_phone_none.
Qed.

(** ** Important links *)

Lemma length_title_go (b : bool) (s : string) :
  String.length (PyStr.title_go b s) = String.length s.
Proof.
  revert b. induction s as [|c s IH]; intros b; [done|].
  cbn [PyStr.title_go String.length]. by rewrite IH.
Qed.

Lemma link_title_length (text : string) :
  (String.length (Parser.link_title text) ≤ 53)%nat.
Proof.
  unfold Parser.link_title, PyStr.length, PyStr.title.
  destruct (Z.leb_spec (Z.of_nat (String.length text)) 50).
  - rewrite length_title_go. lia.
  - rewrite length_append, length_title_go, str_length_take.
    change (String.length "...") with 3%nat. lia.
Qed.

Lemma add_candidate_keys (category : string) (c : Parser.candidate)
    (category_candidates : list (string * list Parser.candidate)) :
  (Parser.add_candidate category c category_candidates).*1 = category_candidates.*1.
Proof.
  unfold Parser.add_candidate.
  induction category_candidates as [|kv l IH]; [done|].
  cbn. rewrite IH. by destruct (PyStr.eqb kv.1 category).
Qed.

Lemma process_link_keys (link : Bs4.Tag)
    (category_candidates : list (string * list Parser.candidate))
    (link_categories : list (string * list string)) (priority_boost : Z) :
  (Parser._process_link_for_categories link category_candidates link_categories
     priority_boost).*1 = category_candidates.*1.
Proof.
  unfold Parser._process_link_for_categories.
  repeat match goal with
         | |- context [if ?b then _ else _] => destruct b
         | |- context [match ?x with Some _ => _ | None => _ end] =>
             destruct x as [[? ?]|]
         end; by rewrite ?add_candidate_keys.
Qed.

Lemma process_links_keys (priority_boost : Z) (links : list Bs4.Tag)
    (category_candidates : list (string * list Parser.candidate)) :
  (Parser.process_links priority_boost links category_candidates).*1
  = category_candidates.*1.
Proof.
  unfold Parser.process_links. revert category_candidates.
  induction links as [|link links IH]; intros cc; [done|].
  cbn [foldl]. by rewrite IH, process_link_keys.
Qed.

Lemma process_selectors_keys (soup : Bs4.Tag) (priority_boost : Z)
    (selectors : list string)
    (category_candidates : list (string * list Parser.candidate)) :
  (Parser.process_selectors soup priority_boost selectors category_candidates).*1
  = category_candidates.*1.
Proof.
  unfold Parser.process_selectors. revert category_candidates.
  induction selectors as [|selector selectors IH]; intros cc; [done|].
  cbn [foldl]. by rewrite IH, process_links_keys.
Qed.

Section LinkFacts.

Variable BeautifulSoup : string → PyResult Bs4.Tag.
Variable urljoin : string → string → string.
Variable self : Parser.ShopifyParser.

Local Abbreviation best_link := (Parser.best_link urljoin self).

Lemma best_link_cases (entry : string * list Parser.candidate) :
  best_link entry = []
  ∨ ∃ link, best_link entry = [link] ∧ il_type link = entry.1
            ∧ (String.length (il_title link) ≤ 53)%nat.
Proof.
  unfold Parser.best_link. destruct entry as [category candidates].
  destruct candidates as [|c candidates]; [by left|].
  destruct (head _) as [[[[link_elem text] href] score]|]; [|by left].
  right. eexists. split; [done|]. split; [done|]. apply link_title_length.
Qed.

Lemma best_links_types (category_candidates : list (string * list Parser.candidate)) :
  (il_type <$> flat_map best_link category_candidates)
    `sublist_of` category_candidates.*1.
Proof.
  induction category_candidates as [|entry l IH]; [done|].
  cbn [flat_map]. rewrite fmap_app, fmap_cons.
  destruct (best_link_cases entry) as [->|(link & -> & <- & _)].
  - by apply sublist_cons.
  - by apply sublist_skip.
Qed.

Lemma best_links_titles (category_candidates : list (string * list Parser.candidate)) :
  Forall (λ link, (String.length (il_title link) ≤ 53)%nat)
         (flat_map best_link category_candidates).
Proof.
  induction category_candidates as [|entry l IH]; [done|].
  cbn [flat_map]. apply Forall_app. split; [|done].
  destruct (best_link_cases entry) as [->|(link & -> & _ & H)].
  - by apply Forall_nil.
  - by apply Forall_singleton.
Qed.

Lemma important_links_shape (html_content : string) :
  let links := Parser.parse_important_links_from_html BeautifulSoup urljoin self
                 html_content in
  (il_type <$> links) `sublist_of` Parser.link_categories.*1
  ∧ Forall (λ link, (String.length (il_title link) ≤ 53)%nat) links.
Proof.
  unfold Parser.parse_important_links_from_html.
  destruct (BeautifulSoup html_content) as [soup|e]; [|split; [apply sublist_nil_l|done]].
  cbv zeta.
  set (cc0 := map (λ kv : string * list string, (kv.1, [])) Parser.link_categories).
  set (cc1 := Parser.process_selectors soup 10 Parser.priority_link_selectors cc0).
  set (cc2 := Parser.process_selectors soup 0 Parser.secondary_link_selectors cc1).
  set (cc3 := match List.filter _ cc2 with [] => cc2 | _ => _ end).
  assert (H0 : cc0.*1 = Parser.link_categories.*1) by reflexivity.
  assert (H2 : cc2.*1 = Parser.link_categories.*1)
    by (unfold cc2, cc1; by rewrite !process_selectors_keys).
  assert (H3 : cc3.*1 = Parser.link_categories.*1).
  { unfold cc3. destruct (List.filter _ cc2); [done|].
    by rewrite process_links_keys. }
  split; [|apply best_links_titles].
  rewrite <- H3. apply best_links_types.
Qed.


End LinkFacts.

(** ** Social handles *)



Section SocialFacts.

Variable BeautifulSoup : string → PyResult Bs4.Tag.
Variable urljoin : string → string → string.
Variable self : Parser.ShopifyParser.
Variable urlparse_path : string → PyResult string.

Local Abbreviation handle_of_href :=
  (Parser.handle_of_href urljoin self urlparse_path).
Local Abbreviation links_loop := (Parser.links_loop urljoin self urlparse_path).




End SocialFacts.

(** ** Policy pages *)

Section PolicyFacts.

Variable BeautifulSoup : string → PyResult Bs4.Tag.
Variable self : Parser.ShopifyParser.
Variable text_without : list string → Bs4.Tag → string.

Lemma py_or_nonempty (a : option string) (b : string) :
  b ≠ "" → ∃ t, py_or a (Some b) = Some t ∧ t ≠ "".
Proof.
  intros Hb. unfold py_or. destruct a as [[|c s]|]; cbn; eauto.
Qed.

(** X16. A policy that [parse_policies_from_html] returns has the member
    of [PolicyType] whose value is the given type, so that a type outside
    the five values gives [None] for every page; its title is not empty,
    its content has more than 100 characters, and its URL is the base URL
    followed by [/policies/] and the type. *)
Theorem X16_parse_policies_some (html_content policy_type : string) (policy : Policy) :
  Parser.parse_policies_from_html BeautifulSoup self text_without html_content
    policy_type = Some policy →
  Parser.PolicyType_of_value policy_type = Some (pol_type policy)
  ∧ (∃ title, pol_title policy = Some title ∧ title ≠ "")
  ∧ (∃ content, pol_content policy = Some content
                ∧ (100 < String.length content)%nat)
  ∧ pol_url policy
    = Some (Parser.base_url self +:+ "/policies/" +:+ policy_type).
Proof.
  unfold Parser.parse_policies_from_html.
  destruct (BeautifulSoup html_content) as [soup|e]; [|done].
  set (title := match Parser.first_selected soup ["h1"; _; _; _] with
                | Some title_elem => _ | None => None end).
  set (found := match Parser.first_selected soup [".page-content"; _; _; _; _; _] with
                | Some content_elem => _ | None => None end).
  clearbody title.
  set (content := if negb (truthy_opt found) then _ else default "" found).
  clearbody content. clear found.
  destruct (PyStr.truthy content); cbn [andb]; [|done].
  destruct (Z.ltb_spec 100 (PyStr.length content)) as [Hlen|]; [|done].
  destruct (Parser.PolicyType_of_value policy_type) as [t|]; [|done].
  intros [= <-]. cbn. split; [done|]. split; [|split; [|done]].
  - apply py_or_nonempty. unfold PyStr.title.
    destruct policy_type; cbn; done.
  - exists content. split; [done|].
    unfold PyStr.length in Hlen. lia.
Qed.

End PolicyFacts.

Lemma X16_parse_policies_some_witness :
  match Parser.parse_policies_from_html (λ _, Ok Samples.policy_document)
          Samples.parser Samples.text_without "" "privacy" with
  | Some policy =>
      pol_type policy = PRIVACY
      ∧ pol_url policy = Some "https://shop.example/policies/privacy"
  | None => False
  end.
Proof.
  destruct (Parser.parse_policies_from_html (λ _, Ok Samples.policy_document)
              Samples.parser Samples.text_without "" "privacy")
    as [policy|] eqn:E.
  - destruct (X16_parse_policies_some _ _ _ _ _ _ E) as (Htype & _ & _ & Hurl).
    split; [by injection Htype as <-|exact Hurl].
  - vm_compute in E. discriminate E.
Defined.

(* ===================================================================== *)
(** * Facts about the report *)
(* ===================================================================== *)

Lemma completeness_points_range (brand_context : Analyzer.BrandContext) :
  0 ≤ Analyzer.completeness_points brand_context ≤ 7.
Proof.
  unfold Analyzer.completeness_points.
  repeat match goal with |- context [if ?b then _ else _] => destruct b end; lia.
Qed.

Lemma completeness_points_full (brand_context : Analyzer.BrandContext) :
  Analyzer.completeness_points brand_context = 7
  ↔ Analyzer.filled (Analyzer.product_catalog brand_context) = true
    ∧ Analyzer.filled (Analyzer.hero_products brand_context) = true
    ∧ Analyzer.filled (Analyzer.policies brand_context) = true
    ∧ Analyzer.filled (Analyzer.faqs brand_context) = true
    ∧ Analyzer.filled (Analyzer.social_handles brand_context) = true
    ∧ Analyzer.reachable brand_context = true
    ∧ Analyzer.filled (Analyzer.important_links brand_context) = true.
Proof.
  unfold Analyzer.completeness_points.
  destruct (Analyzer.filled (Analyzer.product_catalog brand_context)),
    (Analyzer.filled (Analyzer.hero_products brand_context)),
    (Analyzer.filled (Analyzer.policies brand_context)),
    (Analyzer.filled (Analyzer.faqs brand_context)),
    (Analyzer.filled (Analyzer.social_handles brand_context)),
    (Analyzer.reachable brand_context),
    (Analyzer.filled (Analyzer.important_links brand_context));
    cbn; split; (lia || (intros (?&?&?&?&?&?&?); done) || done).
Qed.

Lemma completeness_points_none (brand_context : Analyzer.BrandContext) :
  Analyzer.completeness_points brand_context = 0
  ↔ Analyzer.filled (Analyzer.product_catalog brand_context) = false
    ∧ Analyzer.filled (Analyzer.hero_products brand_context) = false
    ∧ Analyzer.filled (Analyzer.policies brand_context) = false
    ∧ Analyzer.filled (Analyzer.faqs brand_context) = false
    ∧ Analyzer.filled (Analyzer.social_handles brand_context) = false
    ∧ Analyzer.reachable brand_context = false
    ∧ Analyzer.filled (Analyzer.important_links brand_context) = false.
Proof.
  unfold Analyzer.completeness_points.
  destruct (Analyzer.filled (Analyzer.product_catalog brand_context)),
    (Analyzer.filled (Analyzer.hero_products brand_context)),
    (Analyzer.filled (Analyzer.policies brand_context)),
    (Analyzer.filled (Analyzer.faqs brand_context)),
    (Analyzer.filled (Analyzer.social_handles brand_context)),
    (Analyzer.reachable brand_context),
    (Analyzer.filled (Analyzer.important_links brand_context));
    cbn; split; (lia || (intros (?&?&?&?&?&?&?); done) || done).
Qed.

Lemma score_of_values (points : Z) :
  0 ≤ points ≤ 7 →
  (Spec.score_of points = 100%float ↔ points = 7)
  ∧ (Spec.score_of points = 0%float ↔ points = 0)
  ∧ PrimFloat.leb 0 (Spec.score_of points) = true
  ∧ PrimFloat.leb (Spec.score_of points) 100 = true.
Proof.
  intros H.
  assert (points = 0 ∨ points = 1 ∨ points = 2 ∨ points = 3 ∨ points = 4
          ∨ points = 5 ∨ points = 6 ∨ points = 7)
    as [->|[->|[->|[->|[->|[->|[->| ->]]]]]]] by lia;
    (split; [|split; [|split; by vm_compute]]);
    (split; [intros E|intros E; try done; try lia]);
    try done;
    try (apply (f_equal (λ f, PrimFloat.ltb f 50)) in E; vm_compute in E;
         discriminate E).
Qed.

(** X17. The completeness score lies between 0 and 100; it is exactly
    100.0 when all seven sections of the profile are filled, and exactly
    0.0 when none is. *)
Theorem X17_completeness_score (brand_context : Analyzer.BrandContext) :
  let score := Analyzer._calculate_completeness_score brand_context in
  PrimFloat.leb 0 score = true
  ∧ PrimFloat.leb score 100 = true
  ∧ (score = 100%float
     ↔ Analyzer.filled (Analyzer.product_catalog brand_context) = true
       ∧ Analyzer.filled (Analyzer.hero_products brand_context) = true
       ∧ Analyzer.filled (Analyzer.policies brand_context) = true
       ∧ Analyzer.filled (Analyzer.faqs brand_context) = true
       ∧ Analyzer.filled (Analyzer.social_handles brand_context) = true
       ∧ Analyzer.reachable brand_context = true
       ∧ Analyzer.filled (Analyzer.important_links brand_context) = true)
  ∧ (score = 0%float
     ↔ Analyzer.filled (Analyzer.product_catalog brand_context) = false
       ∧ Analyzer.filled (Analyzer.hero_products brand_context) = false
       ∧ Analyzer.filled (Analyzer.policies brand_context) = false
       ∧ Analyzer.filled (Analyzer.faqs brand_context) = false
       ∧ Analyzer.filled (Analyzer.social_handles brand_context) = false
       ∧ Analyzer.reachable brand_context = false
       ∧ Analyzer.filled (Analyzer.important_links brand_context) = false).
Proof.
  intros score.
  destruct (score_of_values (Analyzer.completeness_points brand_context)
              (completeness_points_range brand_context)) as (H1 & H2 & H3 & H4).
  change score with (Spec.score_of (Analyzer.completeness_points brand_context)).
  split; [done|]. split; [done|]. split.
  - by rewrite H1, completeness_points_full.
  - by rewrite H2, completeness_points_none.
Qed.

(** X18. [_generate_recommendations] returns between one and four
    recommendations. The praise is returned exactly when there are products,
    policies, FAQs and at least three social handles, and then alone: a
    profile whose completeness score is 100 is praised or told to expand its
    social media presence, and nothing else. *)
Theorem X18_recommendations_shape (brand_context : Analyzer.BrandContext) :
  let recommendations := Analyzer._generate_recommendations brand_context in
  (1 ≤ length recommendations ≤ 4)%nat
  ∧ (recommendations = [Analyzer.excellent]
     ↔ Analyzer.filled (Analyzer.product_catalog brand_context) = true
       ∧ Analyzer.filled (Analyzer.policies brand_context) = true
       ∧ 3 ≤ len (Analyzer.social_handles brand_context)
       ∧ Analyzer.filled (Analyzer.faqs brand_context) = true)
  ∧ (Analyzer.excellent ∈ recommendations → recommendations = [Analyzer.excellent])
  ∧ (Analyzer.completeness_points brand_context = 7 →
     recommendations = [Analyzer.excellent]
     ∨ recommendations = ["Expand social media presence across more platforms"]).
Proof.
  cbv zeta. split; [|split; [|split]].
  - unfold Analyzer._generate_recommendations.
    destruct (Analyzer.filled (Analyzer.product_catalog brand_context)),
      (Analyzer.filled (Analyzer.policies brand_context)),
      (len (Analyzer.social_handles brand_context) <? 3),
      (Analyzer.filled (Analyzer.faqs brand_context)); cbn; lia.
  - unfold Analyzer._generate_recommendations.
    destruct (Z.ltb_spec (len (Analyzer.social_handles brand_context)) 3);
    destruct (Analyzer.filled (Analyzer.product_catalog brand_context)),
      (Analyzer.filled (Analyzer.policies brand_context)),
      (Analyzer.filled (Analyzer.faqs brand_context)); cbn;
      (split; [intros E; try discriminate E; try done
              |intros (?&?&?&?); try done; try lia]).
  - unfold Analyzer._generate_recommendations.
    destruct (Analyzer.filled (Analyzer.product_catalog brand_context)),
      (Analyzer.filled (Analyzer.policies brand_context)),
      (len (Analyzer.social_handles brand_context) <? 3),
      (Analyzer.filled (Analyzer.faqs brand_context)); cbn;
      intros Hin; try done;
      repeat (apply elem_of_cons in Hin as [Hin|Hin]; [discriminate Hin|]);
      by apply elem_of_nil in Hin.
  - intros (Hc & _ & Hp & Hf & _)%completeness_points_full.
    unfold Analyzer._generate_recommendations. rewrite Hc, Hp, Hf. cbn.
    destruct (len (Analyzer.social_handles brand_context) <? 3); [by right|by left].
Qed.

(* ===================================================================== *)
(** * Facts about the pages that are read *)
(* ===================================================================== *)

(** X19. Every key at which [_parse_comprehensive_content] reads the batch
    result (the home page, the products feed, eight policy pages and three
    FAQ pages) is one of the URLs that [_build_comprehensive_url_list]
    requests. *)
Theorem X19_lookups_fetched (base_url : string) :
  Spec.lookups base_url ⊆ Analyzer._build_comprehensive_url_list base_url.
Proof.
  intros u Hu.
  unfold Spec.lookups, Analyzer.policy_urls, Analyzer.faq_urls in Hu.
  cbn [map fst app] in Hu.
  unfold Analyzer._build_comprehensive_url_list.
  repeat (apply elem_of_cons in Hu as [->|Hu];
          [repeat first [apply list_elem_of_here | apply list_elem_of_further]|]).
  by apply elem_of_nil in Hu.
Qed.

Lemma flat_map_ext_in {A B} (f g : A → list B) (l : list A) :
  (∀ x, x ∈ l → f x = g x) → flat_map f l = flat_map g l.
Proof.
  induction l as [|x l IH]; intros H; [done|].
  cbn. rewrite (H x), IH; [done| |apply list_elem_of_here].
  intros y Hy. apply H. by apply list_elem_of_further.
Qed.

Section Reads.

Variable main_url : string.
Variables m m' : ScrapedContent.
Hypothesis agree : ∀ u, u ∈ Spec.lookups main_url → m !! u = m' !! u.

Lemma agree_home : m !! main_url = m' !! main_url.
Proof. apply agree, list_elem_of_here. Qed.

Lemma agree_products :
  m !! Analyzer.under main_url "/products.json"
  = m' !! Analyzer.under main_url "/products.json".
Proof. apply agree, list_elem_of_further, list_elem_of_here. Qed.

Lemma agree_policies :
  Analyzer._parse_comprehensive_policies main_url m
  = Analyzer._parse_comprehensive_policies main_url m'.
Proof.
  unfold Analyzer._parse_comprehensive_policies. apply flat_map_ext_in.
  intros [url policy_type] Hin. unfold Analyzer.policy_of.
  rewrite agree; [done|]. unfold Spec.lookups.
  do 2 apply list_elem_of_further. apply elem_of_app. left.
  apply list_elem_of_fmap. by exists (url, policy_type).
Qed.

Lemma agree_faqs BeautifulSoup (main_html : string) :
  Analyzer._parse_comprehensive_faqs BeautifulSoup main_url m main_html
  = Analyzer._parse_comprehensive_faqs BeautifulSoup main_url m' main_html.
Proof.
  unfold Analyzer._parse_comprehensive_faqs.
  rewrite (flat_map_ext_in (Analyzer.page_faqs_of BeautifulSoup m)
             (Analyzer.page_faqs_of BeautifulSoup m')); [done|].
  intros url Hin. unfold Analyzer.page_faqs_of.
  rewrite agree; [done|]. unfold Spec.lookups.
  do 2 apply list_elem_of_further. apply elem_of_app. by right.
Qed.

End Reads.

Section AggregateReads.

Variable BeautifulSoup : string → PyResult Bs4.Tag.
Variable urljoin : string → string → string.
Variable urlparse_netloc : string → string.
Variable parser : Parser.ShopifyParser.
Variable _extract_hero_product_from_element : Bs4.Tag → option HeroProduct.
Variable validators_url : string → bool.
Variable live_results : string → list CompetitorFinder.SearchResult.
Variable random_draw : nat → nat.
Variable validate_int : json → option Z.
Variable validate_str : json → option string.
Variable validate_bool : json → option bool.
Variable validate_str_list : json → option (list string).
Variable float_of_str : string → option PyFloat.
Variable repr_other : json → string.
Variable extract_emails_from_text : string → list string.
Variable extract_phone_numbers_from_text : string → list string.
Variable _extract_addresses_from_text : string → list string.
Variable _extract_structured_contact_info :
  Bs4.Tag → list string * list string * list string.
Variable _select_best_phone : list string → option string.
Variable _select_best_address : list string → option string.
Variable list_set : list string → list string.
Variable parse_social_handles_from_html : string → PyResult (list SocialHandle).
Variable parse_important_links_from_html : string → list ImportantLink.
Variable now today : string.

Local Abbreviation aggregate :=
  (Analyzer._parse_comprehensive_content BeautifulSoup urljoin urlparse_netloc
     parser _extract_hero_product_from_element validators_url live_results
     random_draw validate_int validate_str validate_bool validate_str_list
     float_of_str repr_other extract_emails_from_text
     extract_phone_numbers_from_text _extract_addresses_from_text
     _extract_structured_contact_info _select_best_phone _select_best_address
     list_set parse_social_handles_from_html parse_important_links_from_html
     now today).

(** X20. [_parse_comprehensive_content] reads the batch result at these
    thirteen keys only: two batch results that agree on them give the same
    outcome (the same exception, or the same profile), the count of pages
    apart. The other twelve pages that are fetched (about, contact, blog
    and so on) count for the number of pages and for nothing else. *)
Theorem X20_aggregate_reads (main_url : string) (m m' : ScrapedContent) :
  (∀ u, u ∈ Spec.lookups main_url → m !! u = m' !! u) →
  Spec.same_up_to_pages (Analyzer.count_pages m')
    (aggregate main_url m) (aggregate main_url m').
Proof.
  intros agree. unfold Analyzer._parse_comprehensive_content.
  rewrite <- (agree_home main_url m m' agree),
    <- (agree_products main_url m m' agree),
    <- (agree_policies main_url m m' agree).
  destruct (m !! main_url) as [[main_content|]|]; cbn [mbind PyResult_bind];
    [| done |].
  - rewrite <- (agree_faqs main_url m m' agree).
    destruct (if PyStr.truthy _ then parse_social_handles_from_html _ else Ok [])
      as [social|e]; cbn [mbind PyResult_bind]; [|done].
    destruct (Analyzer.find_competitors _ _ _ _ _ _) as [found|e];
      cbn [mbind PyResult_bind]; done.
  - rewrite <- (agree_faqs main_url m m' agree).
    destruct (if PyStr.truthy _ then parse_social_handles_from_html _ else Ok [])
      as [social|e]; cbn [mbind PyResult_bind]; [|done].
    destruct (Analyzer.find_competitors _ _ _ _ _ _) as [found|e];
      cbn [mbind PyResult_bind]; done.
Qed.

End AggregateReads.

Lemma X20_aggregate_reads_witness :
  Spec.same_up_to_pages (Analyzer.count_pages Samples.home_and_blog)
    (Samples.aggregate Samples.home_only) (Samples.aggregate Samples.home_and_blog).
Proof.
  apply X20_aggregate_reads. intros u Hu.
  unfold Samples.home_and_blog, Samples.html_entry.
  rewrite lookup_insert_ne; [done|]. intros <-.
  revert Hu. apply (bool_decide_unpack _). by vm_compute.
Defined.

(* ===================================================================== *)
(** * Facts about the analysis of a store *)
(* ===================================================================== *)

Lemma preview_length (content : option string) :
  (String.length (Analyzer.preview content) ≤ 503)%nat.
Proof.
  unfold Analyzer.preview, PyStr.length.
  destruct (Z.ltb_spec 500 (Z.of_nat (String.length (Analyzer.or_empty content)))).
  - rewrite length_append, str_length_take. change (String.length "...") with 3%nat. lia.
  - lia.
Qed.

Lemma short_phones_length (phones : list string) :
  (length (Analyzer.short_phones phones) ≤ length phones)%nat.
Proof. apply filter_length_le. Qed.

Lemma clean_phone_numbers_length (phones : list string) :
  (length (Analyzer.clean_phone_numbers phones) ≤ length phones)%nat.
Proof.
  unfold Analyzer.clean_phone_numbers. rewrite length_map. apply filter_length_le.
Qed.

Lemma contact_phones_length BeautifulSoup ee ep ea es sp sa list_set
    (html_content : string) :
  (length (phone_numbers (Parser.parse_contact_info_from_html BeautifulSoup ee ep
                            ea es sp sa list_set html_content)) ≤ 1)%nat.
Proof.
  unfold Parser.parse_contact_info_from_html.
  destruct (BeautifulSoup html_content); cbn; [apply singleton_if_length|lia].
Qed.

Lemma task_page_truthy validators_url cfg session_open net (u u' c : string) :
  Scraper.task validators_url cfg session_open net u = Ok (Some (HtmlPage u' c)) →
  u' = u ∧ PyStr.truthy c = true.
Proof.
  unfold Scraper.task. destruct (PyStr.endswith u ".json").
  - unfold Scraper._fetch_json_with_url.
    destruct (Scraper.fetch_json _ _ _ _ _ _).1 as [[j|]|e]; cbn; try done.
    by destruct (json_truthy j).
  - unfold Scraper._fetch_html_with_url.
    destruct (Scraper.fetch_html _ _ _ _ _ _).1 as [[c'|]|e]; cbn; try done.
    destruct (PyStr.truthy c') eqn:E; [|done]. by intros [= <- <-].
Qed.

Section PipelineFacts.

Variable BeautifulSoup : string → PyResult Bs4.Tag.
Variable urljoin : string → string → string.
Variable urlparse_netloc : string → string.
Variable urlparse_path : string → PyResult string.
Variable validators_url : string → bool.
Variable cfg : Settings.
Variable net : string → nat → Scraper.GetOutcome.
Variable _extract_hero_product_from_element :
  Parser.ShopifyParser → Bs4.Tag → option HeroProduct.
Variable live_results : string → list CompetitorFinder.SearchResult.
Variable random_draw : nat → nat.
Variable validate_int : json → option Z.
Variable validate_str : json → option string.
Variable validate_bool : json → option bool.
Variable validate_str_list : json → option (list string).
Variable float_of_str : string → option PyFloat.
Variable repr_other : json → string.
Variable extract_emails_from_text : string → list string.
Variable extract_phone_numbers_from_text : string → list string.
Variable _extract_addresses_from_text : string → list string.
Variable _extract_structured_contact_info :
  Bs4.Tag → list string * list string * list string.
Variable _select_best_address : list string → option string.
Variable list_set : list string → list string.
Variable now today finished : string.
Variable isoformat : string → string.
Variable database_save : string → Analyzer.BrandContext → PyResult (option Z).

Local Abbreviation analyze :=
  (Analyzer.analyze_and_store_shop BeautifulSoup urljoin urlparse_netloc
     urlparse_path validators_url cfg net _extract_hero_product_from_element
     live_results random_draw validate_int validate_str validate_bool
     validate_str_list float_of_str repr_other extract_emails_from_text
     extract_phone_numbers_from_text _extract_addresses_from_text
     _extract_structured_contact_info _select_best_address list_set now today
     finished isoformat database_save).
Local Abbreviation profile_of :=
  (Analyzer.profile_of BeautifulSoup urljoin urlparse_netloc urlparse_path
     validators_url _extract_hero_product_from_element live_results random_draw
     validate_int validate_str validate_bool validate_str_list float_of_str
     repr_other extract_emails_from_text extract_phone_numbers_from_text
     _extract_addresses_from_text _extract_structured_contact_info
     _select_best_address list_set now today).
Local Abbreviation scrape := (Analyzer.scrape validators_url cfg net).
Local Abbreviation home_task :=
  (Scraper.task validators_url cfg true net).

Lemma scrape_home (url : string) :
  scrape url !! url = Some (Spec.entry_of (home_task url)).
Proof.
  unfold Analyzer.scrape. rewrite fetch_multiple_pages_lookup.
  rewrite decide_True; [done|].
  unfold Analyzer._build_comprehensive_url_list. apply list_elem_of_here.
Qed.

Lemma scrape_nonempty (url : string) : scrape url ≠ ∅.
Proof.
  intros H. pose proof (scrape_home url) as Hh. rewrite H in Hh.
  by rewrite lookup_empty in Hh.
Qed.

Lemma analyze_cases (url : string) (save_to_db : bool) :
  let url' := Spec.with_protocol url in
  analyze url save_to_db
  = match
      (brand_context ← profile_of url' (scrape url');
       brand_id ← (if save_to_db then database_save url' brand_context
                   else Ok None);
       Ok (Analyzer.Analysed brand_id (Analyzer.brand_name brand_context) url'
             (isoformat finished)
             (Analyzer.brand_data_of brand_context isoformat) save_to_db
             (Analyzer.count_pages (scrape url'))))
    with
    | Ok result => result
    | Raise e => Analyzer.Failed e url' (isoformat finished)
    end.
Proof.
  intros url'. unfold Analyzer.analyze_and_store_shop.
  fold (Spec.with_protocol url). fold url'.
  rewrite bool_decide_eq_false_2; [done|apply scrape_nonempty].
Qed.

(** X21. When the home page could not be fetched (its entry in the batch
    result is [None]), [analyze_and_store_shop] reports a failure, whatever
    else was fetched: reading the entry raises [AttributeError]. *)
Theorem X21_analyze_without_home_page (url : string) (save_to_db : bool) :
  Spec.entry_of (home_task (Spec.with_protocol url)) = None →
  analyze url save_to_db
  = Analyzer.Failed AttributeError (Spec.with_protocol url) (isoformat finished).
Proof.
  intros H. rewrite analyze_cases. cbv zeta.
  unfold Analyzer.profile_of.
  rewrite aggregate_without_home_page; [done|].
  by rewrite scrape_home, H.
Qed.

(** X22. A home page that was fetched but that the HTML parser rejects
    makes [analyze_and_store_shop] report a failure too: the extraction of
    the social handles is the one step that does not tolerate it. *)
Theorem X22_analyze_unparsable_home_page (url html : string) (save_to_db : bool) (e : exn) :
  home_task (Spec.with_protocol url)
    = Ok (Some (HtmlPage (Spec.with_protocol url) html)) →
  BeautifulSoup html = Raise e →
  analyze url save_to_db
  = Analyzer.Failed OtherError (Spec.with_protocol url) (isoformat finished).
Proof.
  intros Htask Hsoup. rewrite analyze_cases. cbv zeta.
  destruct (task_page_truthy _ _ _ _ _ _ _ Htask) as [_ Htruthy].
  unfold Analyzer.profile_of, Analyzer._parse_comprehensive_content.
  rewrite scrape_home, Htask. cbn [Spec.entry_of page_content default from_option id mbind PyResult_bind].
  rewrite Htruthy.
  unfold Parser.parse_social_handles_from_html. by rewrite Hsoup.
Qed.

Lemma profile_fields (url : string) (m : ScrapedContent)
    (brand_context : Analyzer.BrandContext) :
  profile_of url m = Ok brand_context →
  Analyzer.website_url brand_context = url
  ∧ Analyzer.pages_analyzed brand_context = Analyzer.count_pages m
  ∧ Analyzer.product_count brand_context
    = len (Analyzer.product_catalog brand_context)
  ∧ (length (Analyzer.important_links brand_context) ≤ 13)%nat
  ∧ ∃ info, Analyzer.contact_info brand_context = Some info
            ∧ (length (phone_numbers info) ≤ 1)%nat.
Proof.
  unfold Analyzer.profile_of, Analyzer._parse_comprehensive_content. intros H.
  apply bind_Ok in H as (main_html & _ & H).
  apply bind_Ok in H as (social_handles & _ & H).
  apply bind_Ok in H as (found & _ & H).
  injection H as <-. cbn.
  split; [done|]. split; [done|]. split; [done|]. split.
  - destruct (PyStr.truthy main_html); [|cbn; lia].
    destruct (important_links_shape BeautifulSoup urljoin
                (Parser.init urlparse_netloc url) main_html) as [Hsub _].
    apply sublist_length in Hsub. rewrite !length_fmap in Hsub.
    etrans; [exact Hsub|]. by vm_compute.
  - eexists. split; [done|]. cbn.
    etrans; [apply clean_phone_numbers_length|].
    destruct (PyStr.truthy main_html); [apply contact_phones_length|cbn; lia].
Qed.

Lemma with_protocol_has_protocol (url : string) :
  Helpers.has_protocol (Spec.with_protocol url) = true.
Proof.
  unfold Spec.with_protocol.
  destruct (Helpers.has_protocol url) eqn:E; cbn [negb]; [done|].
  unfold Helpers.has_protocol. rewrite (startswith_append "https://").
  apply orb_true_r.
Qed.

(** X23. Every analysis that succeeds reports the URL with its protocol,
    whether it was saved (without an identifier when it was not), at most
    23 pages, a product count equal to the length of the catalogue, between
    2 and 10 hero products, between 1 and 60 FAQs, at most 8 policies with
    previews of at most 503 characters, at least 2 competitors, at most one
    e-mail address and one phone number, and at most 13 important links. *)
Theorem X23_analyze_bounds (url : string) (save_to_db : bool) (brand_id : option Z)
    (name : option string) (website_url timestamp : string)
    (data : Analyzer.BrandData) (saved : bool) (pages : Z) :
  analyze url save_to_db
    = Analyzer.Analysed brand_id name website_url timestamp data saved pages →
  website_url = Spec.with_protocol url
  ∧ Helpers.has_protocol website_url = true
  ∧ Analyzer.bd_website_url data = website_url
  ∧ saved = save_to_db
  ∧ (save_to_db = false → brand_id = None)
  ∧ 0 ≤ pages ≤ 23
  ∧ Analyzer.bd_pages_analyzed data = pages
  ∧ Analyzer.bd_product_count data = len (Analyzer.bd_product_catalog data)
  ∧ (2 ≤ length (Analyzer.bd_hero_products data) ≤ 10)%nat
  ∧ (1 ≤ length (Analyzer.bd_faqs data) ≤ 60)%nat
  ∧ (length (Analyzer.bd_policies data) ≤ 8)%nat
  ∧ Forall (λ p, (String.length (Analyzer.pld_content p) ≤ 503)%nat)
           (Analyzer.bd_policies data)
  ∧ (2 ≤ length (Analyzer.bd_competitors data))%nat
  ∧ (length (Analyzer.cd_emails (Analyzer.bd_contact_info data)) ≤ 1)%nat
  ∧ (length (Analyzer.cd_phone_numbers (Analyzer.bd_contact_info data)) ≤ 1)%nat
  ∧ (length (Analyzer.bd_important_links data) ≤ 13)%nat.
Proof.
  rewrite analyze_cases. cbv zeta. set (url' := Spec.with_protocol url).
  destruct (profile_of url' (scrape url')) as [ctx|e] eqn:Hp;
    cbn [mbind PyResult_bind]; [|done].
  intros H.
  assert (Hres : Analyzer.Analysed brand_id name website_url timestamp data saved pages
          = Analyzer.Analysed brand_id (Analyzer.brand_name ctx) url'
              (isoformat finished) (Analyzer.brand_data_of ctx isoformat)
              save_to_db (Analyzer.count_pages (scrape url'))
          ∧ (save_to_db = false → brand_id = None)).
  { destruct save_to_db.
    - destruct (database_save url' ctx) as [i|e];
        cbn [mbind PyResult_bind] in H; [|done].
      by injection H as <- <- <- <- <- <- <-.
    - cbn [mbind PyResult_bind] in H.
      by injection H as <- <- <- <- <- <- <-. }
  clear H. destruct Hres as [[= -> -> -> -> -> ->] Hid].
  destruct (profile_fields _ _ _ Hp) as (Hurl & Hpages & Hcount & Hlinks & info & Hinfo & Hphones).
  unfold Analyzer.profile_of in Hp.
  apply aggregate_bounds in Hp as (Hpol & _ & Hfaqs & Hhero & Hcomp & Hemails & _).
  split; [done|]. split; [apply with_protocol_has_protocol|].
  split; [exact Hurl|]. split; [done|]. split; [done|].
  split.
  { split; [apply len_nonneg|].
    unfold Analyzer.scrape. etrans; [apply count_pages_batch|apply url_list_html]. }
  split; [exact Hpages|].
  cbn [Analyzer.brand_data_of Analyzer.bd_product_count Analyzer.bd_product_catalog
       Analyzer.bd_hero_products Analyzer.bd_faqs Analyzer.bd_policies
       Analyzer.bd_competitors Analyzer.bd_contact_info Analyzer.bd_important_links].
  split; [rewrite Hcount; unfold len; by rewrite length_map|].
  rewrite !length_map. split; [done|]. split; [done|].
  split; [rewrite Hpol; apply policies_length|].
  split.
  { apply Forall_forall. intros p [q [-> _]]%list_elem_of_fmap.
    apply preview_length. }
  split; [done|]. rewrite Hinfo. cbn.
  split; [by apply Hemails|]. split; [|done].
  etrans; [apply short_phones_length|done].
Qed.

End PipelineFacts.

Lemma X21_analyze_without_home_page_witness :
  Samples.analyze Samples.BeautifulSoup Samples.dead_net "shop.example" true
  = Analyzer.Failed AttributeError "https://shop.example" "2024-01-01T00:00:09".
Proof.
  refine (X21_analyze_without_home_page Samples.BeautifulSoup Samples.urljoin
            Samples.netloc Samples.urlparse_path Samples.validators_url settings
            Samples.dead_net _ _ _ _ _ _ _ _ _ _ _ _ _ _ _ _ _ _ _
            Samples.database_save "shop.example" true _).
  by vm_compute.
Defined.

Lemma X22_analyze_unparsable_home_page_witness :
  Samples.analyze (λ _, Raise OtherError) Samples.net "shop.example" false
  = Analyzer.Failed OtherError "https://shop.example" "2024-01-01T00:00:09".
Proof.
  refine (X22_analyze_unparsable_home_page (λ _, Raise OtherError) Samples.urljoin
            Samples.netloc Samples.urlparse_path Samples.validators_url settings
            Samples.net _ _ _ _ _ _ _ _ _ _ _ _ _ _ _ _ _ _ _
            Samples.database_save "shop.example" "<html></html>" false OtherError
            _ eq_refl).
  by vm_compute.
Defined.

(** The analysis of the sample store succeeds. *)
Lemma X23_analyze_bounds_witness :
  match Samples.analyze Samples.BeautifulSoup Samples.net "shop.example" true with
  | Analyzer.Analysed brand_id _ website_url _ data saved pages =>
      website_url = "https://shop.example"
      ∧ saved = true
      ∧ 0 ≤ pages ≤ 23
      ∧ (2 ≤ length (Analyzer.bd_hero_products data) ≤ 10)%nat
      ∧ (2 ≤ length (Analyzer.bd_competitors data))%nat
  | Analyzer.Failed _ _ _ => False
  end.
Proof.
  destruct (Samples.analyze Samples.BeautifulSoup Samples.net "shop.example" true)
    as [brand_id name website_url timestamp data saved pages|e w t] eqn:E.
  - destruct (X23_analyze_bounds _ _ _ _ _ _ _ _ _ _ _ _ _ _ _ _ _ _ _ _ _ _ _ _
                _ _ _ _ _ _ _ _ _ _ _ _ E)
      as (H1 & _ & _ & H4 & _ & H6 & _ & _ & H9 & _ & _ & _ & H13 & _).
    clear E. split; [exact H1|]. split; [exact H4|]. split; [exact H6|].
    split; [exact H9|exact H13].
  - vm_compute in E. discriminate E.
Defined.

(* ===================================================================== *)
(** * Facts about the competitor finder *)
(* ===================================================================== *)

Lemma contains_any_false (s w : string) (words : list string) :
  PyStr.contains_any s words = false → w ∈ words → PyStr.contains s w = false.
Proof.
  unfold PyStr.contains_any. intros H Hw.
  induction words as [|x words IH]; [by apply elem_of_nil in Hw|].
  cbn [existsb] in H. apply orb_false_elim in H as [Hx H].
  apply elem_of_cons in Hw as [->|Hw]; [done|by apply IH].
Qed.

(** X24. [_get_enhanced_industry_competitors] never returns its fashion,
    tech or home list. Every category is tested against the keywords of all
    five categories, so that the first one, beauty, answers every query
    that holds one of them, [fashion], [tech] and [home] included; a query
    without any gets the fitness list when it holds [fitness], and the
    default list otherwise. *)
Theorem X24_enhanced_competitors_cases (query : string) :
  let query_lower := PyStr.lower query in
  CompetitorFinder.sr_url
    <$> CompetitorFinder._get_enhanced_industry_competitors query
  = if PyStr.contains query_lower "beauty"
       || PyStr.contains_any query_lower CompetitorFinder.category_keywords
    then ["https://glossier.com"; "https://rarebeauty.com"; "https://fentybeauty.com"]
    else if PyStr.contains query_lower "fitness"
    then ["https://alphalete.com"; "https://youngla.com"; "https://nvgtn.com"]
    else ["https://shopify.com"; "https://amazon.com"; "https://alibaba.com"].
Proof.
  intros query_lower. unfold CompetitorFinder._get_enhanced_industry_competitors.
  fold query_lower. clearbody query_lower.
  unfold CompetitorFinder.enhanced_competitors.
  cbn [CompetitorFinder.enhanced_match].
  destruct (PyStr.contains_any query_lower CompetitorFinder.category_keywords) eqn:E.
  { rewrite orb_true_r. reflexivity. }
  rewrite !orb_false_r.
  destruct (PyStr.contains query_lower "beauty"); [reflexivity|].
  destruct (PyStr.contains query_lower "fitness"); [reflexivity|].
  rewrite (contains_any_false _ "fashion" _ E), (contains_any_false _ "tech" _ E),
    (contains_any_false _ "home" _ E); [reflexivity|..];
    unfold CompetitorFinder.category_keywords;
    repeat (first [apply list_elem_of_here | apply list_elem_of_further]).
Qed.

Lemma slice_to_length_le {A} (n : Z) (xs : list A) :
  (length (slice_to n xs) ≤ length xs)%nat.
Proof. unfold slice_to. destruct (0 <=? n); rewrite length_take; lia. Qed.

Lemma slice_to_bound {A} (n : Z) (xs : list A) :
  0 ≤ n → len (slice_to n xs) ≤ n.
Proof.
  intros Hn. unfold slice_to, len. apply Z.leb_le in Hn as Hb. rewrite Hb.
  rewrite length_take. lia.
Qed.

Lemma table_get_member (key : string) (competitors : list string) :
  CompetitorFinder.table_get key = Some competitors →
  ∃ k, (k, competitors) ∈ CompetitorFinder.mock_competitors.
Proof.
  unfold CompetitorFinder.table_get.
  destruct (List.find _ _) as [[k v]|] eqn:E; [|done].
  intros [= <-]. exists k. apply find_some in E as [E _].
  by apply list_elem_of_In.
Qed.

Lemma industry_match_member (clean_domain : string)
    (table : list (string * list string)) (competitors : list string) :
  CompetitorFinder.industry_match clean_domain table = Some competitors →
  ∃ k, (k, competitors) ∈ CompetitorFinder.mock_competitors.
Proof.
  induction table as [|[industry keywords] table IH];
    cbn [CompetitorFinder.industry_match]; [done|].
  destruct (PyStr.contains_any clean_domain keywords); [|exact IH].
  destruct (CompetitorFinder.table_get industry) as [c|] eqn:E; [|exact IH].
  intros [= <-]. by eapply table_get_member.
Qed.

Lemma partial_match_member (clean_domain : string)
    (table : list (string * list string)) (competitors : list string) :
  CompetitorFinder.partial_match clean_domain table = Some competitors →
  ∃ k, (k, competitors) ∈ table.
Proof.
  induction table as [|[key comps] table IH]; [done|].
  cbn [CompetitorFinder.partial_match].
  destruct (existsb (PyStr.eqb key) _).
  { intros H. destruct (IH H) as [k Hk]. exists k. by apply list_elem_of_further. }
  destruct (existsb _ (PyStr.split "." (PyStr.replace ".com" "" key))).
  - intros [= <-]. exists key. apply list_elem_of_here.
  - intros H. destruct (IH H) as [k Hk]. exists k. by apply list_elem_of_further.
Qed.

Lemma mock_competitors_five (k : string) (competitors : list string) :
  (k, competitors) ∈ CompetitorFinder.mock_competitors → length competitors = 5%nat.
Proof.
  intros H.
  assert (Hall : Forall (λ kv : string * list string, length kv.2 = 5%nat)
                        CompetitorFinder.mock_competitors).
  { unfold CompetitorFinder.mock_competitors. repeat constructor. }
  by apply (proj1 (Forall_forall _ _) Hall _ H).
Qed.

Lemma as_urls_shape (limit : Z) (competitors : list string) :
  length competitors = 5%nat →
  let urls := CompetitorFinder.as_urls limit competitors in
  Forall (λ u, PyStr.startswith u "https://" = true) urls
  ∧ (length urls ≤ 5)%nat
  ∧ (0 ≤ limit → len urls ≤ limit).
Proof.
  intros H5 urls. subst urls. unfold CompetitorFinder.as_urls. split; [|split].
  - apply Forall_forall. intros u Hu. apply list_elem_of_In in Hu.
    apply in_map_iff in Hu as (comp & <- & _).
    apply (startswith_append "https://").
  - rewrite length_map, <- H5. apply slice_to_length_le.
  - intros Hl. unfold len. rewrite length_map. by apply slice_to_bound.
Qed.

(** X26. [_get_mock_competitors] returns at most five URLs, each with the
    [https://] prefix, and at most [limit] of them when [limit] is not
    negative. *)
Theorem X26_mock_competitors_shape (domain : string) (limit : Z) :
  let urls := CompetitorFinder._get_mock_competitors domain limit in
  Forall (λ u, PyStr.startswith u "https://" = true) urls
  ∧ (length urls ≤ 5)%nat
  ∧ (0 ≤ limit → len urls ≤ limit).
Proof.
  unfold CompetitorFinder._get_mock_competitors.
  set (clean_domain := PyStr.lower _).
  destruct (CompetitorFinder.table_get clean_domain) as [c|] eqn:E1.
  { destruct (table_get_member _ _ E1) as [k Hk].
    apply as_urls_shape. by eapply mock_competitors_five. }
  destruct (CompetitorFinder.industry_match clean_domain _) as [c|] eqn:E2.
  { destruct (industry_match_member _ _ _ E2) as [k Hk].
    apply as_urls_shape. by eapply mock_competitors_five. }
  destruct (CompetitorFinder.partial_match clean_domain _) as [c|] eqn:E3.
  { destruct (partial_match_member _ _ _ E3) as [k Hk].
    apply as_urls_shape. by eapply mock_competitors_five. }
  cbn. split; [by apply Forall_nil|]. split; [lia|]. unfold len. cbn. lia.
Qed.

Section WebSearch.

Variable validators_url : string → bool.
Variable urlparse_netloc : string → string.
Variable live_results : string → list CompetitorFinder.SearchResult.

Local Abbreviation competitor_of_result :=
  (CompetitorFinder.competitor_of_result validators_url urlparse_netloc).
Local Abbreviation results_loop :=
  (CompetitorFinder.results_loop validators_url urlparse_netloc).
Local Abbreviation queries_loop :=
  (CompetitorFinder.queries_loop validators_url urlparse_netloc live_results).

Lemma competitor_of_result_cases (domain : string)
    (result : CompetitorFinder.SearchResult) :
  competitor_of_result domain result = []
  ∨ ∃ c, competitor_of_result domain result = [c] ∧ Spec.found_on_web domain c.
Proof.
  unfold CompetitorFinder.competitor_of_result.
  destruct (CompetitorFinder.extract_domain _ _ _) as [d|]; [|by left].
  destruct (PyStr.truthy d) eqn:Ht; cbn [andb]; [|by left].
  destruct (PyStr.eqb _ _) eqn:Eq; cbn [negb]; [by left|].
  right. eexists. split; [done|]. split; [done|].
  exists d. cbn. split; [done|]. split; [by destruct d|].
  unfold PyStr.eqb in Eq. by apply bool_decide_eq_false in Eq.
Qed.

Lemma results_loop_spec (domain : string) (needed : Z)
    (search_results : list CompetitorFinder.SearchResult)
    (competitors : list CompetitorFinder.Competitor) :
  Forall (Spec.found_on_web domain) competitors →
  let result := results_loop domain needed search_results competitors in
  Forall (Spec.found_on_web domain) result
  ∧ len result ≤ Z.max needed (len competitors)
  ∧ (length result ≤ length competitors + length search_results)%nat.
Proof.
  revert competitors.
  induction search_results as [|r rest IH]; intros competitors Hall;
    cbn [CompetitorFinder.results_loop length].
  { split; [done|]. split; lia. }
  destruct (Z.leb_spec needed (len competitors)) as [Hn|Hn].
  { split; [done|]. split; lia. }
  destruct (competitor_of_result_cases domain r) as [->|(c & -> & Hc)].
  - rewrite app_nil_r. destruct (IH competitors Hall) as (H1 & H2 & H3).
    split; [done|]. split; lia.
  - destruct (IH (competitors ++ [c])) as (H1 & H2 & H3).
    { apply Forall_app. split; [done|]. by apply Forall_singleton. }
    split; [done|]. unfold len in *. rewrite length_app in *. cbn in *.
    split; lia.
Qed.

Lemma perform_web_search_length (query : string) :
  (length (CompetitorFinder._perform_web_search live_results query) ≤ 3)%nat.
Proof.
  unfold CompetitorFinder._perform_web_search.
  match goal with |- (length (slice_to 3 ?l) ≤ _)%nat =>
    pose proof (slice_to_bound 3 l ltac:(lia)) as H end.
  unfold len in H. lia.
Qed.

Lemma queries_loop_spec (domain : string) (needed : Z) (queries : list string)
    (competitors : list CompetitorFinder.Competitor) :
  Forall (Spec.found_on_web domain) competitors →
  let result := queries_loop domain needed queries competitors in
  Forall (Spec.found_on_web domain) result
  ∧ len result ≤ Z.max needed (len competitors)
  ∧ (length result ≤ length competitors + 3 * length queries)%nat.
Proof.
  revert competitors.
  induction queries as [|q rest IH]; intros competitors Hall;
    cbn [CompetitorFinder.queries_loop length].
  { split; [done|]. split; lia. }
  destruct (Z.leb_spec needed (len competitors)) as [Hn|Hn].
  { split; [done|]. split; lia. }
  destruct (results_loop_spec domain needed
              (CompetitorFinder._perform_web_search live_results q) competitors Hall)
    as (H1 & H2 & H3).
  pose proof (perform_web_search_length q) as Hq.
  destruct (IH _ H1) as (G1 & G2 & G3).
  split; [done|]. split; lia.
Qed.

Lemma search_web_competitors_spec (domain : string) (needed : Z) :
  let competitors :=
    CompetitorFinder._search_web_competitors validators_url urlparse_netloc
      live_results domain needed in
  Forall (Spec.found_on_web domain) competitors
  ∧ len competitors ≤ Z.max needed 0
  ∧ (length competitors ≤ 12)%nat.
Proof.
  unfold CompetitorFinder._search_web_competitors. cbv zeta.
  set (search_queries := [_; _; _; _]).
  destruct (queries_loop_spec domain needed search_queries [])
    as (H1 & H2 & H3); [by apply Forall_nil|].
  change (length search_queries) with 4%nat in H3.
  change (len (@nil CompetitorFinder.Competitor)) with 0 in H2.
  cbn [length] in H3. split; [done|]. unfold len in *. split; lia.
Qed.

(** X25. Every record of [_search_web_competitors] has the source
    [Web Search] and a domain that is not empty and differs from the
    store's, [www.] apart; there are at most [needed] records, and never
    more than twelve. *)
Theorem X25_search_web_competitors (domain : string) (needed : Z) :
  let competitors :=
    CompetitorFinder._search_web_competitors validators_url urlparse_netloc
      live_results domain needed in
  Forall (Spec.found_on_web domain) competitors
  ∧ len competitors ≤ Z.max needed 0
  ∧ (length competitors ≤ 12)%nat.
Proof. exact (search_web_competitors_spec domain needed). Qed.

End WebSearch.

(** ** The final ordering *)

Lemma insert_by_elem_of key (x y : CompetitorFinder.Competitor)
    (xs : list CompetitorFinder.Competitor) :
  y ∈ CompetitorFinder.insert_by key x xs ↔ y = x ∨ y ∈ xs.
Proof.
  induction xs as [|z xs IH]; cbn.
  { rewrite list_elem_of_singleton. split; [by left|].
    by intros [?|?%elem_of_nil]. }
  destruct (key x <=? key z).
  - by rewrite elem_of_cons.
  - rewrite !elem_of_cons, IH. tauto.
Qed.

Lemma sort_by_elem_of key (y : CompetitorFinder.Competitor)
    (xs : list CompetitorFinder.Competitor) :
  y ∈ CompetitorFinder.sort_by key xs ↔ y ∈ xs.
Proof.
  induction xs as [|x xs IH]; cbn; [done|].
  by rewrite insert_by_elem_of, elem_of_cons, IH.
Qed.

Lemma insert_by_ordered (x : CompetitorFinder.Competitor)
    (xs : list CompetitorFinder.Competitor) :
  Spec.ordered xs → Spec.ordered (CompetitorFinder.insert_by Spec.rank x xs).
Proof.
  induction xs as [|y xs IH]; cbn; [by intros _; split; [apply Forall_nil|]|].
  intros [Hy Hxs].
  destruct (Z.leb_spec (Spec.rank x) (Spec.rank y)) as [Hle|Hlt]; cbn.
  - split; [|done]. apply Forall_cons. split; [done|].
    eapply Forall_impl; [exact Hy|]. cbn. intros c Hc. lia.
  - split; [|by apply IH].
    apply Forall_forall. intros c [->|Hc]%insert_by_elem_of; [lia|].
    by apply (proj1 (Forall_forall _ _) Hy).
Qed.

Lemma sort_by_ordered (xs : list CompetitorFinder.Competitor) :
  Spec.ordered (CompetitorFinder.sort_by Spec.rank xs).
Proof.
  induction xs as [|x xs IH]; cbn; [done|]. by apply insert_by_ordered.
Qed.

Lemma take_ordered (n : nat) (xs : list CompetitorFinder.Competitor) :
  Spec.ordered xs → Spec.ordered (take n xs).
Proof.
  revert n. induction xs as [|x xs IH]; intros [|n]; cbn; try done.
  intros [Hx Hxs]. split; [|by apply IH].
  by apply Forall_take.
Qed.

Lemma slice_to_ordered (n : Z) (xs : list CompetitorFinder.Competitor) :
  Spec.ordered xs → Spec.ordered (slice_to n xs).
Proof. unfold slice_to. destruct (0 <=? n); apply take_ordered. Qed.

Lemma slice_to_elem_of {A} (n : Z) (x : A) (xs : list A) :
  x ∈ slice_to n xs → x ∈ xs.
Proof.
  unfold slice_to. destruct (0 <=? n); apply subseteq_take.
Qed.

Section FindFacts.

Variable validators_url : string → bool.
Variable urlparse_netloc : string → string.
Variable live_results : string → list CompetitorFinder.SearchResult.
Variable random_draw : nat → nat.

Local Abbreviation find_competitors :=
  (CompetitorFinder.find_competitors validators_url urlparse_netloc live_results
     random_draw).

Lemma industry_competitors_source (domain : string) (needed : Z) :
  Forall (λ c, CompetitorFinder.c_source c = "Industry Analysis")
    (CompetitorFinder._generate_industry_competitors validators_url
       urlparse_netloc domain needed).
Proof.
  unfold CompetitorFinder._generate_industry_competitors.
  destruct (snd <$> List.find _ _) as [leaders|]; [|by apply Forall_nil].
  apply Forall_forall. intros c Hc. apply list_elem_of_In in Hc.
  by apply in_map_iff in Hc as (leader & <- & _).
Qed.

Lemma database_competitors_source (urls : list string) :
  Forall (λ c, CompetitorFinder.c_source c = "Database")
    (imap (CompetitorFinder.database_competitor validators_url urlparse_netloc
             random_draw) urls).
Proof.
  apply Forall_forall. intros c Hc.
  apply list_elem_of_lookup in Hc as [i Hi].
  rewrite list_lookup_imap in Hi.
  destruct (urls !! i); [|done]. by injection Hi as <-.
Qed.

(** X27. [find_competitors] raises nothing but [AttributeError]. What it
    returns holds at least two records and at most [max 2 limit], ordered
    by source (database first, then web search, then industry analysis),
    and holds no record of another source. *)
Theorem X27_find_competitors_result (website_url : string) (limit : Z) :
  match find_competitors website_url limit with
  | Ok competitors =>
      (2 ≤ length competitors)%nat
      ∧ len competitors ≤ Z.max 2 limit
      ∧ Spec.ordered competitors
      ∧ Forall (λ c, CompetitorFinder.c_source c ∈ Spec.returned_sources)
               competitors
  | Raise e => e = AttributeError
  end.
Proof.
  unfold CompetitorFinder.find_competitors.
  set (domain := match CompetitorFinder.extract_domain _ _ website_url with
                 | Some d => if PyStr.truthy d then d else "unknown"
                 | None => "unknown" end).
  set (c1 := imap _ _).
  assert (H1 : Forall (λ c, CompetitorFinder.c_source c ∈ Spec.returned_sources) c1).
  { eapply Forall_impl; [apply database_competitors_source|].
    cbn. intros c ->. apply list_elem_of_here. }
  set (c2 := if len c1 <? 2 then _ else c1).
  assert (H2 : Forall (λ c, CompetitorFinder.c_source c ∈ Spec.returned_sources) c2).
  { subst c2. destruct (len c1 <? 2); [|done]. apply Forall_app. split; [done|].
    match goal with |- Forall _ (CompetitorFinder._search_web_competitors _ _ _ ?d ?n) =>
      destruct (search_web_competitors_spec validators_url urlparse_netloc
                  live_results d n) as (Hw & _) end.
    eapply Forall_impl; [exact Hw|]. cbn. intros c [-> _].
    apply list_elem_of_further, list_elem_of_here. }
  set (c3 := if len c2 <? 2 then _ else c2).
  assert (H3 : Forall (λ c, CompetitorFinder.c_source c ∈ Spec.returned_sources) c3).
  { subst c3. destruct (len c2 <? 2); [|done]. apply Forall_app. split; [done|].
    eapply Forall_impl; [apply industry_competitors_source|]. cbn. intros c ->.
    do 2 apply list_elem_of_further. apply list_elem_of_here. }
  clearbody c3. clear H1 H2 c2.
  destruct (len c3 <? 2) eqn:E.
  - reflexivity.
  - apply Z.ltb_ge in E. cbn.
    replace (Z.to_nat (2 - len c3)) with 0%nat by lia. cbn.
    match goal with |- context [slice_to ?n ?l] =>
      pose proof (slice_to_length n l ltac:(lia)) as Hs;
      assert (len l = len c3) as Hl by (unfold len; by rewrite sort_by_length)
    end.
    split; [unfold len in *; lia|]. split; [lia|]. split.
    + apply slice_to_ordered. apply sort_by_ordered.
    + apply Forall_forall. intros c Hc%slice_to_elem_of.
      apply sort_by_elem_of in Hc. by apply (proj1 (Forall_forall _ _) H3).
Qed.

End FindFacts.

Lemma X27_find_competitors_result_witness :
  match CompetitorFinder.find_competitors Samples.validators_url Samples.netloc
          Samples.no_results (λ _, 0%nat) "allbirds.com" 3 with
  | Ok competitors => length competitors = 3%nat ∧ Spec.ordered competitors
  | Raise _ => False
  end.
Proof.
  pose proof (X27_find_competitors_result Samples.validators_url Samples.netloc
                Samples.no_results (λ _, 0%nat) "allbirds.com" 3) as H.
  destruct (CompetitorFinder.find_competitors Samples.validators_url Samples.netloc
              Samples.no_results (λ _, 0%nat) "allbirds.com" 3)
    as [competitors|e] eqn:E.
  - destruct H as (_ & _ & Hordered & _). split; [|exact Hordered].
    vm_compute in E. by injection E as <-.
  - vm_compute in E. discriminate E.
Defined.
